(** * Verification of the air-quality and telco ETL scripts

    A shallow embedding of the Python sources
    - [urban_airq_api/scripts/extract.py], [transform.py], [load.py],
      [run_pipeline.py], and
    - [etlex/scripts/validate.py] and the derived fields of
      [etlex/scripts/transform.py],
    followed by the properties established about them.

    Conventions of the embedding.
    - A Python [dict] is an association list in insertion order
      ([Py.dict_set] keeps the position of an existing key, as Python does).
    - A float is an IEEE 754 binary64 value ([spec_float] at precision 53);
      pandas' missing number is the NaN of that type.
    - Calls that leave the process (HTTP requests, the Supabase client, the
      clock, sub-processes, the file system) are answered by a [World]
      record; what the program does to the outside is recorded as a list of
      [event]s, oldest first.
    - A Python exception is a value [Raise e]; [try ... except Exception]
      is [IO.try_except], which lets [KeyboardInterrupt] and [SystemExit]
      through. *)

From Stdlib Require Import ZArith List String Ascii Bool Lia.
From Stdlib Require Import Floats.SpecFloat.
Import ListNotations.
Open Scope string_scope.
Open Scope list_scope.
Open Scope Z_scope.

(* ================================================================== *)
(** * Python values, floats, dictionaries, exceptions and effects      *)
(* ================================================================== *)

Module Py.

(** ** binary64 floats *)

Definition prec : Z := 53.
Definition emax : Z := 1024.

Definition float := spec_float.

Definition nan : float := S754_nan.

(** [float(z)] for a Python int: round to nearest even. *)
Definition float_of_Z (z : Z) : float := binary_normalize prec emax z 0 false.

Definition fmul (x y : float) : float := SFmul prec emax x y.
Definition fadd (x y : float) : float := SFadd prec emax x y.
Definition fleb (x y : float) : bool := SFleb x y.
Definition fltb (x y : float) : bool := SFltb x y.

(** [math.isnan]. *)
Definition isnan (x : float) : bool :=
  match x with S754_nan => true | _ => false end.

(** The sign bit is clear and the value is not NaN: zero, a positive
    finite number or plus infinity. *)
Definition nonneg (x : float) : bool :=
  match x with
  | S754_zero s | S754_infinity s | S754_finite s _ _ => negb s
  | S754_nan => false
  end.

(** [float.is_integer]: finite and without a fractional part. *)
Definition is_integer (x : float) : bool :=
  match x with
  | S754_zero _ => true
  | S754_finite _ m e =>
      if 0 <=? e then true
      else Z.pos m mod 2 ^ (- e) =? 0
  | _ => false
  end.

(** [int(x)] for a float: truncation toward zero (the callers only use
    it on integral floats, where it is exact); infinities and NaN raise
    in Python and are mapped to 0 here, they are never reached. *)
Definition int_of_float (x : float) : Z :=
  match x with
  | S754_finite s m e =>
      let a := if 0 <=? e then Z.pos m * 2 ^ e else Z.pos m / 2 ^ (- e) in
      if s then - a else a
  | _ => 0
  end.

(** ** strings *)

Definition lower_ascii (c : ascii) : ascii :=
  let n := nat_of_ascii c in
  if ((65 <=? n) && (n <=? 90))%nat then ascii_of_nat (n + 32) else c.

(** [str.lower] on the ASCII range (column names and keys of this
    program are ASCII). *)
Fixpoint lower (s : string) : string :=
  match s with
  | EmptyString => EmptyString
  | String c s' => String (lower_ascii c) (lower s')
  end.

Definition upper_ascii (c : ascii) : ascii :=
  let n := nat_of_ascii c in
  if ((97 <=? n) && (n <=? 122))%nat then ascii_of_nat (n - 32) else c.

Fixpoint upper (s : string) : string :=
  match s with
  | EmptyString => EmptyString
  | String c s' => String (upper_ascii c) (upper s')
  end.

(** [x in xs] for strings. *)
Definition mem (x : string) (xs : list string) : bool :=
  existsb (String.eqb x) xs.

(** ** ranges *)

(** [range(a, b)]. *)
Definition range (a b : Z) : list Z :=
  map (fun k => a + Z.of_nat k) (seq 0 (Z.to_nat (b - a))).

(** ** JSON *)

(** JSON documents, as [json.loads] and [resp.json()] return them. *)
#[warnings="-register-all"]
Inductive json :=
| JNull
| JBool (b : bool)
| JInt (z : Z)
| JFloat (f : float)
| JStr (s : string)
| JList (items : list json)
| JDict (fields : list (string * json)).

(** Python's truth value of a JSON document. *)
Definition truthy (j : json) : bool :=
  match j with
  | JNull => false
  | JBool b => b
  | JInt z => negb (z =? 0)
  | JFloat f => negb (SFeqb f (S754_zero false))
  | JStr s => negb (String.eqb s EmptyString)
  | JList l => match l with [] => false | _ => true end
  | JDict d => match d with [] => false | _ => true end
  end.

(** ** values *)

(** The widths of [numpy.floating]; only [F64] ([numpy.float64]) is a
    subclass of Python's [float]. *)
Inductive npfloat_kind := F16 | F32 | F64.

(** The scalars that occur in frames and records: Python's own, the
    pandas missing markers and time stamp, and numpy's scalars. A time
    stamp is a number of nanoseconds since the epoch. *)
Inductive value :=
| VNone
| VNA                                   (* pandas.NA *)
| VNaT                                  (* pandas.NaT *)
| VBool (b : bool)
| VInt (z : Z)
| VFloat (f : float)
| VStr (s : string)
| VTimestamp (t : Z)                    (* pandas.Timestamp *)
| VNpBool (b : bool)                    (* numpy.bool_ *)
| VNpInt (z : Z)                        (* numpy.integer *)
| VNpFloat (k : npfloat_kind) (f : float)   (* numpy.floating *)
| VNpDatetime64 (t : option Z)          (* numpy.datetime64, None = NaT *)
| VObj (j : json).                      (* a list or dict held in a cell *)

(** [pandas.isna] / [pandas.isnull] on a scalar. *)
Definition isna (v : value) : bool :=
  match v with
  | VNone | VNA | VNaT => true
  | VFloat f | VNpFloat _ f => isnan f
  | VNpDatetime64 None => true
  | _ => false
  end.

Definition notnull (v : value) : bool := negb (isna v).

(** [isinstance(v, float) and math.isnan(v)]. *)
Definition is_float_nan (v : value) : bool :=
  match v with
  | VFloat f | VNpFloat F64 f => isnan f
  | _ => false
  end.

(** ** dictionaries *)

Definition dict (V : Type) := list (string * V).

(** [d[k] = v]. *)
Fixpoint dict_set {V} (k : string) (v : V) (d : dict V) : dict V :=
  match d with
  | [] => [(k, v)]
  | (k', v') :: d' =>
      if String.eqb k k' then (k', v) :: d' else (k', v') :: dict_set k v d'
  end.

(** [d.get(k)]. *)
Fixpoint dict_get {V} (k : string) (d : dict V) : option V :=
  match d with
  | [] => None
  | (k', v') :: d' => if String.eqb k k' then Some v' else dict_get k d'
  end.

Definition keys {V} (d : dict V) : list string := map fst d.

(** [dict(pairs)]. *)
Definition dict_of {V} (pairs : list (string * V)) : dict V :=
  fold_left (fun d kv => dict_set (fst kv) (snd kv) d) pairs [].

(** ** exceptions *)

(** An exception: its class name and its message. *)
Inductive exn := Exn (cls : string) (msg : string).

Definition exn_class (e : exn) : string := let 'Exn c _ := e in c.

(** [str(e)]. *)
Definition exn_message (e : exn) : string := let 'Exn _ m := e in m.

(** The classes that derive from [BaseException] but not from
    [Exception]; [except Exception] lets them through. *)
Definition is_Exception (e : exn) : bool :=
  negb (mem (exn_class e) ["SystemExit"; "KeyboardInterrupt"; "GeneratorExit"]).

Inductive result (A : Type) :=
| Ok (a : A)
| Raise (e : exn)
| OutOfFuel.     (* a bounded loop of the model ran out of steps *)
Arguments Ok {A} a.
Arguments Raise {A} e.
Arguments OutOfFuel {A}.

(** Sequencing of computations that may raise. *)
Definition and_then {A B} (r : result A) (k : A -> result B) : result B :=
  match r with
  | Ok a => k a
  | Raise e => Raise e
  | OutOfFuel => OutOfFuel
  end.

(** [for x in xs: body], collecting what the body yields; the first
    exception ends the loop. *)
Fixpoint for_each {A B} (body : A -> result (list B)) (xs : list A) : result (list B) :=
  match xs with
  | [] => Ok []
  | x :: rest =>
      and_then (body x) (fun ys =>
      and_then (for_each body rest) (fun zs => Ok (ys ++ zs)))
  end.

(** ** JSON documents as Python objects *)

Definition type_error (msg : string) : exn := Exn "TypeError" msg.

(** [key in j]. *)
Definition json_in (key : string) (j : json) : result bool :=
  match j with
  | JDict d => Ok (mem key (map fst d))
  | JList l => Ok (existsb (fun x => match x with JStr s => String.eqb s key | _ => false end) l)
  | JStr s => Ok (match String.index 0 key s with Some _ => true | None => false end)
  | _ => Raise (type_error "argument is not iterable")
  end.

(** [j.get(key, default)]. *)
Definition json_get (key : string) (default : json) (j : json) : result json :=
  match j with
  | JDict d => Ok (match dict_get key d with Some x => x | None => default end)
  | _ => Raise (Exn "AttributeError" "object has no attribute 'get'")
  end.

(** [j[key]]. *)
Definition json_item (key : string) (j : json) : result json :=
  match j with
  | JDict d =>
      match dict_get key d with
      | Some x => Ok x
      | None => Raise (Exn "KeyError" key)
      end
  | _ => Raise (type_error "indices must be integers")
  end.

Fixpoint chars (s : string) : list json :=
  match s with
  | EmptyString => []
  | String c s' => JStr (String c EmptyString) :: chars s'
  end.

(** [for x in j]. *)
Definition json_iter (j : json) : result (list json) :=
  match j with
  | JList l => Ok l
  | JDict d => Ok (map (fun kv => JStr (fst kv)) d)
  | JStr s => Ok (chars s)
  | _ => Raise (type_error "object is not iterable")
  end.

(** The cell that holds a JSON value. *)
Definition value_of_json (j : json) : value :=
  match j with
  | JNull => VNone
  | JBool b => VBool b
  | JInt z => VInt z
  | JFloat f => VFloat f
  | JStr s => VStr s
  | _ => VObj j
  end.

End Py.

(* ================================================================== *)
(** * Data frames                                                      *)
(* ================================================================== *)

Module Frame.
Import Py.

(** The cells of one row, by column label, in column order. *)
Definition row := dict value.

Record DataFrame := { columns : list string; rows : list row }.

(** [pd.DataFrame()]. *)
Definition empty_frame : DataFrame := {| columns := []; rows := [] |}.

(** [df.empty]: one of the axes has length zero. *)
Definition is_empty (df : DataFrame) : bool :=
  match columns df, rows df with
  | [], _ | _, [] => true
  | _, _ => false
  end.

(** [len(df)]. *)
Definition len (df : DataFrame) : nat := List.length (rows df).

(** [col in df.columns]. *)
Definition has_column (c : string) (df : DataFrame) : bool := mem c (columns df).

(** The cell of row [r] in column [c]; a cell that a row lacks reads as
    NaN, the filler pandas uses. *)
Definition cell (c : string) (r : row) : value :=
  match dict_get c r with Some v => v | None => VFloat nan end.

(** [df[c]] as the list of its cells. *)
Definition column (c : string) (df : DataFrame) : list value :=
  map (cell c) (rows df).

(** [df[c] = f(row)], row by row: the column is replaced in place when
    it exists and appended otherwise. *)
Definition assign (c : string) (f : row -> value) (df : DataFrame) : DataFrame :=
  {| columns := if has_column c df then columns df else columns df ++ [c];
     rows := map (fun r => dict_set c (f r) r) (rows df) |}.

(** [df[c] = vals] for a computed column of the frame's length. *)
Definition assign_column (c : string) (vals : list value) (df : DataFrame) : DataFrame :=
  {| columns := if has_column c df then columns df else columns df ++ [c];
     rows := map (fun rv => dict_set c (snd rv) (fst rv)) (combine (rows df) vals) |}.

(** [df.dropna(subset=cols, how="all")]. *)
Definition dropna_all (cols : list string) (df : DataFrame) : DataFrame :=
  {| columns := columns df;
     rows := filter (fun r => negb (forallb (fun c => isna (cell c r)) cols)) (rows df) |}.

End Frame.

(* ================================================================== *)
(** * Effects                                                          *)
(* ================================================================== *)

Module IO.
Import Py Frame.

(** The two HTTP requests of extract.py. *)
Inductive request :=
| OpenAQ_latest (city : string)                   (* OPENAQ_BASE?city=... *)
| OpenMeteo_air_quality (lat lon : float).        (* OPEN_METEO_BASE, hourly *)

Inductive stage := Extracting | Transforming | Loading | Analysing.

(** What a run does to the outside world. *)
Inductive event :=
| EvGet (q : request)                             (* requests.get *)
| EvSleep (seconds : Z)                           (* time.sleep *)
| EvSaveRaw (path : string) (payload : json)      (* save_raw *)
| EvToCsv (path : string) (df : DataFrame)        (* df.to_csv *)
| EvInsert (table : string) (batch_no attempt : Z)
           (batch : list (dict value))            (* insert(batch).execute() *)
| EvStage (s : stage)                             (* a run_* step starts *)
| EvSubprocess (script : string).                 (* run_subprocess *)

(** A computation: its result and the events it caused, oldest first. *)
Definition io (A : Type) : Type := result A * list event.

Definition ret {A} (a : A) : io A := (Ok a, []).
Definition raise {A} (e : exn) : io A := (Raise e, []).
Definition emit (e : event) : io unit := (Ok tt, [e]).

Definition bind {A B} (m : io A) (k : A -> io B) : io B :=
  match m with
  | (Ok a, t) => let '(r, t') := k a in (r, t ++ t')
  | (Raise e, t) => (Raise e, t)
  | (OutOfFuel, t) => (OutOfFuel, t)
  end.

(** [try: m  except Exception as e: h e]. *)
Definition try_except {A} (m : io A) (h : exn -> io A) : io A :=
  match m with
  | (Raise e, t) =>
      if is_Exception e then let '(r, t') := h e in (r, t ++ t')
      else (Raise e, t)
  | other => other
  end.

(** [try: m  except TypeError: h]. *)
Definition try_except_class {A} (cls : string) (m : io A) (h : io A) : io A :=
  match m with
  | (Raise e, t) =>
      if String.eqb (exn_class e) cls then let '(r, t') := h in (r, t ++ t')
      else (Raise e, t)
  | other => other
  end.

Definition events {A} (m : io A) : list event := snd m.
Definition outcome {A} (m : io A) : result A := fst m.

Declare Scope io_scope.
Delimit Scope io_scope with io.
Notation "x <- m ;; k" := (bind m (fun x => k))
  (at level 61, m at next level, right associativity) : io_scope.
Notation "m ;;; k" := (bind m (fun _ => k))
  (at level 61, right associativity) : io_scope.

End IO.


(* ================================================================== *)
(** * pandas routines                                                  *)
(* ================================================================== *)

Module Pandas.
Import Py Frame.

(** The classes of the exceptions with which pandas refuses data that it
    cannot make a frame of. *)
Inductive data_error := AttributeError | TypeError | ValueError.

Definition data_exn (c : data_error) : exn :=
  match c with
  | AttributeError => Exn "AttributeError" "object has no attribute 'keys'"
  | TypeError => Exn "TypeError" "object is not iterable"
  | ValueError => Exn "ValueError" "DataFrame constructor not properly called!"
  end.

(** The routines of pandas that the scripts call and that are not
    written out here; the development is parametric in them. They are
    pandas as it answers in one run: the words of [clock_words] are not
    parsed by [pd.to_datetime] but resolved against the clock, which
    [at_clock] makes explicit where two runs are compared. *)
Record parsers := {
  (** [pd.to_numeric(s, errors="coerce")] on a string: NaN when [s] is
      not a number. *)
  parse_float : string -> float;
  (** [pd.to_datetime(v, errors="coerce")] on a scalar: [None] is NaT. *)
  to_datetime : value -> option Z;
  (** [Timestamp.isoformat()]. *)
  isoformat : Z -> string;
  (** [df.pivot_table(index=["city", "time"], aggfunc="first")
      .reset_index()]. *)
  pivot_first_by_city_time : DataFrame -> DataFrame;
  (** [pd.DataFrame(data)] for the documents whose frame is not
      written out in [Transform.frame_of]: a dictionary one of whose
      entries is a dictionary, a list that holds something else than
      dictionaries. *)
  frame_of_nested : json -> DataFrame + data_error;
  (** Whether [df.where(cond, None)] leaves NaN in a float64 column
      (pandas from 1.3 on reads the [None] as NaN there) or turns the
      column into objects holding [None] (earlier versions). *)
  where_keeps_float_nan : bool
}.

(** The words that [pd.to_datetime] does not parse: it takes the time
    of the clock for them ([Timestamp.now()], [Timestamp.today()]). *)
Definition clock_words : list string := ["now"; "today"].

(** pandas in a run whose clock reads [now], a time stamp. *)
Definition at_clock (P : parsers) (now : Z) : parsers :=
  {| parse_float := parse_float P;
     to_datetime := fun v =>
       match v with
       | VStr s => if mem s clock_words then Some now else to_datetime P v
       | _ => to_datetime P v
       end;
     isoformat := isoformat P;
     pivot_first_by_city_time := pivot_first_by_city_time P;
     frame_of_nested := frame_of_nested P;
     where_keeps_float_nan := where_keeps_float_nan P |}.

(** [pd.to_numeric(..., errors="coerce")] on one cell, as a float64 (a
    column that pandas keeps as int64 is represented by the floats of its
    integers; whether a cell is missing is not affected). *)
Definition to_numeric (P : parsers) (v : value) : float :=
  match v with
  | VFloat f | VNpFloat _ f => f
  | VInt z | VNpInt z => float_of_Z z
  | VBool b | VNpBool b => float_of_Z (if b then 1 else 0)
  | VStr s => parse_float P s
  | _ => nan
  end.

(** The number a cell contributes to column arithmetic: [None] and the
    other missing markers behave as NaN. *)
Definition num (v : value) : float :=
  match v with
  | VFloat f | VNpFloat _ f => f
  | VInt z | VNpInt z => float_of_Z z
  | VBool b | VNpBool b => float_of_Z (if b then 1 else 0)
  | _ => nan
  end.

Definition ns_per_hour : Z := 3600 * 1000000000.

(** [Timestamp.hour]. *)
Definition hour_of (t : Z) : Z := (t / ns_per_hour) mod 24.

(** [series.dt.hour] on a datetime column: integers, or floats with NaN
    as soon as one time stamp is NaT. *)
Definition dt_hour (times : list value) : list value :=
  let hour v := match v with VTimestamp t => Some (hour_of t) | _ => None end in
  if forallb (fun v => match hour v with Some _ => true | None => false end) times
  then map (fun v => match hour v with Some h => VInt h | None => VNaT end) times
  else map (fun v => match hour v with
                     | Some h => VFloat (float_of_Z h)
                     | None => VFloat nan
                     end) times.

End Pandas.

(* ================================================================== *)
(** * transform.py (urban_airq_api)                                    *)
(* ================================================================== *)

Module Transform.
Import Py IO Frame Pandas.

Definition pollutants : list string :=
  ["pm10"; "pm2_5"; "carbon_monoxide"; "nitrogen_dioxide"; "sulphur_dioxide"; "ozone"].

(** The schema variants that [detect_api_format] tells apart. *)
Inductive api_format := Fmt_openaq | Fmt_openmeteo | Fmt_unknown.

(** [detect_api_format]; the membership test raises on a payload that
    is a number, a boolean or null. *)
Definition detect_api_format (payload : json) : result api_format :=
  and_then (json_in "results" payload) (fun has_results =>
  if has_results then Ok Fmt_openaq
  else
    and_then (json_in "hourly" payload) (fun has_hourly =>
    if has_hourly then Ok Fmt_openmeteo else Ok Fmt_unknown)).

Definition f50 : float := Eval vm_compute in float_of_Z 50.
Definition f100 : float := Eval vm_compute in float_of_Z 100.
Definition f200 : float := Eval vm_compute in float_of_Z 200.
Definition f300 : float := Eval vm_compute in float_of_Z 300.
Definition f400 : float := Eval vm_compute in float_of_Z 400.
Definition f2 : float := Eval vm_compute in float_of_Z 2.
Definition f3 : float := Eval vm_compute in float_of_Z 3.
Definition f4 : float := Eval vm_compute in float_of_Z 4.
Definition f5 : float := Eval vm_compute in float_of_Z 5.

(** [classify_aqi], the inner function of [add_features]. *)
Definition classify_aqi (pm2_5 : value) : string :=
  if isna pm2_5 then "Unknown"
  else if fleb (num pm2_5) f50 then "Good"
  else if fleb (num pm2_5) f100 then "Moderate"
  else if fleb (num pm2_5) f200 then "Unhealthy"
  else if fleb (num pm2_5) f300 then "Very Unhealthy"
  else "Hazardous".

(** The weighted sum of lines 151-158, evaluated left to right. *)
Definition severity (r : row) : float :=
  fadd (fadd (fadd (fadd (fadd
    (fmul (num (cell "pm2_5" r)) f5)
    (fmul (num (cell "pm10" r)) f3))
    (fmul (num (cell "nitrogen_dioxide" r)) f4))
    (fmul (num (cell "sulphur_dioxide" r)) f4))
    (fmul (num (cell "carbon_monoxide" r)) f2))
    (fmul (num (cell "ozone" r)) f3).

(** [classify_risk], the inner function of [add_features]. *)
Definition classify_risk (s : value) : string :=
  if isna s then "Unknown"
  else if fltb f400 (num s) then "High Risk"
  else if fltb f200 (num s) then "Moderate Risk"
  else "Low Risk".

(** The loop of lines 120-124 for one column. *)
Definition coerce_pollutant (P : parsers) (df : DataFrame) (col : string) : DataFrame :=
  if has_column col df
  then assign col (fun r => VFloat (to_numeric P (cell col r))) df
  else assign col (fun _ => VNone) df.

(** [add_features]; [df["time"]] raises [KeyError] on a frame without
    that column. What pandas raises on cells that it cannot convert is
    not written out: the properties of the frame are stated for the runs
    that return. *)
Definition add_features (P : parsers) (df : DataFrame) : result DataFrame :=
  let df := fold_left (coerce_pollutant P) pollutants df in
  let df := dropna_all pollutants df in
  let df := assign "AQI_Category" (fun r => VStr (classify_aqi (cell "pm2_5" r))) df in
  let df := assign "severity_score" (fun r => VFloat (severity r)) df in
  let df := assign "Risk_Level" (fun r => VStr (classify_risk (cell "severity_score" r))) df in
  if has_column "time" df then
    let df := assign "time"
                (fun r => match to_datetime P (cell "time" r) with
                          | Some t => VTimestamp t
                          | None => VNaT
                          end) df in
    let df := assign_column "hour" (dt_hour (column "time" df)) df in
    Ok df
  else Raise (Exn "KeyError" "time").

(** [pd.DataFrame(rows)] for a list of dictionaries: the columns are the
    keys in the order of their first appearance, a cell that a row lacks
    is NaN. *)
Definition union_columns (rs : list row) : list string :=
  fold_left (fun acc r =>
               fold_left (fun acc k => if mem k acc then acc else acc ++ [k]) (keys r) acc)
            rs [].

Definition reindex (cols : list string) (r : row) : row :=
  map (fun c => (c, cell c r)) cols.

Definition frame_of_records (rs : list row) : DataFrame :=
  let cols := union_columns rs in
  {| columns := cols; rows := map (reindex cols) rs |}.

(** [pd.concat(frames, ignore_index=True)]. *)
Definition concat (frames : list DataFrame) : DataFrame :=
  let cols := fold_left (fun acc df =>
                           fold_left (fun acc k => if mem k acc then acc else acc ++ [k])
                                     (columns df) acc)
                        frames [] in
  {| columns := cols; rows := flat_map (fun df => map (reindex cols) (rows df)) frames |}.

(** The label of the column that a measurement's parameter names; a
    parameter that is not a string is represented by its text. *)
Definition label_of (parameter : json) : string :=
  match parameter with
  | JStr s => s
  | JNull => "None"
  | JBool true => "True"
  | JBool false => "False"
  | _ => "?"
  end.

(** Lines 54-58: the row appended for one measurement [m]. *)
Definition measurement_row (city : string) (m : json) : result (list row) :=
  and_then (json_get "lastUpdated" JNull m) (fun last_updated =>
  and_then (if truthy last_updated then Ok last_updated
            else and_then (json_get "date" (JDict []) m) (json_get "utc" JNull))
           (fun time =>
  and_then (json_get "parameter" JNull m) (fun parameter =>
  and_then (json_get "value" JNull m) (fun v =>
  Ok [dict_of [("city", VStr city); ("time", value_of_json time);
               (label_of parameter, value_of_json v)]])))).

(** Lines 49-58: the rows of one station. *)
Definition station_rows (city : string) (station : json) : result (list row) :=
  and_then (json_in "measurements" station) (fun has =>
  if has then
    and_then (json_item "measurements" station) (fun ms =>
    and_then (json_iter ms) (for_each (measurement_row city)))
  else Ok []).

(** [flatten_openaq]. *)
Definition flatten_openaq (P : parsers) (payload : json) (city : string) : result DataFrame :=
  and_then (json_in "results" payload) (fun has =>
  if has then
    and_then (json_item "results" payload) (fun results =>
    and_then (json_iter results) (fun stations =>
    and_then (for_each (station_rows city) stations) (fun rs =>
    let df := frame_of_records rs in
    if is_empty df then Ok df
    else Ok (pivot_first_by_city_time P df))))
  else Ok empty_frame).

(** The lengths of the lists among the entries of a dictionary. *)
Definition list_lengths (d : list (string * json)) : list nat :=
  flat_map (fun kv => match snd kv with JList l => [List.length l] | _ => [] end) d.

(** The cell of row [i] under an entry of the dictionary: item [i] of a
    list, and a scalar as it is. *)
Definition entry_cell (i : nat) (entry : json) : value :=
  match entry with
  | JList l => value_of_json (nth i l JNull)
  | scalar => value_of_json scalar
  end.

(** [pd.DataFrame(data)] for a dictionary of lists and scalars, one per
    column: the lists must be equally long, a scalar is repeated in every
    row, and scalars alone are refused. *)
Definition frame_of_columns (d : list (string * json)) : result DataFrame :=
  match d with
  | [] => Ok empty_frame
  | _ =>
      match list_lengths d with
      | [] => Raise (Exn "ValueError" "If using all scalar values, you must pass an index")
      | n :: others =>
          if forallb (Nat.eqb n) others then
            Ok {| columns := map fst d;
                  rows := map (fun i => map (fun kv => (fst kv, entry_cell i (snd kv))) d)
                              (seq 0 n) |}
          else Raise (Exn "ValueError" "All arrays must be of the same length")
      end
  end.

Definition is_dict (j : json) : bool :=
  match j with JDict _ => true | _ => false end.

(** The record that a dictionary of a list is. *)
Definition record_of (j : json) : row :=
  match j with
  | JDict d => map (fun kv => (fst kv, value_of_json (snd kv))) d
  | _ => []
  end.

(** [pd.DataFrame(data)] for a document: no data gives the empty frame,
    a dictionary is read by columns and a list of dictionaries by records;
    a number, a boolean and a text are refused. *)
Definition frame_of (P : parsers) (data : json) : result DataFrame :=
  let nested := match frame_of_nested P data with
                | inl df => Ok df
                | inr c => Raise (data_exn c)
                end in
  match data with
  | JNull => Ok empty_frame
  | JDict d =>
      if existsb (fun kv => is_dict (snd kv)) d then nested else frame_of_columns d
  | JList [] => Ok empty_frame
  | JList items =>
      if forallb is_dict items then Ok (frame_of_records (map record_of items)) else nested
  | _ => Raise (Exn "ValueError" "DataFrame constructor not properly called!")
  end.

(** [flatten_open_meteo]. *)
Definition flatten_open_meteo (P : parsers) (payload : json) (city : string) : result DataFrame :=
  and_then (json_in "hourly" payload) (fun has =>
  if has then
    and_then (json_item "hourly" payload) (fun data =>
    and_then (frame_of P data) (fun df =>
    let df := assign "city" (fun _ => VStr city) df in
    if has_column "time" df then
      Ok (assign "time" (fun r => match to_datetime P (cell "time" r) with
                                  | Some t => VTimestamp t
                                  | None => VNaT
                                  end) df)
    else Ok df))
  else Ok empty_frame).

(** [file.stem.split("_")[0]]: the file name without its last suffix,
    up to the first underscore. *)
Fixpoint before (sep : ascii) (s : string) : string :=
  match s with
  | EmptyString => EmptyString
  | String c s' => if Ascii.eqb c sep then EmptyString else String c (before sep s')
  end.

Fixpoint stem_rev (s : string) (seen_dot : bool) : string :=
  match s with
  | EmptyString => EmptyString
  | String c s' =>
      if seen_dot then String c (stem_rev s' true)
      else if Ascii.eqb c "."%char then stem_rev s' true
      else stem_rev s' false
  end.

Fixpoint rev_string (s acc : string) : string :=
  match s with
  | EmptyString => acc
  | String c s' => rev_string s' (String c acc)
  end.

Definition stem (name : string) : string :=
  match String.index 0 "." name with
  | Some _ => rev_string (stem_rev (rev_string name EmptyString) false) EmptyString
  | None => name
  end.

Definition city_of_file (name : string) : string := before "_"%char (stem name).

Definition OUTPUT_FILE : string := "data/staged/air_quality_transformed.csv".

(** What a run of transform.py finds around it: the JSON files of the
    raw directory, in the order [glob] lists them, each with its parsed
    content ([None] when reading or parsing fails), and the ambient state
    of the process: the clock as pandas reads it (a time stamp), the
    environment variables and the working directory. *)
Record World := {
  raw_files : list (string * option json);
  wall_clock : Z;
  environ : string -> option string;
  working_directory : string
}.

(** The body of the loop of lines 192-212 for one file: the frame to
    append, if any. *)
Definition flatten_file (P : parsers) (file : string * option json)
  : result (list DataFrame) :=
  match snd file with
  | None => Ok []
  | Some payload =>
      let city := city_of_file (fst file) in
      and_then (detect_api_format payload) (fun fmt =>
      and_then (match fmt with
                | Fmt_openaq => and_then (flatten_openaq P payload city) (fun df => Ok (Some df))
                | Fmt_openmeteo =>
                    and_then (flatten_open_meteo P payload city) (fun df => Ok (Some df))
                | Fmt_unknown => Ok None
                end)
               (fun df => match df with
                          | Some df => if is_empty df then Ok [] else Ok [df]
                          | None => Ok []
                          end))
  end.

(** [transform], with pandas as it answers at the clock of the run. *)
Definition transform (P : parsers) (w : World) : io unit :=
  let P := at_clock P (wall_clock w) in
  match for_each (flatten_file P) (raw_files w) with
  | Ok all_data =>
      match all_data with
      | [] => ret tt
      | _ =>
          match add_features P (concat all_data) with
          | Ok final_df => emit (EvToCsv OUTPUT_FILE final_df)
          | Raise e => raise e
          | OutOfFuel => (OutOfFuel, [])
          end
      end
  | Raise e => raise e
  | OutOfFuel => (OutOfFuel, [])
  end.

End Transform.

(* ================================================================== *)
(** * extract.py (urban_airq_api)                                      *)
(* ================================================================== *)

Module Extract.
Import Py IO.
Local Open Scope io_scope.

(** What [requests.get] does: it raises, or returns a response with a
    status code and a body ([None] when [resp.json()] raises). *)
Inductive http_result :=
| NetworkError (e : exn)
| Response (status_code : Z) (body : option json).

(** The environment of a run of extract.py. A request to OpenAQ is
    identified by the city and the number of the attempt, so the answer
    may change from one attempt to the next. *)
Record World := {
  MAX_RETRIES : Z;                              (* os.getenv("MAX_RETRIES", 3) *)
  RAW_DIR : string;
  openaq : string -> Z -> http_result;
  open_meteo : float -> float -> http_result;
  utcnow : string -> string;                    (* ts() when a city is saved *)
  write_file : string -> option exn             (* open() / json.dump *)
}.

Record info := { lat : float; lon : float }.

(** A decimal literal [m * 10^-k] as the nearest binary64. *)
Definition decimal (m : Z) (k : Z) : float :=
  SFdiv prec emax (float_of_Z m) (float_of_Z (10 ^ k)).

Definition DEFAULT_CITIES : list (string * info) :=
  Eval vm_compute in
  [("Delhi", {| lat := decimal 287041 4; lon := decimal 771025 4 |});
   ("Bengaluru", {| lat := decimal 129716 4; lon := decimal 775946 4 |});
   ("Hyderabad", {| lat := decimal 173850 4; lon := decimal 784867 4 |});
   ("Mumbai", {| lat := decimal 190760 4; lon := decimal 728777 4 |});
   ("Kolkata", {| lat := decimal 225726 4; lon := decimal 883639 4 |})].

(** [save_raw]. *)
Definition save_raw (w : World) (city : string) (payload : json) : io string :=
  let filename := (lower city ++ "_raw_" ++ utcnow w city ++ ".json")%string in
  let path := (RAW_DIR w ++ "/" ++ filename)%string in
  match write_file w path with
  | Some e => raise e
  | None => emit (EvSaveRaw path payload) ;;; ret path
  end.

(** [data.get("results")]; only a dict has [get]. *)
Definition get_results (data : json) : io json :=
  match data with
  | JDict d => ret (match dict_get "results" d with Some r => r | None => JNull end)
  | _ => raise (Exn "AttributeError" "object has no attribute 'get'")
  end.

(** [call_openaq_v3]; [attempt] identifies the request to the world. *)
Definition call_openaq_v3 (w : World) (city : string) (attempt : Z) : io (option json) :=
  emit (EvGet (OpenAQ_latest city)) ;;;
  match openaq w city attempt with
  | NetworkError e => raise e
  | Response status_code body =>
      if status_code =? 200 then
        match body with
        | None => raise (Exn "JSONDecodeError" "Expecting value")
        | Some data =>
            results <- get_results data ;;
            if truthy results then ret (Some data) else ret None
        end
      else ret None
  end.

(** [call_open_meteo]. *)
Definition call_open_meteo (w : World) (lat lon : float) : io (option json) :=
  emit (EvGet (OpenMeteo_air_quality lat lon)) ;;;
  match open_meteo w lat lon with
  | NetworkError e => raise e
  | Response status_code body =>
      if status_code =? 200 then
        match body with
        | None => raise (Exn "JSONDecodeError" "Expecting value")
        | Some data => ret (Some data)
        end
      else ret None
  end.

(** The dictionaries [fetch_city] returns. *)
Definition outcome_dict (city : string) (source raw_path : option string) : dict value :=
  let opt o := match o with Some s => VStr s | None => VNone end in
  [("city", VStr city); ("source", opt source); ("raw_path", opt raw_path)].

(** One pass through the body of the [for attempt] loop, up to the wait:
    [Some] is the early [return]. *)
Definition try_openaq (w : World) (city : string) (attempt : Z) : io (option (dict value)) :=
  try_except
    (data <- call_openaq_v3 w city attempt ;;
     match data with
     | Some d =>
         if truthy d then
           path <- save_raw w city d ;;
           ret (Some (outcome_dict city (Some "OpenAQ") (Some path)))
         else ret None
     | None => ret None
     end)
    (fun e => ret None).

(** The [for attempt in range(1, MAX_RETRIES + 1)] loop of [fetch_city]. *)
Fixpoint openaq_with_retries (w : World) (city : string) (attempts : list Z)
  : io (option (dict value)) :=
  match attempts with
  | [] => ret None
  | attempt :: rest =>
      r <- try_openaq w city attempt ;;
      match r with
      | Some found => ret (Some found)
      | None =>
          let wait := 2 ^ (attempt - 1) in
          emit (EvSleep wait) ;;;
          openaq_with_retries w city rest
      end
  end.

(** Lines 119-132 of [fetch_city]: the single fallback request. *)
Definition fallback_open_meteo (w : World) (city : string) (i : info) : io (dict value) :=
  fallback <- call_open_meteo w (lat i) (lon i) ;;
  match fallback with
  | Some d =>
      if truthy d then
        path <- save_raw w city d ;;
        ret (outcome_dict city (Some "Open-Meteo") (Some path))
      else ret (outcome_dict city None None)
  | None => ret (outcome_dict city None None)
  end.

(** [fetch_city]. *)
Definition fetch_city (w : World) (city : string) (i : info) : io (dict value) :=
  r <- openaq_with_retries w city (range 1 (MAX_RETRIES w + 1)) ;;
  match r with
  | Some found => ret found
  | None => fallback_open_meteo w city i
  end.

(** The loop of [fetch_all] over the items of a cities dictionary. *)
Fixpoint fetch_each (w : World) (cities : list (string * info)) : io (list (dict value)) :=
  match cities with
  | [] => ret []
  | (city, i) :: rest =>
      r <- fetch_city w city i ;;
      rs <- fetch_each w rest ;;
      ret (r :: rs)
  end.

(** [fetch_all]. *)
Definition fetch_all (w : World) : io (list (dict value)) :=
  fetch_each w DEFAULT_CITIES.

End Extract.


(* ================================================================== *)
(** * load.py (urban_airq_api)                                         *)
(* ================================================================== *)

Module Load.
Import Py IO Frame Pandas.
Local Open Scope io_scope.

Definition record := dict value.

(** What [supabase.table(t).insert(batch).execute()] does: it raises an
    exception, or returns a response whose [error] may be set. *)
Inductive insert_result :=
| InsertRaises (e : exn)
| InsertResponse (error : option string).

(** The environment of a run of load.py. An insertion is identified by
    the number of the batch and the number of the attempt, so the sink may
    answer every call differently. *)
Record World := {
  BATCH_SIZE : Z;                               (* os.getenv("BATCH_SIZE", "200") *)
  RETRY_COUNT : Z;                              (* os.getenv("RETRY_COUNT", "2") *)
  read_csv : string -> result DataFrame;        (* _read_staged *)
  create_client : option exn;                   (* get_supabase_client *)
  insert : Z -> Z -> list record -> insert_result
}.

Definition expected_cols : list string :=
  ["city"; "time"; "pm10"; "pm2_5"; "carbon_monoxide";
   "nitrogen_dioxide"; "sulphur_dioxide"; "ozone"; "uv_index";
   "aqi_category"; "severity_score"; "risk_flag"; "hour"].

Definition num_cols : list string :=
  ["pm10"; "pm2_5"; "carbon_monoxide"; "nitrogen_dioxide"; "sulphur_dioxide";
   "ozone"; "uv_index"; "severity_score"; "hour"].

(** [df.rename(columns=f)]. *)
Definition rename (f : string -> string) (df : DataFrame) : DataFrame :=
  {| columns := map f (columns df);
     rows := map (map (fun kv => (f (fst kv), snd kv))) (rows df) |}.

(** The [rename_map] of lines 94-101. *)
Definition rename_map (df : DataFrame) : dict string :=
  (if negb (has_column "aqi_category" df) && has_column (upper "aqi_category") df
   then [("AQI_Category", "aqi_category")] else [])
  ++
  (if negb (has_column "risk_flag" df)
   then (if has_column "risk_level" df then [("risk_level", "risk_flag")] else [])
        ++ (if has_column "risk" df then [("risk", "risk_flag")] else [])
   else []).

Definition renamed (m : dict string) (c : string) : string :=
  match dict_get c m with Some c' => c' | None => c end.

(** How often a label occurs among the columns. *)
Definition count_label (c : string) (df : DataFrame) : nat :=
  List.length (filter (String.eqb c) (columns df)).

(** [pd.to_numeric(column, errors="coerce")]: a column of integers (or
    booleans) is left as it is, any other becomes float64. *)
Definition to_numeric_column (P : parsers) (cells : list value) : list value :=
  if forallb (fun v => match v with VInt _ | VBool _ => true | _ => false end) cells
  then cells
  else map (fun v => VFloat (to_numeric P v)) cells.

Definition int64_min : Z := - 2 ^ 63.
Definition int64_max : Z := 2 ^ 63 - 1.

(** [column.astype("Int64")]: NaN becomes [pandas.NA]; a float with a
    fractional part, or outside of int64, makes the cast raise. *)
Definition astype_Int64 (cells : list value) : option (list value) :=
  let castable v :=
    match v with
    | VInt z => (int64_min <=? z) && (z <=? int64_max)
    | VBool _ => true
    | VFloat f =>
        isnan f || (is_integer f && (int64_min <=? int_of_float f)
                                 && (int_of_float f <=? int64_max))
    | _ => false
    end in
  let cast v :=
    match v with
    | VBool b => VInt (if b then 1 else 0)
    | VFloat f => if isnan f then VNA else VInt (int_of_float f)
    | _ => v
    end in
  if forallb castable cells then Some (map cast cells) else None.

(** Whether a column is float64: all of its cells are floats. *)
Definition is_float_column (c : string) (df : DataFrame) : bool :=
  forallb (fun r => match cell c r with VFloat _ => true | _ => false end) (rows df).

(** One cell of [df.where(pd.notnull(df), None)]. A nullable integer
    column keeps [pandas.NA]: its array holds no [None]. *)
Definition where_cell (keep_nan : bool) (v : value) : value :=
  match v with
  | VNA => VNA
  | VFloat f => if isnan f then (if keep_nan then v else VNone) else v
  | _ => if isna v then VNone else v
  end.

Definition where_notnull_none (P : parsers) (df : DataFrame) : DataFrame :=
  {| columns := columns df;
     rows := map (fun r =>
               map (fun kv =>
                      (fst kv,
                       where_cell (where_keeps_float_nan P && is_float_column (fst kv) df)
                                  (snd kv))) r) (rows df) |}.

(** [df[cols]]: the columns with these labels, in the order of [cols]. *)
Definition select (cols : list string) (df : DataFrame) : DataFrame :=
  {| columns := flat_map (fun c => filter (String.eqb c) (columns df)) cols;
     rows := map (fun r => flat_map (fun c => filter (fun kv => String.eqb c (fst kv)) r) cols)
                 (rows df) |}.

(** The loop of lines 106-108. *)
Definition ensure_column (df : DataFrame) (col : string) : DataFrame :=
  if has_column col df then df else assign col (fun _ => VNone) df.

(** The loop of lines 116-118 for one column; [pd.to_numeric] refuses
    the frame that [df[col]] is when the label occurs twice. *)
Definition coerce_numeric (P : parsers) (acc : result DataFrame) (col : string)
  : result DataFrame :=
  match acc with
  | Ok df =>
      if has_column col df then
        if (1 <? count_label col df)%nat
        then Raise (Exn "TypeError" "arg must be a list, tuple, 1-d array, or Series")
        else Ok (assign_column col (to_numeric_column P (column col df)) df)
      else Ok df
  | other => other
  end.

(** [_normalize_for_insert]. *)
Definition _normalize_for_insert (P : parsers) (df : DataFrame) : result DataFrame :=
  let df := rename lower df in
  let df := rename (renamed (rename_map df)) df in
  let df := fold_left ensure_column expected_cols df in
  if (1 <? count_label "time" df)%nat
  then Raise (Exn "ValueError" "cannot assemble with duplicate keys")
  else
    let df := assign "time"
                (fun r => match to_datetime P (cell "time" r) with
                          | Some t => VStr (isoformat P t)
                          | None => VNone
                          end) df in
    match fold_left (coerce_numeric P) num_cols (Ok df) with
    | Ok df =>
        let df := match astype_Int64 (column "hour" df) with
                  | Some cells => assign_column "hour" cells df
                  | None => df
                  end in
        let df := where_notnull_none P df in
        Ok (select expected_cols df)
    | other => other
    end.

(** [df.to_dict(orient="records")]: one [dict(zip(columns, row))] per
    row. *)
Definition to_dict_records (df : DataFrame) : list record :=
  map dict_of (rows df).

(** The conversion of one value in [_normalize_record_types]. *)
Definition normalize_value (P : parsers) (v : value) : value :=
  match v with
  | VNone => VNone
  | VNpInt z => VInt z
  | VNpFloat _ f => if is_integer f then VInt (int_of_float f) else VFloat f
  | VNpBool b => VBool b
  | VNpDatetime64 (Some t) => VStr (isoformat P t)
  | VNpDatetime64 None => VStr "NaT"
  | _ => v
  end.

Definition normalize_record (P : parsers) (rec : record) : record :=
  fold_left (fun r2 kv => dict_set (lower (fst kv)) (normalize_value P (snd kv)) r2) rec [].

(** [_normalize_record_types]. *)
Definition _normalize_record_types (P : parsers) (records : list record) : list record :=
  map (normalize_record P) records.

(** Lines 192-195: [float('nan')] is replaced by [None]. *)
Definition defensive_clean (rec : record) : record :=
  map (fun kv => (fst kv, if is_float_nan (snd kv) then VNone else snd kv)) rec.

Record failed_batch := { batch : Z; size : Z; error : option string }.

Record LoadReport := { total : Z; inserted : Z; failed_batches : list failed_batch }.

(** The variables of the [while] loop. *)
Record attempt_state := {
  attempt : Z;
  success : bool;
  last_err : option string;
  inserted_so_far : Z
}.

(** [if err:] for the error of a response. *)
Definition response_error (error : option string) : option string :=
  match error with
  | Some e => if String.eqb e EmptyString then None else Some e
  | None => None
  end.

(** Lines 220-223 and 234-237. *)
Definition backoff (w : World) (attempt : Z) : io unit :=
  if attempt <=? RETRY_COUNT w then emit (EvSleep (2 ^ (attempt - 1))) else ret tt.

(** The [while attempt <= RETRY_COUNT and not success] loop for one
    batch; [fuel] bounds the number of passes. What an insertion raises
    is caught by [except Exception]; anything else leaves the loop and
    [load_to_supabase]. *)
Fixpoint insert_with_retries (fuel : nat) (w : World) (table_name : string)
    (batch_no : Z) (batch : list record) (st : attempt_state) : io attempt_state :=
  if (attempt st <=? RETRY_COUNT w) && negb (success st) then
    match fuel with
    | O => (OutOfFuel, [])
    | S fuel' =>
        let attempt := attempt st + 1 in
        emit (EvInsert table_name batch_no attempt batch) ;;;
        match insert w batch_no attempt batch with
        | InsertResponse error =>
            match response_error error with
            | Some err =>
                backoff w attempt ;;;
                insert_with_retries fuel' w table_name batch_no batch
                  {| attempt := attempt; success := false; last_err := Some err;
                     inserted_so_far := inserted_so_far st |}
            | None =>
                insert_with_retries fuel' w table_name batch_no batch
                  {| attempt := attempt; success := true; last_err := last_err st;
                     inserted_so_far := inserted_so_far st + Z.of_nat (List.length batch) |}
            end
        | InsertRaises e =>
            (* except Exception as e: last_err = str(e) *)
            if is_Exception e then
              backoff w attempt ;;;
              insert_with_retries fuel' w table_name batch_no batch
                {| attempt := attempt; success := false; last_err := Some (exn_message e);
                   inserted_so_far := inserted_so_far st |}
            else raise e
        end
    end
  else ret st.

(** [range(start, stop, step)]; a zero step raises [ValueError]. *)
Definition range_step (start stop step : Z) : list Z :=
  if 0 <? step then
    map (fun k => start + Z.of_nat k * step)
        (seq 0 (Z.to_nat ((stop - start + step - 1) / step)))
  else if step <? 0 then
    map (fun k => start + Z.of_nat k * step)
        (seq 0 (Z.to_nat ((start - stop - step - 1) / (- step))))
  else [].

(** [records[i : j]] for [0 <= i <= j]. *)
Definition slice {A} (l : list A) (i j : Z) : list A :=
  firstn (Z.to_nat (j - i)) (skipn (Z.to_nat i) l).

(** What is sent for the batch that starts at row [i]: lines 190-198. *)
Definition prepare_batch (P : parsers) (w : World) (records : list record) (i : Z)
  : list record :=
  _normalize_record_types P (map defensive_clean (slice records i (i + BATCH_SIZE w))).

(** The body of the [for i in range(0, total, BATCH_SIZE)] loop, over
    the remaining start indices. *)
Fixpoint insert_batches (P : parsers) (w : World) (table_name : string)
    (records : list record) (starts : list Z)
    (inserted : Z) (failed_batches : list failed_batch)
  : io (Z * list failed_batch) :=
  match starts with
  | [] => ret (inserted, failed_batches)
  | i :: rest =>
      let batch_no := i / BATCH_SIZE w + 1 in
      let batch := prepare_batch P w records i in
      st <- insert_with_retries (Z.to_nat (RETRY_COUNT w + 1)) w table_name batch_no batch
              {| attempt := 0; success := false; last_err := None;
                 inserted_so_far := inserted |} ;;
      let failed_batches :=
        if success st then failed_batches
        else failed_batches ++ [{| batch := batch_no;
                                   size := Z.of_nat (List.length batch);
                                   error := last_err st |}] in
      insert_batches P w table_name records rest (inserted_so_far st) failed_batches
  end.

(** [load_to_supabase]; [None] is the bare [return]. *)
Definition load_to_supabase (P : parsers) (w : World) (staged_path table_name : string)
  : io (option LoadReport) :=
  match read_csv w staged_path with
  | Raise e => if is_Exception e then ret None else raise e
  | OutOfFuel => (OutOfFuel, [])
  | Ok df =>
      match _normalize_for_insert P df with
      | Raise e => raise e
      | OutOfFuel => (OutOfFuel, [])
      | Ok df_norm =>
          let records := to_dict_records df_norm in
          let total := Z.of_nat (List.length records) in
          if total =? 0 then ret None
          else
            match create_client w with Some e => raise e | None => ret tt end ;;;
            (* batch_count = math.ceil(total / BATCH_SIZE) *)
            (if BATCH_SIZE w =? 0
             then raise (Exn "ZeroDivisionError" "division by zero")
             else ret tt) ;;;
            r <- insert_batches P w table_name records
                   (range_step 0 total (BATCH_SIZE w)) 0 [] ;;
            ret (Some {| total := total; inserted := fst r; failed_batches := snd r |})
      end
  end.

End Load.


(* ================================================================== *)
(** * run_pipeline.py (urban_airq_api)                                 *)
(* ================================================================== *)

Module Pipeline.
Import Py Frame IO Pandas.
Local Open Scope io_scope.

(** The environment of a run of the pipeline: the environments of the
    stages and what the runner itself asks of the outside. *)
Record World := {
  pandas : parsers;
  extract_world : Extract.World;
  transform_world : Transform.World;
  load_world : Load.World;
  STAGED_DEFAULT : string;                 (* the default path of load.py *)
  import_module : string -> option exn;    (* importlib.import_module: the error, if any *)
  script_exists : string -> bool;          (* (ROOT / name).exists() *)
  subprocess_returncode : string -> Z;     (* the exit code of python <script> *)
  raw_listing : list string;               (* sorted(DATA_RAW.glob("*")) *)
  staged_listing : list string;            (* sorted(DATA_STAGED.glob("*.csv")), by mtime *)
  analysis_main : option exn               (* etl_analysis.main(): the error, if any *)
}.

(** How a run ends: the last message that [run_full_pipeline] prints. *)
Inductive run_end :=
| Finished                                  (* "Pipeline finished" *)
| Step_failed (s : stage).                  (* "<step> step failed" *)

(** [try_import]: the module was imported, or [None]. *)
Definition try_import (w : World) (module_name : string) : io bool :=
  try_except
    (match import_module w module_name with
     | Some e => raise e
     | None => ret true
     end)
    (fun _ => ret false).

(** [run_subprocess]. *)
Definition run_subprocess (w : World) (script : string) : io Z :=
  emit (EvSubprocess script) ;;;
  ret (subprocess_returncode w script).

Definition runtime_error (msg : string) : exn := Exn "RuntimeError" msg.

(** [run_extract]. Of the function names it probes, extract.py defines
    [fetch_all] only. *)
Definition run_extract (w : World) : io (list (dict value)) :=
  emit (EvStage Extracting) ;;;
  imported <- try_import w "extract" ;;
  called <- (if imported then
               try_except
                 (out <- Extract.fetch_all (extract_world w) ;; ret (Some out))
                 (fun _ => ret None)
             else ret None) ;;
  match called with
  | Some results => ret results
  | None =>
      if script_exists w "extract.py" then
        code <- run_subprocess w "extract.py" ;;
        if code =? 0
        then ret (map (fun p => [("raw_path", VStr p)]) (raw_listing w))
        else raise (runtime_error "extract.py exited with a non-zero code")
      else raise (runtime_error "No extract method found and extract.py missing or failed.")
  end.

(** [r.get("raw_path")] is set and true. *)
Definition has_raw_path (r : dict value) : bool :=
  match dict_get "raw_path" r with
  | Some (VStr s) => negb (String.eqb s EmptyString)
  | _ => false
  end.

(** [run_transform]. Of the function names it probes, transform.py
    defines [transform], which takes no argument and returns [None]:
    [fn(raw_paths)] raises [TypeError] and [fn()] is called instead. The
    script is then run in any case, and the newest staged CSV is
    returned. *)
Definition run_transform (w : World) (extract_results : list (dict value))
  : io (option string) :=
  emit (EvStage Transforming) ;;;
  imported <- try_import w "transform" ;;
  (if imported then
     try_except
       (let raw_paths := filter has_raw_path extract_results in
        match raw_paths with
        | [] =>
            try_except_class "TypeError"
              (Transform.transform (pandas w) (transform_world w))
              (Transform.transform (pandas w) (transform_world w))
        | _ =>
            try_except_class "TypeError"
              (raise (type_error "transform() takes 0 positional arguments but 1 was given"))
              (Transform.transform (pandas w) (transform_world w))
        end)
       (fun _ => ret tt)
   else ret tt) ;;;
  (if script_exists w "transform.py" then
     code <- run_subprocess w "transform.py" ;;
     if code =? 0 then ret tt
     else raise (runtime_error "transform.py exited with a non-zero code")
   else ret tt) ;;;
  ret (last (map Some (staged_listing w)) None).

(** [run_load]. [create_table_if_not_exists] handles its own errors and
    leaves no trace here. The script fallback reads [os.environ], and
    run_pipeline.py does not import [os]: it raises [NameError]. *)
Definition run_load (w : World) (staged_csv : option string)
  : io (option Load.LoadReport) :=
  emit (EvStage Loading) ;;;
  match staged_csv with
  | None => raise (runtime_error "No staged CSV provided to load step.")
  | Some staged_csv =>
      imported <- try_import w "load" ;;
      called <- (if imported then
                   try_except
                     (res <- try_except_class "TypeError"
                               (Load.load_to_supabase (pandas w) (load_world w)
                                  staged_csv "air_quality_data")
                               (Load.load_to_supabase (pandas w) (load_world w)
                                  (STAGED_DEFAULT w) "air_quality_data") ;;
                      ret (Some res))
                     (fun _ => ret None)
                 else ret None) ;;
      match called with
      | Some res => ret res
      | None =>
          if script_exists w "load.py"
          then raise (Exn "NameError" "name 'os' is not defined")
          else raise (runtime_error "No load method found and load.py missing or failed.")
      end
  end.

(** [run_analysis]. *)
Definition run_analysis (w : World) : io unit :=
  emit (EvStage Analysing) ;;;
  imported <- try_import w "etl_analysis" ;;
  called <- (if imported then
               try_except
                 (match analysis_main w with
                  | Some e => raise e
                  | None => ret true
                  end)
                 (fun _ => ret false)
             else ret false) ;;
  if called then ret tt
  else if script_exists w "etl_analysis.py" then
    code <- run_subprocess w "etl_analysis.py" ;;
    if code =? 0 then ret tt
    else raise (runtime_error "etl_analysis.py exited with a non-zero code")
  else raise (runtime_error "No analysis method found and etl_analysis.py missing or failed.").

(** One step of [run_full_pipeline]: [try: step  except Exception: print
    the failure and return]. *)
Definition guarded {A} (s : stage) (step : io A) (next : A -> io run_end) : io run_end :=
  r <- try_except (a <- step ;; ret (Some a)) (fun _ => ret None) ;;
  match r with
  | Some a => next a
  | None => ret (Step_failed s)
  end.

(** [run_full_pipeline]. *)
Definition run_full_pipeline (w : World) : io run_end :=
  guarded Extracting (run_extract w) (fun extract_results =>
  emit (EvSleep 1) ;;;
  guarded Transforming (run_transform w extract_results) (fun staged_csv =>
  emit (EvSleep 1) ;;;
  guarded Loading (run_load w staged_csv) (fun _ =>
  emit (EvSleep 1) ;;;
  guarded Analysing (run_analysis w) (fun _ =>
  ret Finished)))).

End Pipeline.


(* ================================================================== *)
(** * validate.py (etlex)                                              *)
(* ================================================================== *)

Module Validate.
Import Py Frame IO.

(** Python's [==] on the scalars of a frame read from CSV: numbers are
    compared by value across int, float and bool; a text equals a text. *)
Definition float_eq_int (f : float) (z : Z) : bool :=
  is_integer f && (int_of_float f =? z).

Definition py_eq (a b : value) : bool :=
  let as_int v := match v with
                  | VInt z => Some z
                  | VBool b => Some (if b then 1 else 0)
                  | _ => None
                  end in
  match a, b with
  | VStr x, VStr y => String.eqb x y
  | VFloat x, VFloat y => SFeqb x y
  | VFloat x, _ => match as_int b with Some z => float_eq_int x z | None => false end
  | _, VFloat y => match as_int a with Some z => float_eq_int y z | None => false end
  | _, _ => match as_int a, as_int b with
            | Some x, Some y => x =? y
            | _, _ => false
            end
  end.

(** [x in s] for a set of values. *)
Definition member (x : value) (s : list value) : bool := existsb (py_eq x) s.

(** [a - b] for sets, as the list of the members of [a] that [b] lacks. *)
Definition difference (a b : list value) : list value :=
  filter (fun x => negb (member x b)) a.

(** [set(df[c].dropna().unique())], as a list. *)
Definition observed (c : string) (df : DataFrame) : list value :=
  filter notnull (column c df).

(** What a check prints. *)
Inductive verdict :=
| Passed                                  (* a line that starts with the check mark *)
| Missing_segments (missing : list value) (* "Missing ... segments: ..." *)
| Invalid_codes (invalid : list value)    (* "Invalid contract_type_code values found" *)
| Column_not_found.                       (* "Column ... not found" *)

Definition passed (v : verdict) : bool :=
  match v with Passed => true | _ => false end.

Definition expected_tenure_groups : list value :=
  [VStr "New"; VStr "Regular"; VStr "Loyal"; VStr "Champion"].

Definition expected_charge_segments : list value :=
  [VStr "Low"; VStr "Medium"; VStr "High"].

Definition allowed_codes : list value := [VInt 0; VInt 1; VInt 2].


(** Lines 141-153: the check of the contract codes. *)
Definition check_contract_codes (df : DataFrame) : verdict :=
  if has_column "contract_type_code" df then
    let unique_codes := observed "contract_type_code" df in
    let invalid_codes := difference unique_codes allowed_codes in
    match invalid_codes with
    | [] => Passed
    | _ => Invalid_codes invalid_codes
    end
  else Column_not_found.

(** Lines 58-67: the required numeric columns with a problem; [None]
    stands for "COLUMN MISSING", a number for the count of missing cells. *)
Definition required_numeric_cols : list string := ["tenure"; "MonthlyCharges"; "TotalCharges"].

Definition missing_issues (df : DataFrame) : list (string * option nat) :=
  flat_map (fun col =>
              if has_column col df then
                let missing_count := List.length (filter isna (column col df)) in
                if (0 <? missing_count)%nat then [(col, Some missing_count)] else []
              else [(col, None)])
           required_numeric_cols.

(** Two cells that [drop_duplicates] takes for the same. *)
Definition same_cell (a b : value) : bool :=
  match a, b with
  | VStr x, VStr y => String.eqb x y
  | VInt x, VInt y => x =? y
  | VBool x, VBool y => Bool.eqb x y
  | VFloat x, VFloat y => (isnan x && isnan y) || SFeqb x y
  | _, _ => isna a && isna b
  end.

Fixpoint same_row (a b : row) : bool :=
  match a, b with
  | [], [] => true
  | (_, x) :: a', (_, y) :: b' => same_cell x y && same_row a' b'
  | _, _ => false
  end.

(** [df.drop_duplicates()]: the first row of each group of equal rows. *)
Fixpoint drop_duplicates (rs : list row) (seen : list row) : list row :=
  match rs with
  | [] => []
  | r :: rest =>
      if existsb (same_row r) seen then drop_duplicates rest seen
      else r :: drop_duplicates rest (r :: seen)
  end.

(** What the validation finds around it: the two CSV files ([None] when
    the path does not exist) and the answer of the count query. *)
Record World := {
  raw_csv : option DataFrame;
  staged_csv : option DataFrame;
  supabase_count : result Z
}.

(** The outcome of the five checks, in the order they are made. *)
Record report := {
  numeric_issues : list (string * option nat);
  unique_rows_match : bool;
  supabase_rows_match : option bool;       (* [None]: the count could not be fetched *)
  tenure_group : verdict;
  monthly_charge_segment : verdict;
  contract_type_code : verdict
}.


End Validate.


(* ================================================================== *)
(** * transform.py (etlex): the derived fields                         *)
(* ================================================================== *)

Module TelcoTransform.
Import Py Frame.

(** A number of a numeric column as [apply] hands it to the function:
    an integer of an int64 column or a float of a float64 column. *)
Inductive number :=
| Int (z : Z)
| Float (f : float).

(** [n <= c], [c <= n] and [n < c] for an integer literal [c]. *)
Definition le_lit (n : number) (c : Z) : bool :=
  match n with
  | Int z => z <=? c
  | Float f => fleb f (float_of_Z c)
  end.

Definition lit_le (c : Z) (n : number) : bool :=
  match n with
  | Int z => c <=? z
  | Float f => fleb (float_of_Z c) f
  end.

Definition lt_lit (n : number) (c : Z) : bool :=
  match n with
  | Int z => z <? c
  | Float f => fltb f (float_of_Z c)
  end.

(** [tenure_group_fn], lines 34-42. *)
Definition tenure_group_fn (t : number) : string :=
  if le_lit t 12 then "New"
  else if lit_le 13 t && le_lit t 36 then "Regular"
  else if lit_le 37 t && le_lit t 60 then "Loyal"
  else "Champion".

(** [monthly_segment], lines 47-53. *)
Definition monthly_segment (m : number) : string :=
  if lt_lit m 30 then "Low"
  else if lit_le 30 m && le_lit m 70 then "Medium"
  else "High".

(** The [mapping] of lines 67-73; [None] is Python's [None]. *)
Definition mapping : dict (option Z) :=
  [("Month-to-month", Some 0); ("One year", Some 1); ("Two year", Some 2);
   ("Unknown", None)].

(** Line 76: [mapping.get(x, None)] for the text [x] of the contract. *)
Definition contract_type_code (x : string) : value :=
  match dict_get x mapping with
  | Some (Some code) => VInt code
  | _ => VNone
  end.

End TelcoTransform.


(* ================================================================== *)
(** * Concrete inputs used by the examples                            *)
(* ================================================================== *)

Module Scenarios.
Import Py IO Frame Pandas.

Definition digit (n : Z) : string :=
  String (ascii_of_nat (48 + Z.to_nat n)) EmptyString.

Definition two_digits (n : Z) : string := (digit (n / 10) ++ digit (n mod 10))%string.

(** An instance of pandas' routines for the examples: text is not a
    number; a time is a time stamp, an integer of epoch nanoseconds or a
    text, on the hour within the first day of the epoch; the frames to
    pivot have one row per key already; no frame is made of a document
    that [Transform.frame_of] does not write out. *)
Definition digit_value (c : option ascii) : option Z :=
  match c with
  | Some c =>
      let n := Z.of_nat (nat_of_ascii c) in
      if (48 <=? n) && (n <=? 57) then Some (n - 48) else None
  | None => None
  end.

(** The time of a text of the form [1970-01-01THH...]. *)
Definition parse_epoch_day_hour (s : string) : option Z :=
  if String.prefix "1970-01-01T" s then
    match digit_value (String.get 11 s), digit_value (String.get 12 s) with
    | Some a, Some b =>
        if 10 * a + b <? 24 then Some ((10 * a + b) * ns_per_hour) else None
    | _, _ => None
    end
  else None.

Definition sample_parsers : parsers :=
  {| parse_float := fun _ => nan;
     to_datetime := fun v => match v with
                             | VTimestamp t | VInt t => Some t
                             | VStr s => parse_epoch_day_hour s
                             | _ => None
                             end;
     isoformat := fun t => ("1970-01-01T" ++ two_digits (hour_of t) ++ ":00:00")%string;
     pivot_first_by_city_time := fun df => df;
     frame_of_nested := fun _ => inr ValueError;
     where_keeps_float_nan := true |}.

Definition air_columns : list string :=
  ["city"; "time"; "pm10"; "pm2_5"; "carbon_monoxide"; "nitrogen_dioxide";
   "sulphur_dioxide"; "ozone"].

Definition air_row (city : string) (t : Z) (pm10 pm2_5 co no2 so2 o3 : float) : row :=
  [("city", VStr city); ("time", VInt t); ("pm10", VFloat pm10); ("pm2_5", VFloat pm2_5);
   ("carbon_monoxide", VFloat co); ("nitrogen_dioxide", VFloat no2);
   ("sulphur_dioxide", VFloat so2); ("ozone", VFloat o3)].

Definition fl (z : Z) : float := float_of_Z z.

(** One hourly reading with [pm2_5] missing and [pm10 = 40]. *)
Definition row_pm25_missing : row :=
  air_row "delhi" 0 (fl 40) nan (fl 210) (fl 18) (fl 7) (fl 33).

(** One complete reading. *)
Definition row_complete : row :=
  air_row "delhi" ns_per_hour (fl 40) (fl 25) (fl 210) (fl 18) (fl 7) (fl 33).

Definition df_readings : DataFrame :=
  {| columns := air_columns; rows := [row_pm25_missing; row_complete] |}.

(** *** Worlds for extract.py *)

Definition delhi : Extract.info :=
  Eval vm_compute in
  {| Extract.lat := Extract.decimal 287041 4; Extract.lon := Extract.decimal 771025 4 |}.

Definition hourly_payload : json :=
  JDict [("hourly", JDict [("time", JList [JStr "1970-01-01T05:00"]);
                           ("pm10", JList [JInt 40]);
                           ("pm2_5", JList [JNull])])].

(** OpenAQ answers every request with 200 and an empty result list;
    Open-Meteo answers with data. *)
Definition world_empty_results : Extract.World :=
  {| Extract.MAX_RETRIES := 3;
     Extract.RAW_DIR := "data/raw";
     Extract.openaq := fun _ _ => Extract.Response 200 (Some (JDict [("results", JList [])]));
     Extract.open_meteo := fun _ _ => Extract.Response 200 (Some hourly_payload);
     Extract.utcnow := fun _ => "20250101T000000Z";
     Extract.write_file := fun _ => None |}.

(** OpenAQ answers 500 to every request and the request to Open-Meteo
    fails in the network layer. *)
Definition world_fallback_unreachable : Extract.World :=
  {| Extract.MAX_RETRIES := 3;
     Extract.RAW_DIR := "data/raw";
     Extract.openaq := fun _ _ => Extract.Response 500 None;
     Extract.open_meteo := fun _ _ =>
       Extract.NetworkError (Exn "ConnectionError" "Max retries exceeded with url");
     Extract.utcnow := fun _ => "20250101T000000Z";
     Extract.write_file := fun _ => None |}.

(** Both sources answer 500 to every request. *)
Definition world_all_sources_fail : Extract.World :=
  {| Extract.MAX_RETRIES := 3;
     Extract.RAW_DIR := "data/raw";
     Extract.openaq := fun _ _ => Extract.Response 500 None;
     Extract.open_meteo := fun _ _ => Extract.Response 500 None;
     Extract.utcnow := fun _ => "20250101T000000Z";
     Extract.write_file := fun _ => None |}.


(** *** Worlds for load.py *)

Definition staged_columns : list string :=
  ["city"; "time"; "pm10"; "pm2_5"; "carbon_monoxide"; "nitrogen_dioxide";
   "sulphur_dioxide"; "ozone"; "AQI_Category"; "severity_score"; "Risk_Level"; "hour"].

(** Row number [i] of a staged file as transform.py writes it. *)
Definition staged_row (i : Z) : row :=
  [("city", VStr "delhi"); ("time", VInt (i * ns_per_hour));
   ("pm10", VFloat (fl 40)); ("pm2_5", VFloat (fl 25));
   ("carbon_monoxide", VFloat (fl 210)); ("nitrogen_dioxide", VFloat (fl 18));
   ("sulphur_dioxide", VFloat (fl 7)); ("ozone", VFloat (fl 33));
   ("AQI_Category", VStr "Good"); ("severity_score", VFloat (fl 864));
   ("Risk_Level", VStr "High Risk"); ("hour", VInt (i mod 24))].

Definition staged (n : nat) : DataFrame :=
  {| columns := staged_columns;
     rows := map (fun i => staged_row (Z.of_nat i)) (seq 0 n) |}.

(** A sink that rejects every attempt for batch 3 and accepts the other
    batches at once; [n] staged rows, batches of [B] rows, two retries. *)
Definition world_batch3_rejected (n : nat) (B : Z) : Load.World :=
  {| Load.BATCH_SIZE := B;
     Load.RETRY_COUNT := 2;
     Load.read_csv := fun _ => Ok (staged n);
     Load.create_client := None;
     Load.insert := fun k _ _ =>
       if k =? 3 then Load.InsertResponse (Some "timeout") else Load.InsertResponse None |}.

Definition staged5_normalized : DataFrame :=
  Eval vm_compute in
  match Load._normalize_for_insert sample_parsers (staged 5) with
  | Ok d => d
  | _ => empty_frame
  end.

(** A staged file without the [hour] column, one row. *)
Definition staged_without_hour : DataFrame :=
  {| columns := ["city"; "time"; "pm10"];
     rows := [[("city", VStr "delhi"); ("time", VInt 0); ("pm10", VFloat (fl 40))]] |}.

Definition world_without_hour : Load.World :=
  {| Load.BATCH_SIZE := 200;
     Load.RETRY_COUNT := 2;
     Load.read_csv := fun _ => Ok staged_without_hour;
     Load.create_client := None;
     Load.insert := fun _ _ _ => Load.InsertResponse None |}.


(** *** Worlds for transform.py and run_pipeline.py *)

(** One raw file, two processes that differ in everything else. *)
Definition transform_world_a : Transform.World :=
  {| Transform.raw_files := [("delhi_raw_20250101T000000Z.json", Some hourly_payload)];
     Transform.wall_clock := 0;
     Transform.environ := fun _ => None;
     Transform.working_directory := "/home/a/etl" |}.


Definition no_raw_files : Transform.World :=
  {| Transform.raw_files := [];
     Transform.wall_clock := 0;
     Transform.environ := fun _ => None;
     Transform.working_directory := "/home/a/etl" |}.

(** A staged file that holds the header line only. *)
Definition world_empty_staged : Load.World :=
  {| Load.BATCH_SIZE := 200;
     Load.RETRY_COUNT := 2;
     Load.read_csv := fun _ => Ok {| columns := staged_columns; rows := [] |};
     Load.create_client := None;
     Load.insert := fun _ _ _ => Load.InsertResponse None |}.

(** Five staged rows and a sink that cannot be reached: every insertion
    raises. *)
Definition world_sink_unreachable : Load.World :=
  {| Load.BATCH_SIZE := 2;
     Load.RETRY_COUNT := 2;
     Load.read_csv := fun _ => Ok (staged 5);
     Load.create_client := None;
     Load.insert := fun _ _ _ =>
       Load.InsertRaises (Exn "ConnectError" "[Errno 111] Connection refused") |}.

(** A run in which every module is imported and every script exists. *)
Definition pipeline_world (e : Extract.World) (t : Transform.World) (l : Load.World)
  : Pipeline.World :=
  {| Pipeline.pandas := sample_parsers;
     Pipeline.extract_world := e;
     Pipeline.transform_world := t;
     Pipeline.load_world := l;
     Pipeline.STAGED_DEFAULT := "data/staged/air_quality_transformed.csv";
     Pipeline.import_module := fun _ => None;
     Pipeline.script_exists := fun _ => true;
     Pipeline.subprocess_returncode := fun _ => 0;
     Pipeline.raw_listing := [];
     Pipeline.staged_listing := ["/home/a/etl/data/staged/air_quality_transformed.csv"];
     Pipeline.analysis_main := None |}.

(** No entity can be extracted and the staged file of an earlier run is
    empty. *)
Definition world_nothing_usable : Pipeline.World :=
  pipeline_world world_all_sources_fail no_raw_files world_empty_staged.

(** Extraction works through the fallback, the sink cannot be reached. *)
Definition world_no_sink : Pipeline.World :=
  pipeline_world world_empty_results transform_world_a world_sink_unreachable.

(** The analysis step fails: its function raises and its script exits
    with code 1. *)
Definition world_analysis_fails : Pipeline.World :=
  {| Pipeline.pandas := sample_parsers;
     Pipeline.extract_world := world_empty_results;
     Pipeline.transform_world := transform_world_a;
     Pipeline.load_world := world_batch3_rejected 5 2;
     Pipeline.STAGED_DEFAULT := "data/staged/air_quality_transformed.csv";
     Pipeline.import_module := fun _ => None;
     Pipeline.script_exists := fun _ => true;
     Pipeline.subprocess_returncode :=
       fun s => if String.eqb s "etl_analysis.py" then 1 else 0;
     Pipeline.raw_listing := [];
     Pipeline.staged_listing := ["/home/a/etl/data/staged/air_quality_transformed.csv"];
     Pipeline.analysis_main := Some (Exn "ValueError" "No data fetched from Supabase") |}.


(** *** Staged telco files for validate.py *)

Definition telco_columns : list string :=
  ["tenure"; "MonthlyCharges"; "TotalCharges"; "tenure_group";
   "monthly_charge_segment"; "contract_type_code"].

Definition telco_row (tenure : Z) (group segment : string) (code : value) : row :=
  [("tenure", VInt tenure); ("MonthlyCharges", VFloat (fl 50));
   ("TotalCharges", VFloat (fl 600)); ("tenure_group", VStr group);
   ("monthly_charge_segment", VStr segment); ("contract_type_code", code)].





End Scenarios.

(* ================================================================== *)
(** * Properties                                                       *)
(* ================================================================== *)

Import Py IO Frame Pandas.

(** ** Vocabulary of the properties *)

(** [x] is zero, finite or infinite with sign bit [s]. *)
Definition signed (s : bool) (x : float) : Prop :=
  match x with
  | S754_zero s' | S754_infinity s' | S754_finite s' _ _ => s' = s
  | S754_nan => False
  end.

(** A cell of a measurement column after the coercion loop: a float64
    or, for a column the frame lacked, [None]. *)
Definition measurement (v : value) : Prop := v = VNone \/ exists f, v = VFloat f.

(** The cells the score is computed from. *)
Definition agree_on (cs : list string) (r r' : row) : Prop :=
  forall c, In c cs -> cell c r = cell c r'.

(** At least one of the six measurements of the row is missing. *)
Definition any_missing (r : row) : bool :=
  existsb (fun c => isna (cell c r)) Transform.pollutants.

(** All six measurements of the row are missing. *)
Definition all_missing (r : row) : bool :=
  forallb (fun c => isna (cell c r)) Transform.pollutants.

(** Every measurement of the row that is present is non-negative. *)
Definition present_nonneg (r : row) : bool :=
  forallb (fun c => isna (cell c r) || nonneg (num (cell c r))) Transform.pollutants.

(** The part of a trace that concerns retrying: an attempt or a wait. *)
Inductive retry_event := Attempt | Wait (seconds : Z).

(** The primary requests and the waits of a trace of extract.py. *)
Definition openaq_view (evs : list event) : list retry_event :=
  flat_map (fun e => match e with
                     | EvGet (OpenAQ_latest _) => [Attempt]
                     | EvSleep s => [Wait s]
                     | _ => []
                     end) evs.

(** The insertions and the waits of a trace of load.py. *)
Definition insert_view (evs : list event) : list retry_event :=
  flat_map (fun e => match e with
                     | EvInsert _ _ _ _ => [Attempt]
                     | EvSleep s => [Wait s]
                     | _ => []
                     end) evs.

Definition attempts (v : list retry_event) : Z :=
  Z.of_nat (List.length (filter (fun e => match e with Attempt => true | _ => false end) v)).

(** The schedule of the specification: attempts are numbered from
    [attempt] on, at most one wait follows an attempt, and the wait after
    attempt number [k] lasts [base * 2^(k-1)]; two attempts are never made
    without the wait between them. *)
Fixpoint backoff_ok (base attempt : Z) (v : list retry_event) : bool :=
  match v with
  | [] => true
  | Attempt :: rest =>
      match rest with
      | [] => true
      | Wait s :: rest' => (s =? base * 2 ^ (attempt - 1)) && backoff_ok base (attempt + 1) rest'
      | Attempt :: _ => false
      end
  | Wait _ :: _ => false
  end.

(** A response of the 2xx class whose body is a document without
    results. *)
Definition empty_2xx (r : Extract.http_result) : bool :=
  match r with
  | Extract.Response st (Some (JDict d)) =>
      (200 <=? st) && (st <? 300) &&
      negb (truthy (match dict_get "results" d with Some x => x | None => JNull end))
  | _ => false
  end.

(** The events of the passes that found nothing. *)
Definition failed_passes (w : Extract.World) (city : string) (l : list Z) : list event :=
  flat_map (fun k => events (Extract.try_openaq w city k) ++ [EvSleep (2 ^ (k - 1))]) l.

(** A record in normal form: its keys are distinct and in lower case, its
    values are left alone by the conversion. *)
Definition normal_record (P : parsers) (d : Load.record) : Prop :=
  NoDup (keys d) /\
  Forall (fun kv => lower (fst kv) = fst kv /\
                    Load.normalize_value P (snd kv) = snd kv) d.

(** The sink accepts attempt number [a] for batch number [k]: the call
    returns and the response carries no error, an empty one counting as
    none. *)
Definition accepts (w : Load.World) (k : Z) (b : list Load.record) (a : Z) : bool :=
  match Load.insert w k a b with
  | Load.InsertResponse None => true
  | Load.InsertResponse (Some e) => String.eqb e EmptyString
  | Load.InsertRaises _ => false
  end.

(** Attempt number [a] for batch number [k] ends the load: the call
    raises what [except Exception] does not catch. *)
Definition escapes (w : Load.World) (k : Z) (b : list Load.record) (a : Z) : option exn :=
  match Load.insert w k a b with
  | Load.InsertRaises e => if is_Exception e then None else Some e
  | Load.InsertResponse _ => None
  end.

(** Whatever an insertion raises is an [Exception]. *)
Definition sink_raises_exceptions (w : Load.World) : Prop :=
  forall k a b e, Load.insert w k a b = Load.InsertRaises e -> is_Exception e = true.

(** One of the first [RETRY_COUNT + 1] attempts for the batch is
    accepted. *)
Definition terminally_successful (w : Load.World) (k : Z) (b : list Load.record) : bool :=
  existsb (accepts w k b) (Py.range 1 (Load.RETRY_COUNT w + 2)).

(** The events of the retry loop concern this batch only. *)
Definition batch_event (t : string) (k : Z) (b : list Load.record) (e : event) : Prop :=
  match e with
  | EvSleep _ => True
  | EvInsert t' k' _ b' => t' = t /\ k' = k /\ b' = b
  | _ => False
  end.

(** The state after one more attempt that does not end the load. *)
Definition next_state (w : Load.World) (k : Z) (b : list Load.record)
  (st : Load.attempt_state) : Load.attempt_state :=
  let a := Load.attempt st + 1 in
  match Load.insert w k a b with
  | Load.InsertResponse error =>
      match Load.response_error error with
      | Some err =>
          {| Load.attempt := a; Load.success := false; Load.last_err := Some err;
             Load.inserted_so_far := Load.inserted_so_far st |}
      | None =>
          {| Load.attempt := a; Load.success := true; Load.last_err := Load.last_err st;
             Load.inserted_so_far := Load.inserted_so_far st + Z.of_nat (List.length b) |}
      end
  | Load.InsertRaises e =>
      {| Load.attempt := a; Load.success := false; Load.last_err := Some (exn_message e);
         Load.inserted_so_far := Load.inserted_so_far st |}
  end.

(** What the retry loop for one batch gives when it returns. *)
Definition loop_result (w : Load.World) (k : Z) (b : list Load.record)
  (st : Load.attempt_state) (r : result Load.attempt_state) : Prop :=
  match r with
  | Ok st' =>
      Load.success st' =
        existsb (accepts w k b) (Py.range (Load.attempt st + 1) (Load.RETRY_COUNT w + 2)) /\
      Load.inserted_so_far st' =
        Load.inserted_so_far st + (if Load.success st' then Z.of_nat (List.length b) else 0)
  | Raise e => is_Exception e = false
  | OutOfFuel => False
  end.

(** The rows of batch number [k] (counted from 1) for batches of [B]
    rows: the [k]-th contiguous slice. *)
Definition batch_rows {A} (records : list A) (B k : Z) : list A :=
  Load.slice records ((k - 1) * B) (k * B).

(** The number of batches: the quotient rounded up. *)
Definition batch_count (total B : Z) : Z := (total + B - 1) / B.

Definition sum_Z (l : list Z) : Z := fold_right Z.add 0 l.

Definition len {A} (l : list A) : Z := Z.of_nat (List.length l).

(** What is sent to the sink for batch number [k]: its rows, in order,
    each without float NaN and with its keys and values in normal form. *)
Definition sent (P : parsers) (w : Load.World) (records : list Load.record) (k : Z)
  : list Load.record :=
  map (fun r => Load.normalize_record P (Load.defensive_clean r))
      (batch_rows records (Load.BATCH_SIZE w) k).

(** Batch number [k] ends in success. *)
Definition batch_ok (P : parsers) (w : Load.World) (records : list Load.record) (k : Z) : bool :=
  terminally_successful w k (sent P w records k).

Definition number_and_size (fb : Load.failed_batch) : Z * Z := (Load.batch fb, Load.size fb).

(** An event of the loop over the batches [ks]: a wait, or the
    insertion of one of these batches as it is to be sent. *)
Definition load_event (P : parsers) (w : Load.World) (t : string)
  (records : list Load.record) (ks : list Z) (e : event) : Prop :=
  match e with
  | EvSleep _ => True
  | EvInsert t' k _ b => t' = t /\ In k ks /\ b = sent P w records k
  | _ => False
  end.

(** The stages that a trace shows to have started, in order. *)
Definition stages_run (evs : list event) : list stage :=
  flat_map (fun e => match e with EvStage s => [s] | _ => [] end) evs.

(** A computation that starts no stage. *)
Definition quiet {A} (m : io A) : Prop := stages_run (events m) = [].

(** What a failing step makes of the run: an exception is reported as
    the failure of the step, anything else ends the process. *)
Definition step_failure {A} (s : stage) (r : result A) : result Pipeline.run_end :=
  match r with
  | Raise e => if is_Exception e then Ok (Pipeline.Step_failed s) else Raise e
  | _ => OutOfFuel
  end.

(** The end of a run, read off the results of its steps: the first step
    that raises ends it. *)
Definition expected_end (w : Pipeline.World) : result Pipeline.run_end :=
  match outcome (Pipeline.run_extract w) with
  | Ok results =>
      match outcome (Pipeline.run_transform w results) with
      | Ok staged_csv =>
          match outcome (Pipeline.run_load w staged_csv) with
          | Ok _ =>
              match outcome (Pipeline.run_analysis w) with
              | Ok _ => Ok Pipeline.Finished
              | r => step_failure Analysing r
              end
          | r => step_failure Loading r
          end
      | r => step_failure Transforming r
      end
  | r => step_failure Extracting r
  end.

(** The stages from the first one to [s]. *)
Definition stages_up_to (s : stage) : list stage :=
  match s with
  | Extracting => [Extracting]
  | Transforming => [Extracting; Transforming]
  | Loading => [Extracting; Transforming; Loading]
  | Analysing => [Extracting; Transforming; Loading; Analysing]
  end.

(** Every observed value is a member of the enumeration. *)
Definition within (observed enumeration : list value) : bool :=
  forallb (fun v => Validate.member v enumeration) observed.


(** The fallback request is answered (it does not raise, and a 200
    carries a JSON body), raw files can be written, and what the primary
    request raises is an [Exception]. *)
Definition sources_answer (w : Extract.World) : Prop :=
  (forall lat lon,
     match Extract.open_meteo w lat lon with
     | Extract.NetworkError _ => False
     | Extract.Response st body => st = 200 -> body <> None
     end) /\
  (forall path, Extract.write_file w path = None) /\
  (forall city k e, Extract.openaq w city k = Extract.NetworkError e -> is_Exception e = true).

(** An outcome for [city]: a snapshot with its source, or the recorded
    failure. *)
Definition outcome_for (city : string) (d : dict value) : Prop :=
  (exists path, d = Extract.outcome_dict city (Some "OpenAQ") (Some path)) \/
  (exists path, d = Extract.outcome_dict city (Some "Open-Meteo") (Some path)) \/
  d = Extract.outcome_dict city None None.

(** Every row carries the frame's columns, in order. *)
Definition rectangular (df : DataFrame) : Prop :=
  forall r, In r (rows df) -> keys r = columns df.

(** A cell of a frame read from a CSV file: a text, a number, a boolean;
    NaN where the file has nothing. *)
Definition csv_cell (v : value) : bool :=
  match v with
  | VStr _ | VInt _ | VFloat _ | VBool _ => true
  | _ => false
  end.

Definition cells_satisfy (Q : value -> bool) (df : DataFrame) : Prop :=
  forall r, In r (rows df) -> Forall (fun kv => Q (snd kv) = true) r.

(** A cell on its way to the sink: a CSV cell or [None]; [pandas.NA]
    in the [hour] column only. *)
Definition entry_ok (kv : string * value) : Prop :=
  csv_cell (snd kv) = true \/ snd kv = VNone \/ (fst kv = "hour" /\ snd kv = VNA).

Definition frame_ok (df : DataFrame) : Prop :=
  forall r, In r (rows df) -> Forall entry_ok r.

(** An event of the loop over the batches: a wait, or the insertion of
    a prepared batch. *)
Definition prepared_event (P : parsers) (w : Load.World) (records : list Load.record)
  (e : event) : Prop :=
  match e with
  | EvSleep _ => True
  | EvInsert _ _ _ b => exists i, b = Load.prepare_batch P w records i
  | _ => False
  end.

(** What the sink may receive in a cell. *)
Definition sink_entry (P : parsers) (kv : string * value) : Prop :=
  is_float_nan (snd kv) = false /\
  (isna (snd kv) = true -> snd kv = VNone \/ (fst kv = "hour" /\ snd kv = VNA)) /\
  Load.normalize_value P (snd kv) = snd kv.

(** The texts that occur as values in a document. *)
Fixpoint strings (j : json) : list string :=
  match j with
  | JStr s => [s]
  | JList l => flat_map strings l
  | JDict d => flat_map (fun kv => strings (snd kv)) d
  | _ => []
  end.







(** The texts of [x] are texts of [j]. *)
Definition sub (x j : json) : Prop := incl (strings x) (strings j).

(** *** Vocabulary of the further properties *)

(** The place of a float in the order of the comparisons: class, then
    exponent, then mantissa. NaN has no place. *)
Definition place (x : float) : option (Z * Z * Z) :=
  match x with
  | S754_nan => None
  | S754_infinity true => Some (-2, 0, 0)
  | S754_infinity false => Some (2, 0, 0)
  | S754_zero _ => Some (0, 0, 0)
  | S754_finite true m e => Some (-1, - e, - Z.pos m)
  | S754_finite false m e => Some (1, e, Z.pos m)
  end.

Definition before_or_at (a b : Z * Z * Z) : Prop :=
  let '(a1, a2, a3) := a in
  let '(b1, b2, b3) := b in
  a1 < b1 \/ (a1 = b1 /\ (a2 < b2 \/ (a2 = b2 /\ a3 <= b3))).

Definition strictly_before (a b : Z * Z * Z) : Prop :=
  let '(a1, a2, a3) := a in
  let '(b1, b2, b3) := b in
  a1 < b1 \/ (a1 = b1 /\ (a2 < b2 \/ (a2 = b2 /\ a3 < b3))).

(** The values of the two derived categories. *)
Definition aqi_categories : list string :=
  ["Unknown"; "Good"; "Moderate"; "Unhealthy"; "Very Unhealthy"; "Hazardous"].

Definition risk_levels : list string :=
  ["Unknown"; "Low Risk"; "Moderate Risk"; "High Risk"].

(** How bad a category is. *)
Definition aqi_rank (a : string) : Z :=
  if String.eqb a "Good" then 0
  else if String.eqb a "Moderate" then 1
  else if String.eqb a "Unhealthy" then 2
  else if String.eqb a "Very Unhealthy" then 3
  else if String.eqb a "Hazardous" then 4
  else 5.

Definition risk_rank (k : string) : Z :=
  if String.eqb k "Low Risk" then 0
  else if String.eqb k "Moderate Risk" then 1
  else if String.eqb k "High Risk" then 2
  else 3.

(** The hour that belongs to a time: the hour of the day of a time
    stamp, as an integer or as a float; missing for a time that could not
    be parsed. *)
Definition hour_in_day (time hour : value) : Prop :=
  match time with
  | VTimestamp t =>
      0 <= hour_of t < 24 /\
      (hour = VInt (hour_of t) \/ hour = VFloat (float_of_Z (hour_of t)))
  | _ => time = VNaT /\ hour = VFloat nan
  end.

(** A contract code as the staged file holds it: the code that
    [transform_data] wrote, read back as an integer or, in a column with
    gaps, as a float. *)
Definition staged_code (x : string) (v : value) : Prop :=
  v = TelcoTransform.contract_type_code x \/
  v = VFloat (num (TelcoTransform.contract_type_code x)).

(** The columns that [add_features] derives or makes sure of. *)
Definition feature_columns : list string :=
  Transform.pollutants ++ ["AQI_Category"; "severity_score"; "Risk_Level"; "hour"].

(** No row of the list equals, for [drop_duplicates], a row of [seen]
    or a row before it in the list. *)
Fixpoint fresh_rows (seen rs : list row) : Prop :=
  match rs with
  | [] => True
  | r :: rest => existsb (Validate.same_row r) seen = false /\ fresh_rows (r :: seen) rest
  end.

(** The paths of the raw files that a trace shows to have been written. *)
Definition saved_paths (evs : list event) : list string :=
  flat_map (fun e => match e with EvSaveRaw p _ => [p] | _ => [] end) evs.

(** The number of requests to the fallback source in a trace. *)
Definition fallback_requests (evs : list event) : Z :=
  Z.of_nat (List.length (filter (fun e => match e with
                                          | EvGet (OpenMeteo_air_quality _ _) => true
                                          | _ => false
                                          end) evs)).

(** The waits of a retry trace: their number and their sum in seconds. *)
Definition waits (v : list retry_event) : list Z :=
  flat_map (fun e => match e with Wait s => [s] | Attempt => [] end) v.

Definition total_wait (v : list retry_event) : Z := sum_Z (waits v).

(** The attempt numbers of the insertions of a trace, in order. *)
Definition insert_attempts (evs : list event) : list Z :=
  flat_map (fun e => match e with EvInsert _ _ a _ => [a] | _ => [] end) evs.

(** The error that attempt number [a] for batch [k] leaves in
    [last_err]: the error of the response or the message of the
    exception; [None] when the attempt is accepted. *)
Definition attempt_error (w : Load.World) (k : Z) (b : list Load.record) (a : Z)
  : option string :=
  match Load.insert w k a b with
  | Load.InsertResponse None => None
  | Load.InsertResponse (Some e) => if String.eqb e EmptyString then None else Some e
  | Load.InsertRaises (Exn _ msg) => Some msg
  end.

(** Attempt number [a] is the last one for the batch whatever the number
    of retries: it is accepted, or it ends the load. *)
Definition final (w : Load.World) (k : Z) (b : list Load.record) (a : Z) : bool :=
  accepts w k b a || match escapes w k b a with Some _ => true | None => false end.

(** The number of the last attempt for a batch when the attempts from
    [from] on are still to be made: the first one that is final, or the
    last one allowed. *)
Definition last_attempt_from (w : Load.World) (k : Z) (b : list Load.record) (from : Z) : Z :=
  match find (final w k b) (Py.range from (Load.RETRY_COUNT w + 2)) with
  | Some a => a
  | None => Load.RETRY_COUNT w + 1
  end.

(** The staged file gives nothing to load: it cannot be read, or it
    holds no row. *)
Definition nothing_to_load (r : result DataFrame) : bool :=
  match r with
  | Ok df => match rows df with [] => true | _ => false end
  | Raise e => is_Exception e
  | OutOfFuel => false
  end.

(** How many labels of the frame are [c] up to the case of the letters. *)
Definition count_lowered (c : string) (df : DataFrame) : nat :=
  List.length (filter (fun l => String.eqb c (lower l)) (columns df)).

(** The label that a column of the staged file has when the records are
    made: in lower case, [risk_level] and [risk] under the name
    [risk_flag] unless the file has a column of that name. *)
Definition sink_label (df : DataFrame) (c : string) : string :=
  if negb (mem "risk_flag" (map lower (columns df)))
     && (String.eqb (lower c) "risk_level" || String.eqb (lower c) "risk")
  then "risk_flag"
  else lower c.

(** A result that Python can produce: a value, or an exception that
    [except Exception] catches. *)
Definition proper {A} (r : result A) : Prop :=
  match r with
  | Ok _ => True
  | Raise e => is_Exception e = true
  | OutOfFuel => False
  end.

(** A JSON document that is no container: a number, a boolean, null. *)
Definition scalar (j : json) : bool :=
  match j with
  | JNull | JBool _ | JInt _ | JFloat _ => true
  | _ => false
  end.

(** A raw file that the loop of [transform] passes over: it cannot be
    read, or its format is unknown. *)
Definition skipped (file : string * option json) : bool :=
  match snd file with
  | None => true
  | Some payload =>
      match Transform.detect_api_format payload with
      | Ok Transform.Fmt_unknown => true
      | _ => false
      end
  end.

(** The world without the raw files that are passed over. *)
Definition without_skipped (w : Transform.World) : Transform.World :=
  {| Transform.raw_files := filter (fun f => negb (skipped f)) (Transform.raw_files w);
     Transform.wall_clock := Transform.wall_clock w;
     Transform.environ := Transform.environ w;
     Transform.working_directory := Transform.working_directory w |}.

(** The scripts that a trace shows to have been run as sub-processes. *)
Definition script_of (e : event) : list string :=
  match e with EvSubprocess s => [s] | _ => [] end.

Definition scripts_run (evs : list event) : list string := flat_map script_of evs.

(** A computation none of whose events shows in a view of the trace. *)
Definition unseen {X A} (view : event -> list X) (m : io A) : Prop :=
  flat_map view (events m) = [].

(** The character does not occur in the text. *)
Fixpoint no_char (c : ascii) (s : string) : bool :=
  match s with
  | EmptyString => true
  | String a s' => negb (Ascii.eqb a c) && no_char c s'
  end.

(** The name of the file that [save_raw] writes for a city. *)
Definition raw_file_name (w : Extract.World) (city : string) : string :=
  (lower city ++ "_raw_" ++ Extract.utcnow w city ++ ".json")%string.

(** *** Further inputs *)

Module Cases.

(** The complete reading of [Scenarios.df_readings] as it leaves
    [add_features]. *)
Definition reading_with_features : row :=
  dict_set "hour" (VInt 1) (dict_set "time" (VTimestamp ns_per_hour)
    (dict_set "Risk_Level" (VStr "High Risk")
      (dict_set "severity_score" (VFloat (Transform.severity Scenarios.row_complete))
        (dict_set "AQI_Category" (VStr "Good") Scenarios.row_complete)))).

(** A tenure of twelve and a half months, as the median of an even
    number of tenures can be. *)
Definition tenure_12_5 : float := Eval vm_compute in Extract.decimal 125 1.

(** A staged telco file whose contract codes were read back as floats,
    one of them missing. *)
Definition telco_codes_as_floats : DataFrame :=
  {| columns := Scenarios.telco_columns;
     rows := [Scenarios.telco_row 3 "New" "Low" (VFloat (float_of_Z 0));
              Scenarios.telco_row 20 "Regular" "High" (VFloat nan);
              Scenarios.telco_row 40 "Loyal" "Medium" (VFloat (float_of_Z 2))] |}.

(** The loader of [Scenarios.world_batch3_rejected] over five staged
    rows, with a batch size that is not positive. *)
Definition world_batch_size (B : Z) : Load.World :=
  {| Load.BATCH_SIZE := B;
     Load.RETRY_COUNT := 2;
     Load.read_csv := fun _ => Ok (Scenarios.staged 5);
     Load.create_client := None;
     Load.insert := fun _ _ _ => Load.InsertResponse None |}.

(** The same loader with a sink at which the first insertion is
    interrupted from the keyboard. *)
Definition world_interrupted : Load.World :=
  {| Load.BATCH_SIZE := 2;
     Load.RETRY_COUNT := 2;
     Load.read_csv := fun _ => Ok (Scenarios.staged 5);
     Load.create_client := None;
     Load.insert := fun _ _ _ => Load.InsertRaises (Exn "KeyboardInterrupt" EmptyString) |}.

(** A staged file with two columns that are [time] up to case. *)
Definition staged_two_times : DataFrame :=
  {| columns := ["city"; "Time"; "time"];
     rows := [[("city", VStr "delhi"); ("Time", VInt 0); ("time", VInt 0)]] |}.

Definition world_two_times : Load.World :=
  {| Load.BATCH_SIZE := 200;
     Load.RETRY_COUNT := 2;
     Load.read_csv := fun _ => Ok staged_two_times;
     Load.create_client := None;
     Load.insert := fun _ _ _ => Load.InsertResponse None |}.

(** The record that is inserted for [Scenarios.staged_without_hour]. *)
Definition record_without_hour : Load.record :=
  [("city", VStr "delhi"); ("time", VStr "1970-01-01T00:00:00");
   ("pm10", VFloat (float_of_Z 40));
   ("pm2_5", VNone); ("carbon_monoxide", VNone); ("nitrogen_dioxide", VNone);
   ("sulphur_dioxide", VNone); ("ozone", VNone); ("uv_index", VNone);
   ("aqi_category", VNone); ("severity_score", VNone); ("risk_flag", VNone);
   ("hour", VNA)].

(** A raw directory with a usable file and a file that holds the JSON
    number 5. *)
Definition world_with_scalar_file : Transform.World :=
  {| Transform.raw_files := [("delhi_raw_20250101T000000Z.json", Some Scenarios.hourly_payload);
                             ("notes.json", Some (JInt 5))];
     Transform.wall_clock := 0;
     Transform.environ := fun _ => None;
     Transform.working_directory := "/home/a/etl" |}.

(** A run without the credentials of the sink: load.py ends the
    interpreter when it is imported. *)
Definition world_without_credentials : Pipeline.World :=
  {| Pipeline.pandas := Scenarios.sample_parsers;
     Pipeline.extract_world := Scenarios.world_empty_results;
     Pipeline.transform_world := Scenarios.transform_world_a;
     Pipeline.load_world := Scenarios.world_batch3_rejected 5 2;
     Pipeline.STAGED_DEFAULT := "data/staged/air_quality_transformed.csv";
     Pipeline.import_module :=
       fun m => if String.eqb m "load"
                then Some (Exn "SystemExit"
                             "SUPABASE_URL and SUPABASE_KEY must be set in environment (.env)")
                else None;
     Pipeline.script_exists := fun _ => true;
     Pipeline.subprocess_returncode := fun _ => 0;
     Pipeline.raw_listing := [];
     Pipeline.staged_listing := ["/home/a/etl/data/staged/air_quality_transformed.csv"];
     Pipeline.analysis_main := None |}.

(** A run in which the request to the fallback source fails in the
    network layer; the raw directory holds a file of an earlier run. *)
Definition world_fetch_raises : Pipeline.World :=
  {| Pipeline.pandas := Scenarios.sample_parsers;
     Pipeline.extract_world := Scenarios.world_fallback_unreachable;
     Pipeline.transform_world := Scenarios.transform_world_a;
     Pipeline.load_world := Scenarios.world_batch3_rejected 5 2;
     Pipeline.STAGED_DEFAULT := "data/staged/air_quality_transformed.csv";
     Pipeline.import_module := fun _ => None;
     Pipeline.script_exists := fun _ => true;
     Pipeline.subprocess_returncode := fun _ => 0;
     Pipeline.raw_listing := ["/home/a/etl/data/raw/delhi_raw_20240101T000000Z.json"];
     Pipeline.staged_listing := ["/home/a/etl/data/staged/air_quality_transformed.csv"];
     Pipeline.analysis_main := None |}.

(** The hourly entries of [Scenarios.hourly_payload] with a scalar
    entry, and the frame they are flattened to. *)
Definition hourly_entries : list (string * json) :=
  [("time", JList [JStr "1970-01-01T05:00"]);
   ("pm10", JList [JInt 40]);
   ("pm2_5", JList [JNull]);
   ("timezone", JStr "GMT")].

Definition hourly_frame : DataFrame :=
  Eval vm_compute in
  match Transform.flatten_open_meteo Scenarios.sample_parsers
          (JDict [("hourly", JDict hourly_entries)]) "delhi" with
  | Ok df => df
  | _ => empty_frame
  end.



(** [Scenarios.df_readings] as it leaves [add_features]. *)
Definition readings_with_features : DataFrame :=
  Eval vm_compute in
  match Transform.add_features Scenarios.sample_parsers Scenarios.df_readings with
  | Ok df => df
  | _ => empty_frame
  end.

(** A run in which no entity can be extracted and the staged directory
    holds no file. *)
Definition world_clean_staged_dir : Pipeline.World :=
  {| Pipeline.pandas := Scenarios.sample_parsers;
     Pipeline.extract_world := Scenarios.world_all_sources_fail;
     Pipeline.transform_world := Scenarios.no_raw_files;
     Pipeline.load_world := Scenarios.world_empty_staged;
     Pipeline.STAGED_DEFAULT := "data/staged/air_quality_transformed.csv";
     Pipeline.import_module := fun _ => None;
     Pipeline.script_exists := fun _ => true;
     Pipeline.subprocess_returncode := fun _ => 0;
     Pipeline.raw_listing := [];
     Pipeline.staged_listing := [];
     Pipeline.analysis_main := None |}.

End Cases.

(** ** Floats: where NaN comes from *)

Lemma shr_1_nonneg mrs : 0 <= shr_m mrs -> 0 <= shr_m (shr_1 mrs).
Proof.
  destruct mrs as [m r s]; simpl.
  destruct m as [|p|p]; simpl; try lia; destruct p; simpl; lia.
Qed.

Lemma iter_shr_1_nonneg p : forall mrs,
  0 <= shr_m mrs -> 0 <= shr_m (iter_pos shr_1 p mrs).
Proof.
  induction p as [p IH|p IH|]; intros mrs H; simpl.
  - apply IH, IH, shr_1_nonneg, H.
  - apply IH, IH, H.
  - apply shr_1_nonneg, H.
Qed.

Lemma shr_fexp_nonneg m e l :
  0 <= m -> 0 <= shr_m (fst (shr_fexp prec emax m e l)).
Proof.
  intros H. unfold shr_fexp, shr.
  assert (H0 : 0 <= shr_m (shr_record_of_loc m l)).
  { destruct l as [|[]]; simpl; exact H. }
  destruct (fexp prec emax (Zdigits2 m + e) - e); simpl; auto.
  apply iter_shr_1_nonneg, H0.
Qed.

Lemma round_nearest_even_nonneg m l : 0 <= m -> 0 <= round_nearest_even m l.
Proof.
  intros H. destruct l as [|[]]; simpl; try lia.
  destruct (Z.even m); lia.
Qed.

Lemma binary_round_aux_signed s m e l :
  0 <= m -> signed s (binary_round_aux prec emax s m e l).
Proof.
  intros H. unfold binary_round_aux.
  pose proof (shr_fexp_nonneg m e l H) as H1.
  destruct (shr_fexp prec emax m e l) as [mrs' e'] eqn:E1. simpl in H1.
  pose proof (shr_fexp_nonneg _ e' loc_Exact
                (round_nearest_even_nonneg _ (loc_of_shr_record mrs') H1)) as H2.
  destruct (shr_fexp prec emax (round_nearest_even (shr_m mrs') (loc_of_shr_record mrs'))
              e' loc_Exact) as [mrs'' e''] eqn:E2.
  simpl in H2.
  destruct (shr_m mrs'') as [|p|p]; [reflexivity| |lia].
  change (Z.leb e'' (Z.sub emax prec)) with (e'' <=? emax - prec).
  destruct (e'' <=? emax - prec); reflexivity.
Qed.

Lemma binary_round_signed s m e : signed s (binary_round prec emax s m e).
Proof.
  unfold binary_round.
  destruct (shl_align m e (fexp prec emax (Z.pos (digits2_pos m) + e))) as [mz ez].
  apply binary_round_aux_signed. lia.
Qed.

Lemma signed_not_nan s x : signed s x -> isnan x = false.
Proof. destruct x; simpl; intros H; try reflexivity; contradiction. Qed.

Lemma signed_nonneg x : signed false x <-> nonneg x = true.
Proof.
  destruct x as [s|s| |s m e]; simpl; try (destruct s; simpl; split; congruence).
  split; [contradiction | discriminate].
Qed.

(** Multiplying by a positive finite constant keeps the sign and never
    creates a NaN. *)
Lemma fmul_const_nan x m e :
  isnan (fmul x (S754_finite false m e)) = isnan x.
Proof.
  destruct x as [s|s| |s m' e']; simpl; try reflexivity.
  apply signed_not_nan with (s := xorb s false), binary_round_aux_signed. lia.
Qed.

Lemma fmul_const_nonneg x m e :
  nonneg x = true -> nonneg (fmul x (S754_finite false m e)) = true.
Proof.
  destruct x as [[]|[]| |[] m' e']; simpl; try discriminate; try reflexivity.
  intros _. apply signed_nonneg.
  apply (binary_round_aux_signed false). lia.
Qed.

Lemma fadd_nan_l x y : isnan x = true -> isnan (fadd x y) = true.
Proof. destruct x; simpl; try discriminate. reflexivity. Qed.

Lemma fadd_nan_r x y : isnan y = true -> isnan (fadd x y) = true.
Proof. destruct y; simpl; try discriminate. destruct x; reflexivity. Qed.

Lemma fadd_nonneg x y :
  nonneg x = true -> nonneg y = true -> nonneg (fadd x y) = true.
Proof.
  destruct x as [[]|[]| |[] mx ex]; simpl; try discriminate;
  destruct y as [[]|[]| |[] my ey]; simpl; try discriminate; try reflexivity.
  intros _ _. apply signed_nonneg. unfold fadd, SFadd, cond_Zopp.
  unfold binary_normalize.
  destruct (Z.pos (fst (shl_align mx ex (Z.min ex ey)))
            + Z.pos (fst (shl_align my ey (Z.min ex ey)))) eqn:E; try lia.
  apply binary_round_signed.
Qed.

Lemma nonneg_not_nan x : nonneg x = true -> isnan x = false.
Proof. destruct x; simpl; congruence. Qed.

(** ** Dictionaries and frames *)

Lemma dict_get_set_same {V} k (v : V) d : dict_get k (dict_set k v d) = Some v.
Proof.
  induction d as [|[k' v'] d IH]; simpl.
  - now rewrite String.eqb_refl.
  - destruct (String.eqb k k') eqn:E; simpl; rewrite E; auto.
Qed.

Lemma dict_get_set_other {V} k k' (v : V) d :
  k <> k' -> dict_get k (dict_set k' v d) = dict_get k d.
Proof.
  intros Hne. induction d as [|[k0 v0] d IH]; simpl.
  - apply String.eqb_neq in Hne. now rewrite Hne.
  - destruct (String.eqb k' k0) eqn:E; simpl.
    + apply String.eqb_eq in E. subst k0.
      apply String.eqb_neq in Hne. now rewrite Hne.
    + now rewrite IH.
Qed.

Lemma cell_set_same c v r : cell c (dict_set c v r) = v.
Proof. unfold cell. now rewrite dict_get_set_same. Qed.

Lemma cell_set_other c c' v r : c <> c' -> cell c (dict_set c' v r) = cell c r.
Proof. intros H. unfold cell. now rewrite dict_get_set_other. Qed.

Lemma keys_dict_set_in {V} k (v : V) d :
  In k (keys d) -> keys (dict_set k v d) = keys d.
Proof.
  unfold keys. induction d as [|[k' v'] d IH]; simpl; [tauto|].
  intros [->|H].
  - now rewrite String.eqb_refl.
  - destruct (String.eqb k k'); simpl; [reflexivity|]. now rewrite IH.
Qed.

Lemma keys_dict_set_fresh {V} k (v : V) d :
  ~ In k (keys d) -> dict_set k v d = d ++ [(k, v)].
Proof.
  unfold keys. induction d as [|[k' v'] d IH]; simpl; [reflexivity|].
  intros H. destruct (String.eqb k k') eqn:E.
  - apply String.eqb_eq in E. subst. tauto.
  - rewrite IH; tauto.
Qed.

Lemma mem_In x xs : mem x xs = true <-> In x xs.
Proof.
  unfold mem. rewrite existsb_exists. split.
  - intros [y [Hy E]]. apply String.eqb_eq in E. now subst.
  - intros H. exists x. split; [assumption | apply String.eqb_refl].
Qed.

(** ** transform.py: the severity score *)

Lemma isna_num v : isna v = true -> isnan (num v) = true.
Proof. destruct v as [| | | | | | | | | | |[t|]|]; simpl; auto; discriminate. Qed.

Lemma measurement_num_isna v : measurement v -> isnan (num v) = isna v.
Proof. intros [->|[f ->]]; reflexivity. Qed.

Lemma coerce_pollutant_rows P df col :
  exists g, (forall r, measurement (g r)) /\
    rows (Transform.coerce_pollutant P df col) = map (fun r => dict_set col (g r) r) (rows df).
Proof.
  unfold Transform.coerce_pollutant. destruct (has_column col df).
  - exists (fun r => VFloat (to_numeric P (cell col r))). split; [|reflexivity].
    intros r. right. eauto.
  - exists (fun _ => VNone). split; [|reflexivity]. intros r. now left.
Qed.

Lemma coerce_fold_measurement P cols : forall df (S : list string),
  (forall r p, In r (rows df) -> In p S -> measurement (cell p r)) ->
  forall r p, In r (rows (fold_left (Transform.coerce_pollutant P) cols df)) ->
              In p (S ++ cols) -> measurement (cell p r).
Proof.
  induction cols as [|c cols IH]; intros df S HS r p Hr Hp; simpl in *.
  - rewrite app_nil_r in Hp. eauto.
  - apply (IH (Transform.coerce_pollutant P df c) (S ++ [c])); auto.
    + clear r p Hr Hp. intros r p Hr Hp.
      destruct (coerce_pollutant_rows P df c) as [g [Hg E]]. rewrite E in Hr.
      apply in_map_iff in Hr. destruct Hr as [r0 [<- Hr0]].
      destruct (string_dec p c) as [->|Hne].
      * rewrite cell_set_same. apply Hg.
      * rewrite cell_set_other by assumption.
        apply in_app_or in Hp. destruct Hp as [Hp|[Hp|[]]]; [eauto | congruence].
    + now rewrite <- app_assoc.
Qed.

Lemma severity_ext r r' :
  agree_on Transform.pollutants r r' -> Transform.severity r = Transform.severity r'.
Proof.
  intros H. unfold Transform.severity.
  rewrite !(H "pm2_5"), !(H "pm10"), !(H "nitrogen_dioxide"), !(H "sulphur_dioxide"),
          !(H "carbon_monoxide"), !(H "ozone"); simpl; tauto.
Qed.

(** A row that leaves [add_features] is a row of the coerced frame that
    survived [dropna], extended by the five derived columns. *)
Lemma add_features_row P df df' r :
  Transform.add_features P df = Ok df' -> In r (rows df') ->
  exists r1 a k t h,
    In r1 (rows (fold_left (Transform.coerce_pollutant P) Transform.pollutants df)) /\
    forallb (fun c => isna (cell c r1)) Transform.pollutants = false /\
    let r2 := dict_set "AQI_Category" a r1 in
    r = dict_set "hour" h (dict_set "time" t (dict_set "Risk_Level" k
          (dict_set "severity_score" (VFloat (Transform.severity r2)) r2))).
Proof.
  unfold Transform.add_features.
  match goal with |- context [if ?c then _ else _] => destruct c end; [|discriminate].
  intros E Hr. injection E as <-.
  unfold assign_column in Hr; cbn [rows] in Hr.
  apply in_map_iff in Hr. destruct Hr as [[r5 h] [<- Hr]]. cbn [fst snd].
  apply in_combine_l in Hr.
  repeat (apply in_map_iff in Hr; destruct Hr as [? [<- Hr]]).
  apply filter_In in Hr. destruct Hr as [Hr Hna].
  apply negb_true_iff in Hna.
  do 5 eexists. split; [exact Hr|]. split; [exact Hna|]. reflexivity.
Qed.

Ltac other_cell :=
  repeat (rewrite cell_set_other by (let H := fresh in intro H; discriminate H)).

Lemma add_features_cells P df df' r :
  Transform.add_features P df = Ok df' -> In r (rows df') ->
  (forall p, In p Transform.pollutants -> measurement (cell p r)) /\
  cell "severity_score" r = VFloat (Transform.severity r) /\
  forallb (fun c => isna (cell c r)) Transform.pollutants = false.
Proof.
  intros E Hr.
  destruct (add_features_row P df df' r E Hr) as (r1 & a & k & t & h & Hr1 & Hna & ->).
  assert (Hm : forall p, In p Transform.pollutants -> measurement (cell p r1)).
  { intros p Hp.
    apply (coerce_fold_measurement P Transform.pollutants df [] (fun _ _ _ F => match F with end) r1 p Hr1 Hp). }
  assert (Hag : forall p, In p Transform.pollutants ->
            cell p (dict_set "hour" h (dict_set "time" t (dict_set "Risk_Level" k
              (dict_set "severity_score"
                 (VFloat (Transform.severity (dict_set "AQI_Category" a r1)))
                 (dict_set "AQI_Category" a r1))))) = cell p r1).
  { intros p Hp. simpl in Hp.
    repeat (destruct Hp as [<-|Hp]; [other_cell; reflexivity|]). destruct Hp. }
  split; [|split].
  - intros p Hp. rewrite Hag by assumption. auto.
  - other_cell. rewrite cell_set_same. f_equal. apply severity_ext.
    intros p Hp. rewrite Hag by assumption.
    simpl in Hp. repeat (destruct Hp as [<-|Hp]; [other_cell; reflexivity|]). destruct Hp.
  - etransitivity; [|exact Hna]. unfold Transform.pollutants. cbn [forallb].
    rewrite !Hag by (simpl; tauto). reflexivity.
Qed.

Lemma severity_nan_of_missing r :
  any_missing r = true -> isnan (Transform.severity r) = true.
Proof.
  unfold any_missing, Transform.pollutants. cbn [existsb].
  unfold Transform.severity, Transform.f2, Transform.f3, Transform.f4, Transform.f5.
  rewrite !orb_true_iff.
  intros [H|[H|[H|[H|[H|[H|H]]]]]]; try discriminate H; apply isna_num in H;
    repeat first
      [ apply fadd_nan_r; rewrite fmul_const_nan; exact H
      | rewrite fmul_const_nan; exact H
      | apply fadd_nan_l ].
Qed.

Lemma severity_present_nonneg r :
  present_nonneg r = true -> any_missing r = false ->
  isnan (Transform.severity r) = false.
Proof.
  unfold present_nonneg, any_missing, Transform.pollutants. cbn [existsb forallb].
  rewrite !andb_true_iff, !orb_false_iff.
  intros (H1 & H2 & H3 & H4 & H5 & H6 & _) (N1 & N2 & N3 & N4 & N5 & N6 & _).
  rewrite N1 in H1. rewrite N2 in H2. rewrite N3 in H3.
  rewrite N4 in H4. rewrite N5 in H5. rewrite N6 in H6. simpl in *.
  apply nonneg_not_nan.
  unfold Transform.severity, Transform.f2, Transform.f3, Transform.f4, Transform.f5.
  repeat apply fadd_nonneg; apply fmul_const_nonneg; assumption.
Qed.

(** C1 (as the code has it). For every record that leaves [add_features]:
    the severity score is missing as soon as one of the six contributing
    measurements is missing (missingness propagates through the weighted
    sum; it is not computed from the fields that are available), and when
    every measurement that is present is non-negative the score is missing
    exactly then. At least one measurement is present in every such
    record. *)
Theorem severity_missing_iff_some_measurement_missing P df df' r :
  Transform.add_features P df = Ok df' -> In r (rows df') ->
  all_missing r = false /\
  (any_missing r = true -> isna (cell "severity_score" r) = true) /\
  (present_nonneg r = true -> isna (cell "severity_score" r) = any_missing r).
Proof.
  intros E Hr.
  destruct (add_features_cells P df df' r E Hr) as (Hm & Hs & Hna).
  rewrite Hs. simpl. split; [exact Hna|]. split.
  - apply severity_nan_of_missing.
  - intros Hnn. destruct (any_missing r) eqn:Ha.
    + now apply severity_nan_of_missing.
    + now apply severity_present_nonneg.
Qed.

(** C1, the claim as stated fails: the record with [pm2_5] missing and
    [pm10 = 40] leaves [add_features] with a missing score (and risk level
    Unknown) although not all of its measurements are missing. *)
Lemma severity_missing_with_pm10_present :
  exists df' r,
    Transform.add_features Scenarios.sample_parsers Scenarios.df_readings = Ok df' /\
    In r (rows df') /\
    isna (cell "pm2_5" r) = true /\
    cell "pm10" r = VFloat (float_of_Z 40) /\
    all_missing r = false /\
    isna (cell "severity_score" r) = true /\
    cell "Risk_Level" r = VStr "Unknown".
Proof.
  eexists. eexists. split; [vm_compute; reflexivity|].
  split; [left; reflexivity|]. vm_compute. repeat split; reflexivity.
Qed.

Lemma severity_missing_iff_some_measurement_missing_witness :
  let r := dict_set "hour" (VInt 1) (dict_set "time" (VTimestamp ns_per_hour)
             (dict_set "Risk_Level" (VStr "High Risk")
               (dict_set "severity_score" (VFloat (Transform.severity Scenarios.row_complete))
                 (dict_set "AQI_Category" (VStr "Good") Scenarios.row_complete)))) in
  all_missing r = false /\
  (any_missing r = true -> isna (cell "severity_score" r) = true) /\
  (present_nonneg r = true -> isna (cell "severity_score" r) = any_missing r).
Proof.
  intro r.
  refine (severity_missing_iff_some_measurement_missing
            Scenarios.sample_parsers Scenarios.df_readings _ r _ _).
  - vm_compute. reflexivity.
  - right. left. vm_compute. reflexivity.
Defined.

(** ** Effects: results and events of a sequence *)

Lemma events_bind {A B} (m : io A) (k : A -> io B) :
  events (bind m k) =
  events m ++ match outcome m with Ok a => events (k a) | _ => [] end.
Proof.
  destruct m as [[a|e|] t]; simpl; try now rewrite app_nil_r.
  destruct (k a); reflexivity.
Qed.

Lemma outcome_bind {A B} (m : io A) (k : A -> io B) :
  outcome (bind m k) =
  match outcome m with
  | Ok a => outcome (k a)
  | Raise e => Raise e
  | OutOfFuel => OutOfFuel
  end.
Proof. destruct m as [[a|e|] t]; simpl; try reflexivity. destruct (k a); reflexivity. Qed.

Lemma io_eta {A} (m : io A) : m = (outcome m, events m).
Proof. destruct m; reflexivity. Qed.

(** ** extract.py: retries, waits and fallback *)

Lemma range_nil a b : b <= a -> Py.range a b = [].
Proof. intros H. unfold Py.range. replace (Z.to_nat (b - a)) with 0%nat by lia. reflexivity. Qed.

Lemma range_cons a b : a < b -> Py.range a b = a :: Py.range (a + 1) b.
Proof.
  intros H. unfold Py.range.
  replace (Z.to_nat (b - a)) with (S (Z.to_nat (b - (a + 1)))) by lia.
  simpl. f_equal; [lia|].
  rewrite <- seq_shift, map_map. apply map_ext. intros k. lia.
Qed.

Lemma range_app a j b : a <= j <= b -> Py.range a b = Py.range a j ++ Py.range j b.
Proof.
  intros H. remember (Z.to_nat (j - a)) as n eqn:En.
  revert a H En. induction n as [|n IH]; intros a H En.
  - assert (a = j) by lia. subst. now rewrite (range_nil j j) by lia.
  - rewrite (range_cons a b), (range_cons a j) by lia. simpl. f_equal.
    apply IH; lia.
Qed.

Lemma In_range k a b : In k (Py.range a b) <-> a <= k < b.
Proof.
  unfold Py.range. rewrite in_map_iff. split.
  - intros [n [<- Hn]]. apply in_seq in Hn. lia.
  - intros H. exists (Z.to_nat (k - a)). split; [lia|]. apply in_seq. lia.
Qed.

(** Case analysis on everything a computation branches on. *)
Ltac io_cases :=
  repeat (simpl;
          match goal with
          | |- context [match ?x with _ => _ end] =>
              lazymatch x with
              | context [match _ with _ => _ end] => fail
              | _ => destruct x eqn:?
              end
          end);
  simpl.

(** One pass of the loop makes exactly one primary request, first. *)
Lemma try_openaq_events w city k :
  exists rest, events (Extract.try_openaq w city k) = EvGet (OpenAQ_latest city) :: rest /\
               openaq_view rest = [].
Proof.
  unfold Extract.try_openaq, Extract.call_openaq_v3, Extract.get_results, Extract.save_raw.
  io_cases; eauto.
Qed.

Lemma openaq_view_app a b : openaq_view (a ++ b) = openaq_view a ++ openaq_view b.
Proof. apply flat_map_app. Qed.

Lemma attempts_cons_attempt v : attempts (Attempt :: v) = 1 + attempts v.
Proof. unfold attempts. cbn [filter List.length]. lia. Qed.

Lemma attempts_cons_wait s v : attempts (Wait s :: v) = attempts v.
Proof. reflexivity. Qed.

Lemma attempts_nonneg v : 0 <= attempts v.
Proof. unfold attempts. lia. Qed.

(** The events of the retry loop: one pass, and after a pass that found
    nothing the wait and the remaining passes. *)
Lemma openaq_with_retries_cons w city a rest :
  events (Extract.openaq_with_retries w city (a :: rest)) =
  events (Extract.try_openaq w city a) ++
  match outcome (Extract.try_openaq w city a) with
  | Ok None => EvSleep (2 ^ (a - 1)) :: events (Extract.openaq_with_retries w city rest)
  | _ => []
  end.
Proof.
  cbn [Extract.openaq_with_retries]. rewrite events_bind.
  destruct (outcome (Extract.try_openaq w city a)) as [[found|]|e|]; try reflexivity.
  rewrite events_bind. reflexivity.
Qed.

Lemma openaq_with_retries_schedule w city n : forall a b,
  Z.to_nat (b - a) = n ->
  let v := openaq_view (events (Extract.openaq_with_retries w city (Py.range a b))) in
  attempts v <= Z.max 0 (b - a) /\ backoff_ok 1 a v = true.
Proof.
  induction n as [|n IH]; intros a b Hn v; subst v.
  - rewrite range_nil by lia. simpl. split; [unfold attempts; simpl; lia | reflexivity].
  - assert (Hab : a < b) by lia.
    rewrite range_cons by lia. rewrite openaq_with_retries_cons, openaq_view_app.
    destruct (try_openaq_events w city a) as [rest [-> Hrest]].
    change (openaq_view (EvGet (OpenAQ_latest city) :: rest))
      with (Attempt :: openaq_view rest).
    rewrite Hrest.
    destruct (IH (a + 1) b ltac:(lia)) as [Hc Hb].
    destruct (outcome (Extract.try_openaq w city a)) as [[found|]|e|];
      try (split; [unfold attempts; simpl; lia | reflexivity]).
    change (openaq_view (EvSleep (2 ^ (a - 1)) :: ?l))
      with (Wait (2 ^ (a - 1)) :: openaq_view l).
    cbn [app]. rewrite attempts_cons_attempt, attempts_cons_wait.
    split; [lia|]. cbn [backoff_ok]. rewrite Hb, andb_true_r. apply Z.eqb_eq. lia.
Qed.

Lemma fallback_open_meteo_view w city i :
  openaq_view (events (Extract.fallback_open_meteo w city i)) = [].
Proof.
  unfold Extract.fallback_open_meteo, Extract.call_open_meteo, Extract.save_raw.
  io_cases; reflexivity.
Qed.

Lemma fetch_city_events w city i :
  events (Extract.fetch_city w city i) =
  events (Extract.openaq_with_retries w city (Py.range 1 (Extract.MAX_RETRIES w + 1))) ++
  match outcome (Extract.openaq_with_retries w city (Py.range 1 (Extract.MAX_RETRIES w + 1))) with
  | Ok None => events (Extract.fallback_open_meteo w city i)
  | _ => []
  end.
Proof.
  unfold Extract.fetch_city. rewrite events_bind.
  destruct (outcome _) as [[found|]|e|]; reflexivity.
Qed.

(** The primary source is tried at most [MAX_RETRIES] times for a city,
    and the wait after attempt [k] is [2^(k-1)] seconds. *)
Lemma fetch_city_schedule w city i :
  0 <= Extract.MAX_RETRIES w ->
  let v := openaq_view (events (Extract.fetch_city w city i)) in
  attempts v <= Extract.MAX_RETRIES w /\ backoff_ok 1 1 v = true.
Proof.
  intros H v. subst v. rewrite fetch_city_events, openaq_view_app.
  destruct (openaq_with_retries_schedule w city _ 1 (Extract.MAX_RETRIES w + 1) eq_refl)
    as [Hc Hb].
  replace (openaq_view (match outcome _ with Ok None => _ | _ => [] end)) with (@nil retry_event).
  - rewrite app_nil_r. split; [lia | exact Hb].
  - destruct (outcome _) as [[found|]|e|]; try reflexivity.
    symmetry. apply fallback_open_meteo_view.
Qed.

Lemma try_openaq_empty w city k :
  empty_2xx (Extract.openaq w city k) = true ->
  Extract.try_openaq w city k = (Ok None, [EvGet (OpenAQ_latest city)]).
Proof.
  unfold empty_2xx, Extract.try_openaq, Extract.call_openaq_v3, Extract.get_results.
  destruct (Extract.openaq w city k) as [e|st [[| | | | | |d]|]]; try discriminate.
  rewrite !andb_true_iff, negb_true_iff. intros [_ Hr].
  destruct (st =? 200); simpl; [|reflexivity]. rewrite Hr. reflexivity.
Qed.

Lemma openaq_with_retries_outcome_cons w city a rest :
  outcome (Extract.openaq_with_retries w city (a :: rest)) =
  match outcome (Extract.try_openaq w city a) with
  | Ok (Some found) => Ok (Some found)
  | Ok None => outcome (Extract.openaq_with_retries w city rest)
  | Raise e => Raise e
  | OutOfFuel => OutOfFuel
  end.
Proof.
  cbn [Extract.openaq_with_retries]. rewrite outcome_bind.
  destruct (outcome (Extract.try_openaq w city a)) as [[found|]|e|]; try reflexivity.
  rewrite outcome_bind. reflexivity.
Qed.

Lemma openaq_with_retries_app w city l1 : forall l2,
  (forall k, In k l1 -> outcome (Extract.try_openaq w city k) = Ok None) ->
  events (Extract.openaq_with_retries w city (l1 ++ l2)) =
    failed_passes w city l1 ++ events (Extract.openaq_with_retries w city l2) /\
  outcome (Extract.openaq_with_retries w city (l1 ++ l2)) =
    outcome (Extract.openaq_with_retries w city l2).
Proof.
  induction l1 as [|a l1 IH]; intros l2 H; [split; reflexivity|].
  destruct (IH l2 (fun k Hk => H k (or_intror Hk))) as [IHe IHo].
  cbn [app]. rewrite openaq_with_retries_cons, openaq_with_retries_outcome_cons.
  rewrite (H a (or_introl eq_refl)). split; [|exact IHo].
  rewrite IHe. cbn [failed_passes flat_map]. rewrite <- !app_assoc. reflexivity.
Qed.

Lemma failed_passes_attempts w city l :
  attempts (openaq_view (failed_passes w city l)) = Z.of_nat (List.length l).
Proof.
  induction l as [|a l IH]; [reflexivity|].
  cbn [failed_passes flat_map]. fold (failed_passes w city l).
  destruct (try_openaq_events w city a) as [rest [-> Hrest]].
  rewrite !openaq_view_app.
  change (openaq_view (EvGet (OpenAQ_latest city) :: rest)) with (Attempt :: openaq_view rest).
  rewrite Hrest. cbn [app openaq_view flat_map].
  rewrite attempts_cons_attempt, attempts_cons_wait, IH. cbn [List.length]. lia.
Qed.

Lemma range_length a b : List.length (Py.range a b) = Z.to_nat (b - a).
Proof. unfold Py.range. now rewrite length_map, length_seq. Qed.

Lemma fallback_open_meteo_first w city i :
  exists rest, events (Extract.fallback_open_meteo w city i) =
               EvGet (OpenMeteo_air_quality (Extract.lat i) (Extract.lon i)) :: rest.
Proof.
  unfold Extract.fallback_open_meteo, Extract.call_open_meteo, Extract.save_raw.
  io_cases; eauto.
Qed.

(** C3 (as the code has it). A 2xx response without results is handled
    like any failed attempt: when attempt [j] of the primary source gets
    one (the attempts before it having found nothing), the Extractor waits
    [2^(j-1)] seconds and then issues the next primary attempt; only after
    attempt number [MAX_RETRIES] does the request that follows the wait go
    to the fallback source. *)
Theorem empty_primary_response_is_retried w city i j :
  1 <= j <= Extract.MAX_RETRIES w ->
  (forall k, 1 <= k < j -> outcome (Extract.try_openaq w city k) = Ok None) ->
  empty_2xx (Extract.openaq w city j) = true ->
  exists pre post,
    events (Extract.fetch_city w city i) =
      pre ++ EvGet (OpenAQ_latest city) :: EvSleep (2 ^ (j - 1)) ::
             (if j <? Extract.MAX_RETRIES w
              then EvGet (OpenAQ_latest city)
              else EvGet (OpenMeteo_air_quality (Extract.lat i) (Extract.lon i))) :: post /\
    attempts (openaq_view pre) = j - 1.
Proof.
  intros Hj Hprev Hempty.
  set (M := Extract.MAX_RETRIES w) in *.
  exists (failed_passes w city (Py.range 1 j)).
  rewrite fetch_city_events. fold M.
  rewrite (range_app 1 j (M + 1)) by lia.
  rewrite (range_cons j (M + 1)) by lia.
  destruct (openaq_with_retries_app w city (Py.range 1 j)
              (j :: Py.range (j + 1) (M + 1))) as [He Ho].
  { intros k Hk. apply In_range in Hk. apply Hprev. lia. }
  rewrite He, Ho, openaq_with_retries_cons, openaq_with_retries_outcome_cons.
  rewrite (try_openaq_empty w city j Hempty).
  cbn [events outcome fst snd app].
  rewrite failed_passes_attempts, range_length.
  destruct (j <? M) eqn:Hlt.
  - apply Z.ltb_lt in Hlt. rewrite (range_cons (j + 1) (M + 1)) by lia.
    rewrite openaq_with_retries_cons.
    destruct (try_openaq_events w city (j + 1)) as [rest [-> _]].
    eexists. split; [|lia]. rewrite <- !app_assoc. cbn [app]. reflexivity.
  - apply Z.ltb_ge in Hlt. rewrite (range_nil (j + 1) (M + 1)) by lia.
    cbn [Extract.openaq_with_retries ret events outcome fst snd app].
    destruct (fallback_open_meteo_first w city i) as [rest ->].
    eexists. split; [|lia]. rewrite <- !app_assoc. cbn [app]. reflexivity.
Qed.

(** C3, the claim as stated fails: OpenAQ answers 200 with an empty
    result list, and the Extractor still consumes all three primary
    attempts, with their waits, before it turns to the fallback. *)
Lemma empty_results_consume_all_attempts :
  empty_2xx (Extract.openaq Scenarios.world_empty_results "Delhi" 1) = true /\
  attempts (openaq_view (events (Extract.fetch_city Scenarios.world_empty_results
                                   "Delhi" Scenarios.delhi))) = 3 /\
  events (Extract.fetch_city Scenarios.world_empty_results "Delhi" Scenarios.delhi) =
    [EvGet (OpenAQ_latest "Delhi"); EvSleep 1;
     EvGet (OpenAQ_latest "Delhi"); EvSleep 2;
     EvGet (OpenAQ_latest "Delhi"); EvSleep 4;
     EvGet (OpenMeteo_air_quality (Extract.lat Scenarios.delhi) (Extract.lon Scenarios.delhi));
     EvSaveRaw "data/raw/delhi_raw_20250101T000000Z.json" Scenarios.hourly_payload].
Proof. repeat split; vm_compute; reflexivity. Qed.

Lemma empty_primary_response_is_retried_witness :
  exists pre post,
    events (Extract.fetch_city Scenarios.world_empty_results "Delhi" Scenarios.delhi) =
      pre ++ EvGet (OpenAQ_latest "Delhi") :: EvSleep (2 ^ (2 - 1)) ::
             (if 2 <? Extract.MAX_RETRIES Scenarios.world_empty_results
              then EvGet (OpenAQ_latest "Delhi")
              else EvGet (OpenMeteo_air_quality (Extract.lat Scenarios.delhi)
                                                (Extract.lon Scenarios.delhi))) :: post /\
    attempts (openaq_view pre) = 2 - 1.
Proof.
  apply (empty_primary_response_is_retried Scenarios.world_empty_results "Delhi"
           Scenarios.delhi 2).
  - simpl. lia.
  - intros k Hk. assert (k = 1) by lia. subst k. vm_compute. reflexivity.
  - vm_compute. reflexivity.
Defined.

(** ** load.py: the normalization of records *)

Lemma lower_ascii_idem c : lower_ascii (lower_ascii c) = lower_ascii c.
Proof. destruct c as [[] [] [] [] [] [] [] []]; reflexivity. Qed.

Lemma lower_idem s : lower (lower s) = lower s.
Proof. induction s as [|c s IH]; simpl; [reflexivity|]. now rewrite lower_ascii_idem, IH. Qed.

Lemma normalize_value_idem P v :
  Load.normalize_value P (Load.normalize_value P v) = Load.normalize_value P v.
Proof.
  destruct v as [| | | | | | | | | |k f|[t|]|]; simpl; try reflexivity.
  destruct (is_integer f); reflexivity.
Qed.

Lemma dict_set_keys {V} k (v : V) d :
  keys (dict_set k v d) = if mem k (keys d) then keys d else keys d ++ [k].
Proof.
  destruct (mem k (keys d)) eqn:E.
  - apply keys_dict_set_in, mem_In, E.
  - rewrite keys_dict_set_fresh.
    + unfold keys. now rewrite map_app.
    + intros H. apply mem_In in H. congruence.
Qed.

Lemma dict_set_Forall {V} (Q : string * V -> Prop) k v d :
  Forall Q d -> (forall k', k' = k -> Q (k', v)) -> Forall Q (dict_set k v d).
Proof.
  intros Hd Hk. induction Hd as [|[k' v'] d Hx Hd IH]; simpl.
  - constructor; auto.
  - destruct (String.eqb k k') eqn:E.
    + apply String.eqb_eq in E. constructor; auto.
    + constructor; auto.
Qed.

Lemma normal_record_set P k v d :
  normal_record P d -> lower k = k -> Load.normalize_value P v = v ->
  normal_record P (dict_set k v d).
Proof.
  intros [Hnd Hall] Hk Hv. split.
  - rewrite dict_set_keys. destruct (mem k (keys d)) eqn:E; [assumption|].
    apply NoDup_app; [assumption | repeat constructor; intros [] | ].
    intros x Hx [<-|[]]. apply mem_In in Hx. congruence.
  - apply dict_set_Forall; [assumption|]. intros k' ->. simpl. auto.
Qed.

Lemma normalize_record_normal P rec : normal_record P (Load.normalize_record P rec).
Proof.
  unfold Load.normalize_record.
  assert (H : normal_record P []) by (split; constructor).
  revert H. generalize (@nil (string * value)).
  induction rec as [|[k v] rec IH]; intros acc Hacc; simpl; [assumption|].
  apply IH, normal_record_set; auto using lower_idem, normalize_value_idem.
Qed.

Lemma normalize_record_fixed P d : forall acc,
  NoDup (keys (acc ++ d)) ->
  Forall (fun kv => lower (fst kv) = fst kv /\ Load.normalize_value P (snd kv) = snd kv) d ->
  fold_left (fun r2 kv => dict_set (lower (fst kv)) (Load.normalize_value P (snd kv)) r2) d acc
  = acc ++ d.
Proof.
  induction d as [|[k v] d IH]; intros acc Hnd Hall; simpl.
  - now rewrite app_nil_r.
  - inversion Hall as [|? ? [Hk Hv] Hall']; subst. simpl in Hk, Hv. rewrite Hk, Hv.
    assert (Hfresh : ~ In k (keys acc)).
    { unfold keys in *. rewrite map_app in Hnd. simpl in Hnd.
      apply NoDup_remove_2 in Hnd. intros H. apply Hnd, in_or_app. now left. }
    rewrite keys_dict_set_fresh by assumption.
    rewrite IH; [now rewrite <- app_assoc | now rewrite <- app_assoc | assumption].
Qed.

Lemma normalize_record_idem P rec :
  Load.normalize_record P (Load.normalize_record P rec) = Load.normalize_record P rec.
Proof.
  destruct (normalize_record_normal P rec) as [Hnd Hall].
  unfold Load.normalize_record at 1.
  now rewrite normalize_record_fixed.
Qed.

(** C7. The loader's normalization of records is idempotent: normalizing
    records that were already normalized returns them unchanged (keys,
    their order and values). *)
Theorem normalize_record_types_idempotent P records :
  Load._normalize_record_types P (Load._normalize_record_types P records)
  = Load._normalize_record_types P records.
Proof.
  unfold Load._normalize_record_types. rewrite map_map.
  apply map_ext. intros rec. apply normalize_record_idem.
Qed.

(** ** load.py: retries of one batch *)

Lemma insert_view_app a b : insert_view (a ++ b) = insert_view a ++ insert_view b.
Proof. apply flat_map_app. Qed.

Lemma insert_with_retries_exit fuel w t k b st :
  (Load.attempt st <=? Load.RETRY_COUNT w) && negb (Load.success st) = false ->
  Load.insert_with_retries fuel w t k b st = ret st.
Proof. intros H. destruct fuel; simpl; rewrite H; reflexivity. Qed.

Lemma backoff_events w a :
  events (Load.backoff w a) =
  if a <=? Load.RETRY_COUNT w then [EvSleep (2 ^ (a - 1))] else [].
Proof. unfold Load.backoff. destruct (a <=? Load.RETRY_COUNT w); reflexivity. Qed.

Lemma backoff_outcome w a : outcome (Load.backoff w a) = Ok tt.
Proof. unfold Load.backoff. destruct (a <=? Load.RETRY_COUNT w); reflexivity. Qed.

(** The code's [if err:] and the acceptance of the specification. *)
Lemma accepts_response_error w k b a :
  accepts w k b a =
  match Load.insert w k a b with
  | Load.InsertResponse error =>
      match Load.response_error error with None => true | Some _ => false end
  | Load.InsertRaises _ => false
  end.
Proof.
  unfold accepts, Load.response_error.
  destruct (Load.insert w k a b) as [e|[err|]]; try reflexivity.
  destruct (String.eqb err EmptyString); reflexivity.
Qed.

Lemma escapes_not_exception w k b a e :
  escapes w k b a = Some e -> is_Exception e = false /\ accepts w k b a = false.
Proof.
  unfold escapes, accepts. destruct (Load.insert w k a b) as [e'|error]; [|discriminate].
  destruct (is_Exception e') eqn:E; [discriminate|]. intros H. injection H as <-. auto.
Qed.

Lemma sink_raises_exceptions_escapes w k b a :
  sink_raises_exceptions w -> escapes w k b a = None.
Proof.
  intros H. unfold escapes. destruct (Load.insert w k a b) as [e|error] eqn:E; [|reflexivity].
  now rewrite (H _ _ _ _ E).
Qed.

(** One pass through the loop: the insertion ends the load, or the loop
    goes on from the next state. *)
Lemma insert_with_retries_step fuel w t k b st :
  (Load.attempt st <=? Load.RETRY_COUNT w) && negb (Load.success st) = true ->
  let a := Load.attempt st + 1 in
  let m := Load.insert_with_retries fuel w t k b (next_state w k b st) in
  Load.insert_with_retries (S fuel) w t k b st =
  match escapes w k b a with
  | Some e => (Raise e, [EvInsert t k a b])
  | None =>
      (outcome m,
       EvInsert t k a b ::
         (if accepts w k b a then [] else events (Load.backoff w a)) ++ events m)
  end.
Proof.
  intros H a m. subst m. cbn [Load.insert_with_retries]. rewrite H.
  rewrite accepts_response_error. unfold next_state, escapes. fold a.
  destruct (Load.insert w k a b) as [e|error]; simpl.
  - destruct (is_Exception e); [|reflexivity].
    unfold Load.backoff.
    destruct (a <=? Load.RETRY_COUNT w); simpl;
      destruct (Load.insert_with_retries fuel w t k b _); reflexivity.
  - destruct (Load.response_error error) as [err|]; simpl.
    + unfold Load.backoff.
      destruct (a <=? Load.RETRY_COUNT w); simpl;
        destruct (Load.insert_with_retries fuel w t k b _); reflexivity.
    + destruct (Load.insert_with_retries fuel w t k b _); reflexivity.
Qed.

Lemma next_state_facts w k b st :
  let st' := next_state w k b st in
  Load.attempt st' = Load.attempt st + 1 /\
  Load.success st' = accepts w k b (Load.attempt st + 1) /\
  Load.inserted_so_far st' =
    Load.inserted_so_far st + (if Load.success st' then Z.of_nat (List.length b) else 0).
Proof.
  rewrite accepts_response_error. unfold next_state.
  destruct (Load.insert w k (Load.attempt st + 1) b) as [e|error]; simpl.
  - repeat split; lia.
  - destruct (Load.response_error error); simpl; repeat split; lia.
Qed.

(** The retry loop for one batch: it ends (the fuel
    [RETRY_COUNT + 1 - attempt] is enough), with a state or with what an
    insertion raised past [except Exception]. When it returns, it succeeds
    exactly when one of the remaining attempts is accepted, and it counts
    the rows of the batch once in that case. It makes at most
    [RETRY_COUNT + 1 - attempt] attempts and waits [2^(a-1)] seconds after
    a rejected attempt [a] that is not the last one. *)
Lemma insert_with_retries_spec w t k b : forall fuel st,
  Load.success st = false -> 0 <= Load.attempt st ->
  (Z.to_nat (Load.RETRY_COUNT w + 1 - Load.attempt st) <= fuel)%nat ->
  let m := Load.insert_with_retries fuel w t k b st in
  loop_result w k b st (outcome m) /\
  (sink_raises_exceptions w -> exists st', outcome m = Ok st') /\
  attempts (insert_view (events m)) <= Z.max 0 (Load.RETRY_COUNT w + 1 - Load.attempt st) /\
  backoff_ok 1 (Load.attempt st + 1) (insert_view (events m)) = true /\
  Forall (batch_event t k b) (events m) /\
  (Load.attempt st <= Load.RETRY_COUNT w ->
   exists rest, events m = EvInsert t k (Load.attempt st + 1) b :: rest).
Proof.
  induction fuel as [|fuel IH]; intros st Hs Ha Hf m; subst m.
  - assert (Hgt : Load.RETRY_COUNT w < Load.attempt st) by lia.
    rewrite insert_with_retries_exit
      by (apply andb_false_iff; left; apply Z.leb_gt; exact Hgt).
    cbn [outcome events ret fst snd loop_result].
    rewrite Hs, range_nil by lia. cbn.
    repeat split; try lia; try constructor; eauto.
  - destruct (Load.attempt st <=? Load.RETRY_COUNT w) eqn:Hle.
    2:{ apply Z.leb_gt in Hle.
        rewrite insert_with_retries_exit
          by (apply andb_false_iff; left; apply Z.leb_gt; exact Hle).
        cbn [outcome events ret fst snd loop_result].
        rewrite Hs, range_nil by lia. cbn.
        repeat split; try lia; try constructor; eauto. }
    apply Z.leb_le in Hle.
    rewrite insert_with_retries_step by (rewrite Hs; apply andb_true_iff; split;
                                         [apply Z.leb_le; exact Hle | reflexivity]).
    destruct (next_state_facts w k b st) as (Na & Ns & Ni).
    set (st1 := next_state w k b st) in *.
    set (a := Load.attempt st + 1) in *.
    destruct (escapes w k b a) as [e|] eqn:Hesc.
    { (* the insertion raises past the handler *)
      destruct (escapes_not_exception _ _ _ _ _ Hesc) as [He _].
      cbn [outcome events fst snd loop_result].
      change (insert_view [EvInsert t k a b]) with [Attempt].
      split; [exact He|]. split.
      { intros Hsink. rewrite (sink_raises_exceptions_escapes w k b a Hsink) in Hesc.
        discriminate Hesc. }
      split; [unfold attempts; simpl; lia|].
      split; [reflexivity|].
      split; [constructor; [cbn; auto | constructor]|]. eauto. }
    cbn [outcome events fst snd].
    destruct (accepts w k b a) eqn:Hacc.
    + (* accepted: the loop ends *)
      rewrite insert_with_retries_exit
        by (rewrite Ns; apply andb_false_iff; right; reflexivity).
      change (events (ret st1)) with (@nil event).
      change (outcome (ret st1)) with (Ok st1). cbn [app loop_result].
      change (insert_view [EvInsert t k a b]) with [Attempt].
      rewrite (range_cons a) by lia. cbn [existsb]. rewrite Hacc. cbn [orb].
      rewrite Ns in *.
      split; [split; [reflexivity | exact Ni]|].
      split; [eauto|].
      split; [unfold attempts; simpl; lia|].
      split; [reflexivity|].
      split; [constructor; [cbn; auto | constructor]|]. eauto.
    + (* rejected: wait and try again *)
      destruct (IH st1) as (Hres & Hret & Hatt & Hbk & Hev & _);
        [exact Ns | lia | lia |].
      rewrite Na in *. fold a in Hres, Hatt, Hbk.
      split.
      { destruct (outcome (Load.insert_with_retries fuel w t k b st1)) as [st'|e|];
          cbn [loop_result] in *; [|exact Hres|exact Hres].
        destruct Hres as [Hsucc Hins]. rewrite Na in Hsucc. fold a in Hsucc.
        rewrite (range_cons a) by lia. cbn [existsb]. rewrite Hacc. cbn [orb].
        split; [exact Hsucc|]. rewrite Hins, Ni, Ns. lia. }
      split; [exact Hret|].
      rewrite backoff_events.
      change (insert_view (EvInsert t k a b :: ?l)) with (Attempt :: insert_view l).
      rewrite insert_view_app, attempts_cons_attempt.
      destruct (a <=? Load.RETRY_COUNT w) eqn:Hlast.
      * change (insert_view [EvSleep (2 ^ (a - 1))]) with [Wait (2 ^ (a - 1))].
        cbn [app]. rewrite attempts_cons_wait. cbn [backoff_ok].
        replace (a + 1 - 1) with a by lia. rewrite Hbk, andb_true_r.
        repeat split.
        -- lia.
        -- apply Z.eqb_eq. lia.
        -- constructor; [cbn; auto|]. constructor; [exact I | exact Hev].
        -- eauto.
      * (* the last attempt: no wait, and the loop ends *)
        apply Z.leb_gt in Hlast.
        rewrite insert_with_retries_exit in *
          by (rewrite Na; apply andb_false_iff; left; apply Z.leb_gt; exact Hlast).
        change (events (ret st1)) with (@nil event). cbn [app insert_view flat_map].
        repeat split.
        -- unfold attempts; simpl. lia.
        -- constructor; [cbn; auto | constructor].
        -- eauto.
Qed.

(** ** load.py: the partition into batches *)

Lemma firstn_plus {A} (a b : nat) : forall l : list A,
  firstn (a + b) l = firstn a l ++ firstn b (skipn a l).
Proof.
  induction a as [|a IH]; intros l; [reflexivity|].
  destruct l as [|x l]; simpl; [now rewrite firstn_nil | now rewrite IH].
Qed.

Lemma chunks_concat {A} (b : nat) (l : list A) : forall n,
  List.concat (map (fun i => firstn b (skipn (i * b) l)) (seq 0 n)) = firstn (n * b) l.
Proof.
  induction n as [|n IH]; [reflexivity|].
  rewrite seq_S, map_app, concat_app, IH. simpl.
  rewrite app_nil_r, Nat.add_comm. symmetry. apply firstn_plus.
Qed.

Lemma batch_rows_nat {A} (records : list A) B k :
  0 < B -> 1 <= k ->
  batch_rows records B k =
  firstn (Z.to_nat B) (skipn (Z.to_nat (k - 1) * Z.to_nat B) records).
Proof.
  intros HB Hk. unfold batch_rows, Load.slice. f_equal.
  - f_equal. lia.
  - f_equal. rewrite Z2Nat.inj_mul by lia. reflexivity.
Qed.

Lemma range_1_seq n :
  Py.range 1 (n + 1) = map (fun i => Z.of_nat i + 1) (seq 0 (Z.to_nat n)).
Proof.
  unfold Py.range. replace (n + 1 - 1) with n by lia.
  apply map_ext. intros; lia.
Qed.

(** The batches are contiguous and cover the rows. *)
Lemma batches_concat {A} (records : list A) B :
  0 < B ->
  List.concat (map (batch_rows records B) (Py.range 1 (batch_count (len records) B + 1)))
  = records.
Proof.
  intros HB. rewrite range_1_seq, map_map.
  rewrite (map_ext _ (fun i => firstn (Z.to_nat B) (skipn (i * Z.to_nat B) records))).
  - rewrite chunks_concat. apply firstn_all2.
    unfold batch_count, len.
    assert (H : Z.of_nat (List.length records) <=
                (Z.of_nat (List.length records) + B - 1) / B * B).
    { pose proof (Z.div_mod (Z.of_nat (List.length records) + B - 1) B ltac:(lia)).
      pose proof (Z.mod_pos_bound (Z.of_nat (List.length records) + B - 1) B HB). nia. }
    assert (0 <= (Z.of_nat (List.length records) + B - 1) / B)
      by (apply Z.div_pos; lia).
    apply Nat2Z.inj_le. rewrite Nat2Z.inj_mul, !Z2Nat.id by lia. exact H.
  - intros i. rewrite batch_rows_nat by lia. do 3 f_equal. lia.
Qed.

Lemma batch_rows_length {A} (records : list A) B k :
  0 < B -> 1 <= k ->
  len (batch_rows records B k) = Z.max 0 (Z.min B (len records - (k - 1) * B)).
Proof.
  intros HB Hk. rewrite batch_rows_nat by assumption. unfold len.
  rewrite length_firstn, length_skipn.
  rewrite Nat2Z.inj_min, Nat2Z.inj_sub_max, Nat2Z.inj_mul, !Z2Nat.id by lia. lia.
Qed.

(** Every batch but the last has [B] rows; the last one is not empty. *)
Lemma batch_rows_sizes {A} (records : list A) B k :
  0 < B -> 1 <= k <= batch_count (len records) B ->
  0 < len (batch_rows records B k) <= B /\
  (k < batch_count (len records) B -> len (batch_rows records B k) = B).
Proof.
  intros HB Hk. rewrite batch_rows_length by lia.
  unfold batch_count in *.
  pose proof (Z.div_mod (len records + B - 1) B ltac:(lia)).
  pose proof (Z.mod_pos_bound (len records + B - 1) B HB).
  split; [split|]; [nia | lia | intros; nia].
Qed.

Lemma sum_Z_app a b : sum_Z (a ++ b) = sum_Z a + sum_Z b.
Proof. induction a as [|x a IH]; simpl; [reflexivity|]. rewrite IH. lia. Qed.

Lemma sum_Z_filter_split {A} (p : A -> bool) (f : A -> Z) l :
  sum_Z (map f (filter p l)) + sum_Z (map f (filter (fun x => negb (p x)) l))
  = sum_Z (map f l).
Proof.
  induction l as [|x l IH]; [reflexivity|].
  simpl. destruct (p x); simpl; lia.
Qed.

Lemma sum_Z_concat {A} (ls : list (list A)) :
  sum_Z (map len ls) = len (List.concat ls).
Proof.
  induction ls as [|l ls IH]; [reflexivity|].
  simpl. rewrite IH. unfold len. rewrite length_app. lia.
Qed.

Lemma sent_length P w records k :
  len (sent P w records k) = len (batch_rows records (Load.BATCH_SIZE w) k).
Proof. unfold sent, len. now rewrite length_map. Qed.

(** What the loop prepares for the batch that starts at row
    [(k - 1) * BATCH_SIZE] is batch number [k] as it is to be sent. *)
Lemma prepare_batch_sent P w records k :
  Load.prepare_batch P w records ((k - 1) * Load.BATCH_SIZE w) = sent P w records k.
Proof.
  unfold sent, Load.prepare_batch, Load._normalize_record_types, batch_rows.
  rewrite map_map.
  replace ((k - 1) * Load.BATCH_SIZE w + Load.BATCH_SIZE w) with (k * Load.BATCH_SIZE w)
    by lia.
  reflexivity.
Qed.

Lemma load_event_weaken P w t records ks ks' e :
  (forall k, In k ks -> In k ks') ->
  load_event P w t records ks e -> load_event P w t records ks' e.
Proof. intros H. destruct e; simpl; auto. intros (? & ? & ?). auto. Qed.

Lemma insert_batches_spec P w t records :
  0 < Load.BATCH_SIZE w ->
  sink_raises_exceptions w ->
  forall ks ins failed,
  (forall k, In k ks -> 1 <= k) ->
  let m := Load.insert_batches P w t records
             (map (fun k => (k - 1) * Load.BATCH_SIZE w) ks) ins failed in
  exists ins' failed',
    outcome m = Ok (ins', failed') /\
    ins' = ins + sum_Z (map (fun k => len (sent P w records k))
                            (filter (batch_ok P w records) ks)) /\
    map number_and_size failed' =
      map number_and_size failed ++
      map (fun k => (k, len (sent P w records k)))
          (filter (fun k => negb (batch_ok P w records k)) ks) /\
    Forall (load_event P w t records ks) (events m) /\
    (0 <= Load.RETRY_COUNT w ->
     forall k, In k ks -> In (EvInsert t k 1 (sent P w records k)) (events m)).
Proof.
  intros HB Hsink. induction ks as [|k ks IH]; intros ins failed Hks m; subst m.
  - exists ins, failed. cbn. rewrite app_nil_r.
    repeat split; try lia; try constructor; try (intros _ k []).
  - cbn [map Load.insert_batches].
    replace ((k - 1) * Load.BATCH_SIZE w / Load.BATCH_SIZE w + 1) with k
      by (rewrite Z.div_mul by lia; lia).
    rewrite prepare_batch_sent.
    set (st0 := {| Load.attempt := 0; Load.success := false; Load.last_err := None;
                   Load.inserted_so_far := ins |}).
    pose proof (insert_with_retries_spec w t k (sent P w records k)
                  (Z.to_nat (Load.RETRY_COUNT w + 1)) st0 eq_refl ltac:(simpl; lia)
                  ltac:(simpl; lia)) as Hloop.
    cbv zeta in Hloop. destruct Hloop as (Hres & Hret & _ & _ & Hev & Hfirst).
    destruct (Hret Hsink) as [st Ho]. rewrite Ho in Hres.
    cbn [loop_result] in Hres. destruct Hres as [Hsucc Hins].
    change (Load.attempt st0 + 1) with 1 in *.
    change (Load.inserted_so_far st0) with ins in Hins.
    fold (terminally_successful w k (sent P w records k)) in Hsucc.
    fold (batch_ok P w records k) in Hsucc.
    set (failed1 := if Load.success st then failed
                    else failed ++ [{| Load.batch := k;
                                       Load.size := Z.of_nat (List.length (sent P w records k));
                                       Load.error := Load.last_err st |}]).
    destruct (IH (Load.inserted_so_far st) failed1 (fun k' Hk' => Hks k' (or_intror Hk')))
      as (ins' & failed' & Ho' & Hins' & Hfailed' & Hev' & Hall').
    exists ins', failed'.
    rewrite outcome_bind, events_bind, Ho. fold failed1.
    split; [exact Ho'|].
    cbn [filter]. subst failed1.
    destruct (batch_ok P w records k) eqn:Hok; rewrite Hsucc in *;
      cbn [negb map sum_Z fold_right app].
    + split; [rewrite Hins', Hins; unfold len, sum_Z; lia|].
      split; [exact Hfailed'|]. split.
      * apply Forall_app. split.
        -- eapply Forall_impl; [|exact Hev]. intros e He. destruct e; simpl in *; auto.
           destruct He as (-> & -> & ->). auto.
        -- eapply Forall_impl; [|exact Hev'].
           intros e. apply load_event_weaken. intros; now right.
      * intros HR k' [<-|Hk']; apply in_or_app.
        -- left. destruct (Hfirst HR) as [rest ->]. now left.
        -- right. now apply Hall'.
    + split; [rewrite Hins', Hins; unfold len, sum_Z; lia|].
      split.
      { rewrite Hfailed', map_app, <- app_assoc. reflexivity. }
      split.
      * apply Forall_app. split.
        -- eapply Forall_impl; [|exact Hev]. intros e He. destruct e; simpl in *; auto.
           destruct He as (-> & -> & ->). auto.
        -- eapply Forall_impl; [|exact Hev'].
           intros e. apply load_event_weaken. intros; now right.
      * intros HR k' [<-|Hk']; apply in_or_app.
        -- left. destruct (Hfirst HR) as [rest ->]. now left.
        -- right. now apply Hall'.
Qed.

Lemma range_step_batches total B :
  0 < B ->
  Load.range_step 0 total B =
  map (fun k => (k - 1) * B) (Py.range 1 (batch_count total B + 1)).
Proof.
  intros HB. unfold Load.range_step. apply Z.ltb_lt in HB. rewrite HB.
  rewrite range_1_seq, map_map. unfold batch_count.
  replace (total - 0 + B - 1) with (total + B - 1) by lia.
  apply map_ext. intros k. lia.
Qed.

(** C2 (as the code has it). For a staged dataset that is read and
    normalized and is not empty, a positive batch size, a client that
    could be created and a sink whose insertions raise nothing but
    [Exception]s, [load_to_supabase] returns a LoadReport over the
    contiguous batches of [BATCH_SIZE] rows (all full but possibly the
    last, none empty, together the rows in order): the failed-batches list
    holds, in order and once each, exactly the batches none of whose
    [RETRY_COUNT + 1] attempts is accepted, with their sizes; [inserted] is
    the sum of the sizes of the other batches, those that ended in
    success; the two add up to [total]. Nothing but these batches is
    inserted, each as the prepared records of its rows, and every batch is
    sent to the sink, also after an earlier batch failed. *)
Theorem load_report_partitions_batches P w path table df dfn :
  0 < Load.BATCH_SIZE w ->
  Load.read_csv w path = Ok df ->
  Load._normalize_for_insert P df = Ok dfn ->
  rows dfn <> [] ->
  Load.create_client w = None ->
  sink_raises_exceptions w ->
  let records := Load.to_dict_records dfn in
  let B := Load.BATCH_SIZE w in
  let n := batch_count (len records) B in
  let ks := Py.range 1 (n + 1) in
  exists report,
    outcome (Load.load_to_supabase P w path table) = Ok (Some report) /\
    Load.total report = len records /\
    List.concat (map (batch_rows records B) ks) = records /\
    (forall k, In k ks ->
       0 < len (batch_rows records B k) <= B /\
       (k < n -> len (batch_rows records B k) = B)) /\
    map number_and_size (Load.failed_batches report) =
      map (fun k => (k, len (batch_rows records B k)))
          (filter (fun k => negb (batch_ok P w records k)) ks) /\
    Load.inserted report =
      sum_Z (map (fun k => len (batch_rows records B k))
                 (filter (batch_ok P w records) ks)) /\
    Load.inserted report + sum_Z (map Load.size (Load.failed_batches report))
      = Load.total report /\
    Forall (load_event P w table records ks)
           (events (Load.load_to_supabase P w path table)) /\
    (0 <= Load.RETRY_COUNT w ->
     forall k, In k ks ->
       In (EvInsert table k 1 (sent P w records k))
          (events (Load.load_to_supabase P w path table))).
Proof.
  intros HB Hread Hnorm Hrows Hclient Hsink records B n ks.
  assert (Hks : forall k, In k ks -> 1 <= k) by (intros k Hk; apply In_range in Hk; lia).
  destruct (insert_batches_spec P w table records HB Hsink ks 0 [] Hks)
    as (ins' & failed' & Ho & Hins & Hfailed & Hevs & Hall).
  cbn [map app] in Hfailed.
  assert (Htotal : len records <> 0).
  { unfold len, records, Load.to_dict_records. rewrite length_map.
    destruct (rows dfn); [congruence | simpl; lia]. }
  assert (Hrun : Load.load_to_supabase P w path table =
                 bind (Load.insert_batches P w table records
                         (map (fun k => (k - 1) * Load.BATCH_SIZE w) ks) 0 [])
                      (fun x => ret (Some {| Load.total := len records;
                                             Load.inserted := fst x;
                                             Load.failed_batches := snd x |}))).
  { unfold Load.load_to_supabase. rewrite Hread, Hnorm, Hclient.
    fold records. fold (len records).
    apply Z.eqb_neq in Htotal. rewrite Htotal.
    assert (HB0 : (Load.BATCH_SIZE w =? 0) = false) by (apply Z.eqb_neq; lia).
    rewrite HB0, range_step_batches by exact HB.
    fold n ks. unfold bind at 1 2. cbn [ret].
    destruct (Load.insert_batches P w table records _ 0 []) as [[x|e|] t0]; reflexivity. }
  rewrite Hrun, outcome_bind, events_bind, Ho. cbn [outcome events ret fst snd].
  rewrite app_nil_r.
  assert (Hlen : forall ks', map (fun k => len (sent P w records k)) ks'
                             = map (fun k => len (batch_rows records B k)) ks').
  { intros ks'. apply map_ext. intros k. apply sent_length. }
  eexists. split; [reflexivity|]. cbn [Load.total Load.inserted Load.failed_batches].
  split; [reflexivity|].
  split; [apply batches_concat; exact HB|].
  split.
  { intros k Hk. apply In_range in Hk. apply batch_rows_sizes; [exact HB | fold n; lia]. }
  split; [rewrite Hfailed; apply map_ext; intros k; now rewrite sent_length|].
  split; [rewrite Hins, Hlen; lia|].
  split; [|split; [exact Hevs | exact Hall]].
  replace (map Load.size failed') with (map snd (map number_and_size failed'))
    by (rewrite map_map; reflexivity).
  rewrite Hfailed, map_map. cbn [snd].
  rewrite Hins, !Hlen. rewrite Z.add_0_l.
  rewrite (sum_Z_filter_split (batch_ok P w records)
             (fun k => len (batch_rows records B k)) ks).
  rewrite <- (map_map (batch_rows records B) len), sum_Z_concat.
  unfold ks, n, B. rewrite batches_concat by exact HB. reflexivity.
Qed.

(** The scenario of the specification: 450 staged rows, batches of 200,
    the third batch rejected on each of its three attempts. *)
Example load_450_rows_third_batch_fails :
  outcome (Load.load_to_supabase Scenarios.sample_parsers
             (Scenarios.world_batch3_rejected 450 200) "staged.csv" "air_quality_data")
  = Ok (Some {| Load.total := 450; Load.inserted := 400;
                Load.failed_batches :=
                  [{| Load.batch := 3; Load.size := 50; Load.error := Some "timeout" |}] |}).
Proof. vm_compute. reflexivity. Qed.

Lemma load_report_partitions_batches_witness :
  let P := Scenarios.sample_parsers in
  let w := Scenarios.world_batch3_rejected 5 2 in
  let records := Load.to_dict_records Scenarios.staged5_normalized in
  let B := Load.BATCH_SIZE w in
  let n := batch_count (len records) B in
  let ks := Py.range 1 (n + 1) in
  exists report,
    outcome (Load.load_to_supabase P w "staged.csv" "air_quality_data") = Ok (Some report) /\
    Load.total report = len records /\
    List.concat (map (batch_rows records B) ks) = records /\
    (forall k, In k ks ->
       0 < len (batch_rows records B k) <= B /\
       (k < n -> len (batch_rows records B k) = B)) /\
    map number_and_size (Load.failed_batches report) =
      map (fun k => (k, len (batch_rows records B k)))
          (filter (fun k => negb (batch_ok P w records k)) ks) /\
    Load.inserted report =
      sum_Z (map (fun k => len (batch_rows records B k))
                 (filter (batch_ok P w records) ks)) /\
    Load.inserted report + sum_Z (map Load.size (Load.failed_batches report))
      = Load.total report /\
    Forall (load_event P w "air_quality_data" records ks)
           (events (Load.load_to_supabase P w "staged.csv" "air_quality_data")) /\
    (0 <= Load.RETRY_COUNT w ->
     forall k, In k ks ->
       In (EvInsert "air_quality_data" k 1 (sent P w records k))
          (events (Load.load_to_supabase P w "staged.csv" "air_quality_data"))).
Proof.
  intros P w.
  apply (load_report_partitions_batches P w "staged.csv" "air_quality_data"
           (Scenarios.staged 5) Scenarios.staged5_normalized).
  - simpl. lia.
  - reflexivity.
  - vm_compute. reflexivity.
  - discriminate.
  - reflexivity.
  - intros k a b e H. simpl in H. destruct (k =? 3); discriminate H.
Defined.

(** C2, the claim as stated fails for a batch size that is not positive.
    Five staged rows and [BATCH_SIZE = -200]: [range(0, 5, -200)] is empty,
    no batch is sent, and the report shows the five rows neither as
    inserted nor in a failed batch. *)
Lemma negative_batch_size_report_is_no_partition :
  let run := Load.load_to_supabase Scenarios.sample_parsers (Cases.world_batch_size (-200))
               "staged.csv" "air_quality_data" in
  exists report,
    outcome run = Ok (Some report) /\ events run = [] /\
    Load.total report = 5 /\ Load.inserted report = 0 /\
    Load.failed_batches report = [] /\
    Load.inserted report + sum_Z (map Load.size (Load.failed_batches report))
      < Load.total report.
Proof.
  eexists. split; [vm_compute; reflexivity|].
  split; [vm_compute; reflexivity|]. cbn. repeat split; lia.
Qed.

(** An insertion that raises [KeyboardInterrupt] is not retried: the
    exception leaves the load, which returns no report and sends no
    further batch. *)
Example load_interrupted_returns_no_report :
  Load.load_to_supabase Scenarios.sample_parsers Cases.world_interrupted
    "staged.csv" "air_quality_data"
  = (Raise (Exn "KeyboardInterrupt" EmptyString),
     [EvInsert "air_quality_data" 1 1
        (sent Scenarios.sample_parsers Cases.world_interrupted
           (Load.to_dict_records Scenarios.staged5_normalized) 1)]).
Proof. vm_compute. reflexivity. Qed.

(** C4. Retries are bounded and follow the exponential backoff schedule.
    For every city, [fetch_city] makes at most [MAX_RETRIES] (hence at most
    [MAX_RETRIES + 1]) requests to the primary source before it falls back;
    for every batch, the retry loop of [load_to_supabase] ends after at
    most [RETRY_COUNT + 1] insertions: it returns, or an insertion raised
    what [except Exception] does not catch, and it does return when the
    insertions raise nothing but [Exception]s. In both, consecutive
    attempts are separated by one wait, and the wait that follows attempt
    number [k] (counted from 1) lasts [1 * 2^(k-1)] seconds. *)
Theorem retries_bounded_with_exponential_backoff
    (we : Extract.World) (city : string) (i : Extract.info)
    (wl : Load.World) (table : string) (batch_no : Z) (batch : list Load.record)
    (inserted : Z) :
  0 <= Extract.MAX_RETRIES we ->
  0 <= Load.RETRY_COUNT wl ->
  let fetched := openaq_view (events (Extract.fetch_city we city i)) in
  let loop := Load.insert_with_retries (Z.to_nat (Load.RETRY_COUNT wl + 1)) wl table
                batch_no batch
                {| Load.attempt := 0; Load.success := false; Load.last_err := None;
                   Load.inserted_so_far := inserted |} in
  (attempts fetched <= Extract.MAX_RETRIES we + 1 /\ backoff_ok 1 1 fetched = true) /\
  (((exists st, outcome loop = Ok st) \/
    (exists e, outcome loop = Raise e /\ is_Exception e = false)) /\
   (sink_raises_exceptions wl -> exists st, outcome loop = Ok st) /\
   attempts (insert_view (events loop)) <= Load.RETRY_COUNT wl + 1 /\
   backoff_ok 1 1 (insert_view (events loop)) = true).
Proof.
  intros He Hl fetched loop. split.
  - destruct (fetch_city_schedule we city i He) as [Hc Hb]. fold fetched in Hc, Hb.
    split; [lia | exact Hb].
  - pose proof (insert_with_retries_spec wl table batch_no batch
                  (Z.to_nat (Load.RETRY_COUNT wl + 1))
                  {| Load.attempt := 0; Load.success := false; Load.last_err := None;
                     Load.inserted_so_far := inserted |} eq_refl ltac:(simpl; lia)
                  ltac:(simpl; lia)) as Hloop.
    cbv zeta in Hloop. fold loop in Hloop.
    destruct Hloop as (Hres & Hret & Hatt & Hbk & _).
    cbn [Load.attempt] in Hatt, Hbk.
    split; [|split; [exact Hret | split; [lia | exact Hbk]]].
    destruct (outcome loop) as [st|e|]; cbn [loop_result] in Hres;
      [left; eauto | right; eauto | destruct Hres].
Qed.

Lemma retries_bounded_with_exponential_backoff_witness :
  let fetched := openaq_view (events (Extract.fetch_city Scenarios.world_all_sources_fail
                                        "Delhi" Scenarios.delhi)) in
  let loop := Load.insert_with_retries 3 (Scenarios.world_batch3_rejected 5 2)
                "air_quality_data" 3 [] 
                {| Load.attempt := 0; Load.success := false; Load.last_err := None;
                   Load.inserted_so_far := 4 |} in
  (attempts fetched <= 3 + 1 /\ backoff_ok 1 1 fetched = true) /\
  (((exists st, outcome loop = Ok st) \/
    (exists e, outcome loop = Raise e /\ is_Exception e = false)) /\
   (sink_raises_exceptions (Scenarios.world_batch3_rejected 5 2) ->
    exists st, outcome loop = Ok st) /\
   attempts (insert_view (events loop)) <= 2 + 1 /\
   backoff_ok 1 1 (insert_view (events loop)) = true).
Proof.
  apply (retries_bounded_with_exponential_backoff
           Scenarios.world_all_sources_fail "Delhi" Scenarios.delhi
           (Scenarios.world_batch3_rejected 5 2) "air_quality_data" 3 [] 4).
  - simpl. lia.
  - simpl. lia.
Defined.

(** ** run_pipeline.py: which stages run *)

Lemma stages_run_app a b : stages_run (a ++ b) = stages_run a ++ stages_run b.
Proof. apply flat_map_app. Qed.

Lemma quiet_ret {A} (a : A) : quiet (ret a).
Proof. reflexivity. Qed.

Lemma quiet_raise {A} (e : exn) : quiet (@raise A e).
Proof. reflexivity. Qed.

Lemma quiet_bind {A B} (m : io A) (k : A -> io B) :
  quiet m -> (forall a, quiet (k a)) -> quiet (bind m k).
Proof.
  unfold quiet. intros Hm Hk. rewrite events_bind, stages_run_app, Hm.
  destruct (outcome m); simpl; auto.
Qed.

Lemma quiet_try_except {A} (m : io A) (h : exn -> io A) :
  quiet m -> (forall e, quiet (h e)) -> quiet (try_except m h).
Proof.
  unfold quiet, try_except. intros Hm Hh.
  destruct m as [[a|e|] t]; simpl in *; auto.
  destruct (is_Exception e); simpl; auto.
  specialize (Hh e). destruct (h e) as [r t']. simpl in *.
  now rewrite stages_run_app, Hm, Hh.
Qed.

Lemma quiet_try_except_class {A} cls (m h : io A) :
  quiet m -> quiet h -> quiet (try_except_class cls m h).
Proof.
  unfold quiet, try_except_class. intros Hm Hh.
  destruct m as [[a|e|] t]; simpl in *; auto.
  destruct (String.eqb (exn_class e) cls); simpl; auto.
  destruct h as [r t']. simpl in *. now rewrite stages_run_app, Hm, Hh.
Qed.

Lemma quiet_if {A} (c : bool) (a b : io A) : quiet a -> quiet b -> quiet (if c then a else b).
Proof. destruct c; auto. Qed.

Create HintDb quiet.
#[export] Hint Resolve quiet_ret quiet_raise quiet_if : quiet.

Ltac quiet_step :=
  first
    [ apply quiet_ret | apply quiet_raise | reflexivity
    | apply quiet_bind; [|intros ?]
    | apply quiet_try_except; [|intros ?]
    | apply quiet_try_except_class
    | match goal with |- quiet (match ?x with _ => _ end) => destruct x end ].

Ltac quiet_auto := repeat quiet_step.

Lemma quiet_save_raw w city payload : quiet (Extract.save_raw w city payload).
Proof. unfold Extract.save_raw. quiet_auto. Qed.

Lemma quiet_try_openaq w city k : quiet (Extract.try_openaq w city k).
Proof.
  unfold Extract.try_openaq, Extract.call_openaq_v3, Extract.get_results.
  quiet_auto; apply quiet_save_raw.
Qed.

Lemma quiet_openaq_with_retries w city l : quiet (Extract.openaq_with_retries w city l).
Proof.
  induction l as [|a l IH]; [reflexivity|]. cbn [Extract.openaq_with_retries].
  apply quiet_bind; [apply quiet_try_openaq|]. intros [found|]; [reflexivity|].
  apply quiet_bind; [reflexivity | intros _; exact IH].
Qed.

Lemma quiet_fallback_open_meteo w city i : quiet (Extract.fallback_open_meteo w city i).
Proof.
  unfold Extract.fallback_open_meteo, Extract.call_open_meteo.
  quiet_auto; apply quiet_save_raw.
Qed.

Lemma quiet_fetch_city w city i : quiet (Extract.fetch_city w city i).
Proof.
  unfold Extract.fetch_city.
  apply quiet_bind; [apply quiet_openaq_with_retries|].
  intros [found|]; [reflexivity | apply quiet_fallback_open_meteo].
Qed.

Lemma quiet_fetch_each w cities : quiet (Extract.fetch_each w cities).
Proof.
  induction cities as [|[city i] cities IH]; [reflexivity|]. cbn [Extract.fetch_each].
  apply quiet_bind; [apply quiet_fetch_city|]. intros r.
  apply quiet_bind; [exact IH|]. intros rs. reflexivity.
Qed.

Lemma quiet_transform P w : quiet (Transform.transform P w).
Proof. unfold Transform.transform. quiet_auto. Qed.

Lemma quiet_insert_with_retries w t k b : forall fuel st,
  quiet (Load.insert_with_retries fuel w t k b st).
Proof.
  induction fuel as [|fuel IH]; intros st; cbn [Load.insert_with_retries];
    destruct ((Load.attempt st <=? Load.RETRY_COUNT w) && negb (Load.success st));
    try reflexivity.
  apply quiet_bind; [reflexivity|]. intros _.
  destruct (Load.insert w k (Load.attempt st + 1) b) as [e|error].
  - destruct (is_Exception e); [|reflexivity].
    apply quiet_bind; [unfold Load.backoff; quiet_auto | intros _; apply IH].
  - destruct (Load.response_error error); [|apply IH].
    apply quiet_bind; [unfold Load.backoff; quiet_auto | intros _; apply IH].
Qed.

Lemma quiet_insert_batches P w t records : forall starts ins failed,
  quiet (Load.insert_batches P w t records starts ins failed).
Proof.
  induction starts as [|i starts IH]; intros ins failed; [reflexivity|].
  cbn [Load.insert_batches].
  apply quiet_bind; [apply quiet_insert_with_retries | intros st; apply IH].
Qed.

Lemma quiet_load_to_supabase P w path table : quiet (Load.load_to_supabase P w path table).
Proof.
  unfold Load.load_to_supabase.
  quiet_auto; apply quiet_insert_batches.
Qed.

Lemma events_emit_bind {B} e (k : unit -> io B) :
  events (bind (emit e) k) = e :: events (k tt).
Proof. rewrite events_bind. reflexivity. Qed.

Lemma quiet_try_import w name : quiet (Pipeline.try_import w name).
Proof. unfold Pipeline.try_import. quiet_auto. Qed.

Lemma quiet_run_subprocess w script : quiet (Pipeline.run_subprocess w script).
Proof. unfold Pipeline.run_subprocess. quiet_auto. Qed.

Ltac quiet_pipeline :=
  repeat first
    [ apply quiet_try_import | apply quiet_run_subprocess | apply quiet_fetch_each
    | apply quiet_transform | apply quiet_load_to_supabase | quiet_step ].

(** Each step of the runner starts its own stage and no other. *)
Lemma run_extract_stage w : stages_run (events (Pipeline.run_extract w)) = [Extracting].
Proof.
  unfold Pipeline.run_extract. rewrite events_emit_bind.
  change (stages_run (EvStage Extracting :: ?l)) with (Extracting :: stages_run l).
  f_equal. unfold Extract.fetch_all.
  match goal with |- stages_run (events ?m) = [] => change (quiet m) end.
  quiet_pipeline.
Qed.

Lemma run_transform_stage w results :
  stages_run (events (Pipeline.run_transform w results)) = [Transforming].
Proof.
  unfold Pipeline.run_transform. rewrite events_emit_bind.
  change (stages_run (EvStage Transforming :: ?l)) with (Transforming :: stages_run l).
  f_equal.
  match goal with |- stages_run (events ?m) = [] => change (quiet m) end.
  quiet_pipeline.
Qed.

Lemma run_load_stage w staged :
  stages_run (events (Pipeline.run_load w staged)) = [Loading].
Proof.
  unfold Pipeline.run_load. rewrite events_emit_bind.
  change (stages_run (EvStage Loading :: ?l)) with (Loading :: stages_run l).
  f_equal.
  match goal with |- stages_run (events ?m) = [] => change (quiet m) end.
  quiet_pipeline.
Qed.

Lemma run_analysis_stage w : stages_run (events (Pipeline.run_analysis w)) = [Analysing].
Proof.
  unfold Pipeline.run_analysis. rewrite events_emit_bind.
  change (stages_run (EvStage Analysing :: ?l)) with (Analysing :: stages_run l).
  f_equal.
  match goal with |- stages_run (events ?m) = [] => change (quiet m) end.
  quiet_pipeline.
Qed.

Lemma guarded_outcome {A} s (step : io A) next :
  outcome (Pipeline.guarded s step next) =
  match outcome step with
  | Ok a => outcome (next a)
  | r => step_failure s r
  end.
Proof.
  unfold Pipeline.guarded, try_except, bind.
  destruct step as [[a|e|] t]; simpl; try reflexivity.
  - destruct (next a); reflexivity.
  - destruct (is_Exception e); reflexivity.
Qed.

Lemma guarded_events {A} s (step : io A) next :
  events (Pipeline.guarded s step next) =
  events step ++ match outcome step with Ok a => events (next a) | _ => [] end.
Proof.
  unfold Pipeline.guarded, try_except, bind.
  destruct step as [[a|e|] t]; simpl; try now rewrite app_nil_r.
  - rewrite app_nil_r. destruct (next a); reflexivity.
  - destruct (is_Exception e); simpl; now rewrite ?app_nil_r.
Qed.

Lemma outcome_emit_bind {B} e (k : unit -> io B) :
  outcome (bind (emit e) k) = outcome (k tt).
Proof. rewrite outcome_bind. reflexivity. Qed.

Lemma step_failure_not_finished {A} s (r : result A) :
  (forall a, r <> Ok a) -> step_failure s r <> Ok Pipeline.Finished.
Proof.
  intros _. destruct r as [x|e|]; simpl; try discriminate.
  destruct (is_Exception e); discriminate.
Qed.

Lemma step_failure_stage {A} s s' (r : result A) :
  step_failure s r = Ok (Pipeline.Step_failed s') -> s' = s.
Proof.
  destruct r as [a|e|]; simpl; try discriminate.
  destruct (is_Exception e); [|discriminate]. congruence.
Qed.

Lemma outcome_bind_Ok {A B} (m : io A) (k : A -> io B) b :
  outcome (bind m k) = Ok b -> exists a, outcome m = Ok a /\ outcome (k a) = Ok b.
Proof.
  rewrite outcome_bind. destruct (outcome m) as [a|e|]; try discriminate. eauto.
Qed.

(** What the steps return is not looked at. [run_extract] returns what
    the imported [fetch_all] returns. *)
Lemma run_extract_returns w results :
  Pipeline.import_module w "extract" = None ->
  outcome (Extract.fetch_all (Pipeline.extract_world w)) = Ok results ->
  outcome (Pipeline.run_extract w) = Ok results.
Proof.
  intros Hi Hf. unfold Pipeline.run_extract, Pipeline.try_import. rewrite Hi.
  destruct (Extract.fetch_all (Pipeline.extract_world w)) as [[r|e|] t];
    cbn [outcome fst] in Hf; try discriminate Hf.
  injection Hf as ->. reflexivity.
Qed.

(** [run_transform] returns the newest staged CSV, if it returns. *)
Lemma run_transform_outcome w results staged :
  outcome (Pipeline.run_transform w results) = Ok staged ->
  staged = last (map Some (Pipeline.staged_listing w)) None.
Proof.
  unfold Pipeline.run_transform. intros H.
  apply outcome_bind_Ok in H. destruct H as (? & _ & H).
  apply outcome_bind_Ok in H. destruct H as (? & _ & H).
  apply outcome_bind_Ok in H. destruct H as (? & _ & H).
  apply outcome_bind_Ok in H. destruct H as (? & _ & H).
  cbn in H. congruence.
Qed.

(** [run_load] returns what the imported [load_to_supabase] returns, be
    it no report or a report of failures. *)
Lemma run_load_returns w path res :
  Pipeline.import_module w "load" = None ->
  outcome (Load.load_to_supabase (Pipeline.pandas w) (Pipeline.load_world w)
             path "air_quality_data") = Ok res ->
  outcome (Pipeline.run_load w (Some path)) = Ok res.
Proof.
  intros Hi Hl. unfold Pipeline.run_load, Pipeline.try_import. rewrite Hi.
  destruct (Load.load_to_supabase _ _ path _) as [[r|e|] t];
    cbn [outcome fst] in Hl; try discriminate Hl.
  injection Hl as ->. reflexivity.
Qed.

Lemma run_load_needs_a_file w :
  outcome (Pipeline.run_load w None)
  = Raise (Pipeline.runtime_error "No staged CSV provided to load step.").
Proof. reflexivity. Qed.

(** C5 (as the code has it). The run aborts exactly when a step raises
    an exception: the end of the run is the failure of the first step
    that raises (and "finished" when none does), a run that ends with the
    failure of a step has started the stages up to that step and no later
    one, and a finished run has started all four. A step that returns,
    whatever it returns, is followed by the next one: with its module
    imported, [run_extract] returns what [fetch_all] returns, also when
    every entity failed, and [run_load] returns what [load_to_supabase]
    returns, also no report or a report of failed batches only. The lack
    of a result ends the run where it makes a step raise: with no CSV file
    in the staged directory [run_transform] returns [None] and the load
    step raises, so the run ends with the failure of that step, the
    analysis not started. *)
Theorem pipeline_aborts_when_a_step_raises w :
  let run := Pipeline.run_full_pipeline w in
  outcome run = expected_end w /\
  (forall s, outcome run = Ok (Pipeline.Step_failed s) ->
             stages_run (events run) = stages_up_to s) /\
  (outcome run = Ok Pipeline.Finished ->
   stages_run (events run) = [Extracting; Transforming; Loading; Analysing]) /\
  (forall results,
     Pipeline.import_module w "extract" = None ->
     outcome (Extract.fetch_all (Pipeline.extract_world w)) = Ok results ->
     outcome (Pipeline.run_extract w) = Ok results) /\
  (forall path res,
     Pipeline.import_module w "load" = None ->
     outcome (Load.load_to_supabase (Pipeline.pandas w) (Pipeline.load_world w)
                path "air_quality_data") = Ok res ->
     outcome (Pipeline.run_load w (Some path)) = Ok res) /\
  (Pipeline.staged_listing w = [] ->
   forall results staged,
     outcome (Pipeline.run_extract w) = Ok results ->
     outcome (Pipeline.run_transform w results) = Ok staged ->
     staged = None /\
     outcome run = Ok (Pipeline.Step_failed Loading) /\
     stages_run (events run) = [Extracting; Transforming; Loading]).
Proof.
  intros run.
  assert (Hend : outcome run = expected_end w /\
                 (forall s, outcome run = Ok (Pipeline.Step_failed s) ->
                            stages_run (events run) = stages_up_to s) /\
                 (outcome run = Ok Pipeline.Finished ->
                  stages_run (events run) = [Extracting; Transforming; Loading; Analysing])).
  2:{ destruct Hend as (H1 & H2 & H3).
      split; [exact H1|]. split; [exact H2|]. split; [exact H3|].
      split; [intros results; apply run_extract_returns|].
      split; [intros path res; apply run_load_returns|].
      intros Hnone results staged E1 E2.
      pose proof (run_transform_outcome w results staged E2) as Hs.
      rewrite Hnone in Hs. cbn in Hs. subst staged.
      assert (Ho : outcome run = Ok (Pipeline.Step_failed Loading)).
      { rewrite H1. unfold expected_end.
        rewrite E1, E2, run_load_needs_a_file. reflexivity. }
      split; [reflexivity|]. split; [exact Ho|]. exact (H2 Loading Ho). }
  subst run. unfold Pipeline.run_full_pipeline, expected_end.
  rewrite !guarded_outcome, !guarded_events, !stages_run_app, run_extract_stage.
  destruct (outcome (Pipeline.run_extract w)) as [results|e|] eqn:E1.
  2,3: (split; [reflexivity|]; split;
        [intros s H; apply step_failure_stage in H; subst s; reflexivity
        |intros H; exfalso; revert H; apply step_failure_not_finished; discriminate]).
  rewrite outcome_emit_bind, events_emit_bind.
  rewrite !guarded_outcome, !guarded_events.
  change (stages_run (EvSleep 1 :: ?l)) with (stages_run l).
  rewrite !stages_run_app, run_transform_stage.
  destruct (outcome (Pipeline.run_transform w results)) as [staged|e|] eqn:E2.
  2,3: (split; [reflexivity|]; split;
        [intros s H; apply step_failure_stage in H; subst s; reflexivity
        |intros H; exfalso; revert H; apply step_failure_not_finished; discriminate]).
  rewrite outcome_emit_bind, events_emit_bind.
  rewrite !guarded_outcome, !guarded_events.
  change (stages_run (EvSleep 1 :: ?l)) with (stages_run l).
  rewrite !stages_run_app, run_load_stage.
  destruct (outcome (Pipeline.run_load w staged)) as [report|e|] eqn:E3.
  2,3: (split; [reflexivity|]; split;
        [intros s H; apply step_failure_stage in H; subst s; reflexivity
        |intros H; exfalso; revert H; apply step_failure_not_finished; discriminate]).
  rewrite outcome_emit_bind, events_emit_bind.
  rewrite !guarded_outcome, !guarded_events.
  change (stages_run (EvSleep 1 :: ?l)) with (stages_run l).
  rewrite !stages_run_app, run_analysis_stage.
  destruct (outcome (Pipeline.run_analysis w)) as [u|e|] eqn:E4.
  2,3: (split; [reflexivity|]; split;
        [intros s H; apply step_failure_stage in H; subst s; reflexivity
        |intros H; exfalso; revert H; apply step_failure_not_finished; discriminate]).
  cbn. split; [reflexivity|]. split; [discriminate | reflexivity].
Qed.

(** C5, the claim as stated fails. In the first run no entity can be
    extracted (every outcome of [fetch_all] is a failure) and the staged
    file, left by an earlier run, is empty ([load_to_supabase] returns
    without a report); in the second run the sink cannot be reached (every
    insertion raises, all batches fail). No step raises, so both runs go
    through all four stages and end as finished. In the third run no
    entity can be extracted and the staged directory is empty: the run
    does not end with the extraction, the transformation and the load are
    started, and the run ends with the failure of the load step. *)
Lemma pipeline_continues_without_usable_result :
  (exists results,
     outcome (Extract.fetch_all Scenarios.world_all_sources_fail) = Ok results /\
     forallb (fun r => match dict_get "source" r with Some VNone => true | _ => false end)
             results = true) /\
  outcome (Load.load_to_supabase Scenarios.sample_parsers Scenarios.world_empty_staged
             "/home/a/etl/data/staged/air_quality_transformed.csv" "air_quality_data")
    = Ok None /\
  outcome (Pipeline.run_full_pipeline Scenarios.world_nothing_usable) = Ok Pipeline.Finished /\
  stages_run (events (Pipeline.run_full_pipeline Scenarios.world_nothing_usable))
    = [Extracting; Transforming; Loading; Analysing] /\
  (exists report,
     outcome (Load.load_to_supabase Scenarios.sample_parsers Scenarios.world_sink_unreachable
                "/home/a/etl/data/staged/air_quality_transformed.csv" "air_quality_data")
       = Ok (Some report) /\
     Load.inserted report = 0 /\ List.length (Load.failed_batches report) = 3%nat) /\
  outcome (Pipeline.run_full_pipeline Scenarios.world_no_sink) = Ok Pipeline.Finished /\
  stages_run (events (Pipeline.run_full_pipeline Scenarios.world_no_sink))
    = [Extracting; Transforming; Loading; Analysing] /\
  outcome (Pipeline.run_full_pipeline Cases.world_clean_staged_dir)
    = Ok (Pipeline.Step_failed Loading) /\
  stages_run (events (Pipeline.run_full_pipeline Cases.world_clean_staged_dir))
    = [Extracting; Transforming; Loading].
Proof.
  split; [eexists; split; vm_compute; reflexivity|].
  split; [vm_compute; reflexivity|].
  split; [vm_compute; reflexivity|].
  split; [vm_compute; reflexivity|].
  split; [eexists; split; [vm_compute; reflexivity | split; reflexivity]|].
  split; [vm_compute; reflexivity|].
  split; [vm_compute; reflexivity|].
  split; vm_compute; reflexivity.
Qed.

(** A run whose analysis step raises: it is reported as failed after
    all four stages were started. *)
Example pipeline_analysis_step_fails :
  outcome (Pipeline.run_full_pipeline Scenarios.world_analysis_fails)
    = Ok (Pipeline.Step_failed Analysing) /\
  stages_run (events (Pipeline.run_full_pipeline Scenarios.world_analysis_fails))
    = stages_up_to Analysing.
Proof. split; vm_compute; reflexivity. Qed.

(** ** extract.py: one outcome per city *)

(** C6, the failing input. OpenAQ answers 500 for Delhi, the first city,
    and the request to Open-Meteo raises in the network layer: nothing
    catches it, [fetch_all] raises and returns no outcome for any city,
    neither a snapshot nor a recorded failure. *)
Theorem fetch_all_raises_when_fallback_request_raises :
  outcome (Extract.fetch_all Scenarios.world_fallback_unreachable)
    = Raise (Exn "ConnectionError" "Max retries exceeded with url") /\
  events (Extract.fetch_all Scenarios.world_fallback_unreachable)
    = [EvGet (OpenAQ_latest "Delhi"); EvSleep 1;
       EvGet (OpenAQ_latest "Delhi"); EvSleep 2;
       EvGet (OpenAQ_latest "Delhi"); EvSleep 4;
       EvGet (OpenMeteo_air_quality (Extract.lat Scenarios.delhi) (Extract.lon Scenarios.delhi))].
Proof. split; vm_compute; reflexivity. Qed.

(** ** transform.py: what the staged file depends on *)


Lemma sub_refl j : sub j j.
Proof. apply incl_refl. Qed.











Lemma dict_get_map_snd {V W} (f : V -> W) k (d : dict V) :
  dict_get k (map (fun kv => (fst kv, f (snd kv))) d) = option_map f (dict_get k d).
Proof.
  induction d as [|[k' v] d IH]; [reflexivity|]. cbn.
  destruct (String.eqb k k'); [reflexivity | exact IH].
Qed.



(** *** The rows of an OpenAQ file *)









(** *** The frame of an Open-Meteo file *)






(** *** The loop over the raw files *)









(** ** validate.py: the checks of the derived fields *)

Lemma difference_nil a b :
  match Validate.difference a b with [] => true | _ => false end
  = forallb (fun x => Validate.member x b) a.
Proof.
  unfold Validate.difference.
  induction a as [|x a IH]; [reflexivity|].
  simpl. destruct (Validate.member x b); simpl; [exact IH | reflexivity].
Qed.


Lemma check_contract_codes_passed df :
  Validate.passed (Validate.check_contract_codes df)
  = has_column "contract_type_code" df
    && within (Validate.observed "contract_type_code" df) Validate.allowed_codes.
Proof.
  unfold Validate.check_contract_codes, within.
  destruct (has_column "contract_type_code" df); [|reflexivity].
  rewrite <- difference_nil. cbn [andb].
  destruct (Validate.difference _ _); reflexivity.
Qed.




(** ** load.py: what reaches the sink *)

(** C10, the failing input. The staged file has no [hour] column. The
    column is added holding [None], becomes NaN under [pd.to_numeric] and
    [pandas.NA] under [astype("Int64")]; neither [df.where(..., None)] nor
    the replacement of float NaN turns that into [None]. The record that
    is inserted has the thirteen keys in order and [None] in the other
    columns that were absent, and [pandas.NA] under [hour]. *)
Theorem absent_hour_reaches_sink_as_NA :
  events (Load.load_to_supabase Scenarios.sample_parsers Scenarios.world_without_hour
            "staged.csv" "air_quality_data")
  = [EvInsert "air_quality_data" 1 1
       [[("city", VStr "delhi"); ("time", VStr "1970-01-01T00:00:00");
         ("pm10", VFloat (float_of_Z 40));
         ("pm2_5", VNone); ("carbon_monoxide", VNone); ("nitrogen_dioxide", VNone);
         ("sulphur_dioxide", VNone); ("ozone", VNone); ("uv_index", VNone);
         ("aqi_category", VNone); ("severity_score", VNone); ("risk_flag", VNone);
         ("hour", VNA)]]].
Proof. vm_compute. reflexivity. Qed.

(** ** extract.py: when every city gets its outcome *)

Lemma try_openaq_outcome w city k :
  sources_answer w ->
  outcome (Extract.try_openaq w city k) = Ok None \/
  exists path,
    outcome (Extract.try_openaq w city k)
    = Ok (Some (Extract.outcome_dict city (Some "OpenAQ") (Some path))).
Proof.
  intros (_ & Hw & He).
  unfold Extract.try_openaq, Extract.call_openaq_v3, Extract.get_results, Extract.save_raw.
  rewrite Hw.
  destruct (Extract.openaq w city k) as [e|st body] eqn:E.
  - simpl. rewrite (He _ _ _ E). now left.
  - io_cases; eauto.
Qed.

Lemma openaq_with_retries_outcome w city l :
  sources_answer w ->
  outcome (Extract.openaq_with_retries w city l) = Ok None \/
  exists path,
    outcome (Extract.openaq_with_retries w city l)
    = Ok (Some (Extract.outcome_dict city (Some "OpenAQ") (Some path))).
Proof.
  intros H. induction l as [|a l IH]; [now left|].
  rewrite openaq_with_retries_outcome_cons.
  destruct (try_openaq_outcome w city a H) as [->|[path ->]]; eauto.
Qed.

Lemma fallback_open_meteo_outcome w city i :
  sources_answer w ->
  exists d, outcome (Extract.fallback_open_meteo w city i) = Ok d /\ outcome_for city d.
Proof.
  intros (Hm & Hw & _). specialize (Hm (Extract.lat i) (Extract.lon i)).
  unfold Extract.fallback_open_meteo, Extract.call_open_meteo, Extract.save_raw.
  rewrite Hw.
  destruct (Extract.open_meteo w (Extract.lat i) (Extract.lon i)) as [e|st body];
    [contradiction|].
  unfold outcome_for. simpl. destruct (st =? 200) eqn:Est; simpl; eauto 6.
  apply Z.eqb_eq in Est. specialize (Hm Est).
  destruct body as [data|]; [|congruence]. simpl.
  destruct (truthy data); simpl; eauto 6.
Qed.

Lemma fetch_city_outcome w city i :
  sources_answer w ->
  exists d, outcome (Extract.fetch_city w city i) = Ok d /\ outcome_for city d.
Proof.
  intros H. unfold Extract.fetch_city. rewrite outcome_bind.
  destruct (openaq_with_retries_outcome w city
              (Py.range 1 (Extract.MAX_RETRIES w + 1)) H) as [->|[path ->]].
  - apply fallback_open_meteo_outcome, H.
  - eexists. split; [reflexivity|]. left. eauto.
Qed.

(** X27. When the sources answer, [fetch_all] returns one outcome per
    city, in the order of the cities: none is dropped, none appears
    twice. *)
Lemma fetch_each_one_outcome_per_city w cities :
  sources_answer w ->
  exists results,
    outcome (Extract.fetch_each w cities) = Ok results /\
    Forall2 (fun c d => outcome_for (fst c) d) cities results.
Proof.
  intros H. induction cities as [|[city i] cities IH].
  - exists []. split; [reflexivity | constructor].
  - destruct IH as (rs & Hrs & Hall).
    destruct (fetch_city_outcome w city i H) as (d & Hd & Hfor).
    exists (d :: rs). cbn [Extract.fetch_each].
    rewrite outcome_bind, Hd, outcome_bind, Hrs. split; [reflexivity|].
    constructor; assumption.
Qed.

(** ** load.py: the shape of the records that are inserted *)

Lemma rectangular_rename f df : rectangular df -> rectangular (Load.rename f df).
Proof.
  intros H r Hr. unfold Load.rename in *. cbn [rows columns] in *.
  apply in_map_iff in Hr. destruct Hr as [r0 [<- Hr0]].
  unfold keys. rewrite map_map. cbn [fst]. rewrite <- (H r0 Hr0).
  unfold keys. now rewrite map_map.
Qed.

Lemma rectangular_assign c g df : rectangular df -> rectangular (assign c g df).
Proof.
  intros H r Hr. unfold assign in *. cbn [rows columns] in *.
  apply in_map_iff in Hr. destruct Hr as [r0 [<- Hr0]].
  rewrite dict_set_keys, (H r0 Hr0). reflexivity.
Qed.

Lemma rectangular_assign_column c vals df :
  rectangular df -> rectangular (assign_column c vals df).
Proof.
  intros H r Hr. unfold assign_column in *. cbn [rows columns] in *.
  apply in_map_iff in Hr. destruct Hr as [[r0 v] [<- Hr0]].
  apply in_combine_l in Hr0. cbn [fst snd].
  rewrite dict_set_keys, (H r0 Hr0). reflexivity.
Qed.

Lemma rectangular_where P df : rectangular df -> rectangular (Load.where_notnull_none P df).
Proof.
  intros H r Hr. unfold Load.where_notnull_none in *. cbn [rows columns] in *.
  apply in_map_iff in Hr. destruct Hr as [r0 [<- Hr0]].
  unfold keys. rewrite map_map. cbn [fst]. apply (H r0 Hr0).
Qed.

Lemma columns_assign c g df x :
  In x (columns df) -> In x (columns (assign c g df)).
Proof. unfold assign. cbn [columns]. destruct (has_column c df); auto using in_or_app. Qed.

Lemma columns_assign_column c vals df x :
  In x (columns df) -> In x (columns (assign_column c vals df)).
Proof.
  unfold assign_column. cbn [columns]. destruct (has_column c df); auto using in_or_app.
Qed.

Lemma columns_assign_new c g df : In c (columns (assign c g df)).
Proof.
  unfold assign. cbn [columns]. destruct (has_column c df) eqn:E.
  - now apply mem_In.
  - apply in_or_app. right. now left.
Qed.

Lemma ensure_columns_spec cols : forall df,
  rectangular df ->
  let df' := fold_left Load.ensure_column cols df in
  rectangular df' /\
  (forall x, In x (columns df) -> In x (columns df')) /\
  (forall c, In c cols -> In c (columns df')).
Proof.
  induction cols as [|c cols IH]; intros df H; cbn [fold_left].
  - repeat split; auto. intros c [].
  - assert (Hc : rectangular (Load.ensure_column df c)).
    { unfold Load.ensure_column. destruct (has_column c df); auto using rectangular_assign. }
    destruct (IH (Load.ensure_column df c) Hc) as (Hr & Hkeep & Hall).
    assert (Hin : forall x, In x (columns df) -> In x (columns (Load.ensure_column df c))).
    { intros x Hx. unfold Load.ensure_column.
      destruct (has_column c df); auto using columns_assign. }
    assert (Hnew : In c (columns (Load.ensure_column df c))).
    { unfold Load.ensure_column. destruct (has_column c df) eqn:E;
        [now apply mem_In | apply columns_assign_new]. }
    repeat split; auto.
    intros x [<-|Hx]; auto.
Qed.

Lemma coerce_numeric_spec P cols : forall df df',
  fold_left (Load.coerce_numeric P) cols (Ok df) = Ok df' ->
  rectangular df ->
  rectangular df' /\ (forall x, In x (columns df) -> In x (columns df')).
Proof.
  induction cols as [|c cols IH]; intros df df' E H; cbn [fold_left] in E.
  - injection E as <-. auto.
  - unfold Load.coerce_numeric at 2 in E.
    destruct (has_column c df).
    + destruct (1 <? Load.count_label c df)%nat eqn:Ec.
      * exfalso. clear - E. induction cols; cbn in E; [discriminate | auto].
      * apply IH in E; [|now apply rectangular_assign_column].
        destruct E as [Hr Hk]. split; auto using columns_assign_column.
    + now apply IH.
Qed.

Lemma cell_ok c r : Forall entry_ok r -> cell c r <> VNA -> entry_ok (c, cell c r).
Proof.
  unfold cell. intros H.
  induction H as [|[k v] r Hkv Hr IH]; simpl.
  - intros _. left. reflexivity.
  - destruct (String.eqb c k); [|exact IH].
    intros Hna. destruct Hkv as [Hv|[Hv|[_ Hv]]]; simpl in *; [now left | now right; left |].
    congruence.
Qed.

Lemma frame_ok_assign c g df :
  (forall r, entry_ok (c, g r)) -> frame_ok df -> frame_ok (assign c g df).
Proof.
  intros Hg H r Hr. unfold assign in Hr. cbn [rows] in Hr.
  apply in_map_iff in Hr. destruct Hr as [r0 [<- Hr0]].
  apply dict_set_Forall; [apply H, Hr0|]. intros k' ->. apply Hg.
Qed.

Lemma frame_ok_assign_column c vals df :
  (forall v, In v vals -> entry_ok (c, v)) -> frame_ok df ->
  frame_ok (assign_column c vals df).
Proof.
  intros Hv H r Hr. unfold assign_column in Hr. cbn [rows] in Hr.
  apply in_map_iff in Hr. destruct Hr as [[r0 v] [<- Hr0]]. cbn [fst snd].
  apply dict_set_Forall; [apply H; eapply in_combine_l; exact Hr0|].
  intros k' ->. apply Hv. eapply in_combine_r; exact Hr0.
Qed.

Lemma cells_satisfy_rename Q f df :
  cells_satisfy Q df -> cells_satisfy Q (Load.rename f df).
Proof.
  intros H r Hr. unfold Load.rename in Hr. cbn [rows] in Hr.
  apply in_map_iff in Hr. destruct Hr as [r0 [<- Hr0]].
  apply Forall_map. eapply Forall_impl; [|apply H, Hr0].
  intros [k v] Hv. exact Hv.
Qed.

Lemma csv_frame_ok df :
  cells_satisfy csv_cell df -> frame_ok df.
Proof.
  intros H r Hr. eapply Forall_impl; [|apply H, Hr]. intros kv Hkv. now left.
Qed.

Lemma to_numeric_column_ok P c cells v :
  In v (Load.to_numeric_column P cells) -> entry_ok (c, v).
Proof.
  unfold Load.to_numeric_column.
  destruct (forallb _ cells) eqn:E.
  - intros Hv. rewrite forallb_forall in E. specialize (E v Hv).
    destruct v; try discriminate; now left.
  - intros Hv. apply in_map_iff in Hv. destruct Hv as [v0 [<- _]]. now left.
Qed.

Lemma astype_Int64_ok cells cells' v :
  Load.astype_Int64 cells = Some cells' -> In v cells' -> entry_ok ("hour", v).
Proof.
  unfold Load.astype_Int64.
  match goal with |- context [forallb ?f cells] => destruct (forallb f cells) eqn:E end;
    [|discriminate].
  intros [= <-] Hv. apply in_map_iff in Hv. destruct Hv as [v0 [<- Hv0]].
  rewrite forallb_forall in E. specialize (E v0 Hv0).
  destruct v0; try discriminate; try (now left).
  destruct (isnan f); [right; right; split; reflexivity | now left].
Qed.

Lemma frame_ok_coerce_numeric P cols : forall df df',
  fold_left (Load.coerce_numeric P) cols (Ok df) = Ok df' ->
  frame_ok df -> frame_ok df'.
Proof.
  induction cols as [|c cols IH]; intros df df' E H; cbn [fold_left] in E.
  - now injection E as <-.
  - unfold Load.coerce_numeric at 2 in E.
    destruct (has_column c df).
    + destruct (1 <? Load.count_label c df)%nat eqn:Ec.
      * exfalso. clear - E. induction cols; cbn in E; [discriminate | auto].
      * apply IH in E; [exact E|].
        apply frame_ok_assign_column; [|exact H].
        intros v. apply to_numeric_column_ok.
    + now apply IH in E.
Qed.

Lemma frame_ok_where P df : frame_ok df -> frame_ok (Load.where_notnull_none P df).
Proof.
  intros H r Hr. unfold Load.where_notnull_none in Hr. cbn [rows] in Hr.
  apply in_map_iff in Hr. destruct Hr as [r0 [<- Hr0]].
  apply Forall_map. eapply Forall_impl; [|apply H, Hr0].
  intros [k v] [Hv|[Hv|[Hk Hv]]]; cbn [fst snd] in *.
  - destruct v; try discriminate; cbn; try (now left).
    destruct (isnan f); [|now left].
    match goal with |- context [if ?b then _ else _] => destruct b end;
      [now left | now right; left].
  - subst v. now right; left.
  - subst. right; right. split; reflexivity.
Qed.

Lemma frame_ok_select cols df : frame_ok df -> frame_ok (Load.select cols df).
Proof.
  intros H r Hr. unfold Load.select in Hr. cbn [rows] in Hr.
  apply in_map_iff in Hr. destruct Hr as [r0 [<- Hr0]].
  apply Forall_forall. intros kv Hkv. apply in_flat_map in Hkv.
  destruct Hkv as [c [_ Hkv]]. apply filter_In in Hkv.
  pose proof (H r0 Hr0) as Hall. rewrite Forall_forall in Hall. apply Hall, Hkv.
Qed.

Lemma fold_dict_set_same_key {V} (c : string) : forall (l : list (string * V)) acc,
  (forall kv, In kv l -> fst kv = c) -> l <> [] ->
  keys (fold_left (fun d kv => dict_set (fst kv) (snd kv) d) l acc)
  = if mem c (keys acc) then keys acc else keys acc ++ [c].
Proof.
  induction l as [|[k v] l IH]; intros acc Hl Hne; [congruence|].
  cbn [fold_left fst snd].
  assert (k = c) by (apply (Hl (k, v)); now left). subst k.
  destruct l as [|x l].
  - cbn [fold_left]. apply dict_set_keys.
  - rewrite IH by (auto using in_cons; discriminate).
    rewrite dict_set_keys.
    destruct (mem c (keys acc)) eqn:E; [now rewrite E|].
    replace (mem c (keys acc ++ [c])) with true; [reflexivity|].
    symmetry. apply mem_In, in_or_app. right. now left.
Qed.

Lemma select_row_keys {V} (r : list (string * V)) : forall cols acc,
  NoDup cols ->
  (forall c, In c cols -> In c (keys r)) ->
  (forall c, In c cols -> ~ In c (keys acc)) ->
  keys (fold_left (fun d kv => dict_set (fst kv) (snd kv) d)
          (flat_map (fun c => filter (fun kv => String.eqb c (fst kv)) r) cols) acc)
  = keys acc ++ cols.
Proof.
  induction cols as [|c cols IH]; intros acc Hnd Hin Hfresh; cbn [flat_map fold_left].
  - now rewrite app_nil_r.
  - rewrite fold_left_app. inversion Hnd as [|? ? Hc Hnd']; subst.
    set (acc1 := fold_left _ (filter _ r) acc).
    assert (Hk1 : keys acc1 = keys acc ++ [c]).
    { unfold acc1. rewrite (fold_dict_set_same_key c).
      - replace (mem c (keys acc)) with false; [reflexivity|].
        symmetry. apply not_true_is_false. intros E. apply mem_In in E.
        apply (Hfresh c); [now left | exact E].
      - intros kv Hkv. apply filter_In in Hkv. destruct Hkv as [_ E].
        apply String.eqb_eq in E. now symmetry.
      - assert (Hc_in : In c (keys r)) by (apply Hin; now left).
        unfold keys in Hc_in. apply in_map_iff in Hc_in.
        destruct Hc_in as [kv [Hkv Hr]].
        intros Hnil.
        assert (Hf : In kv (filter (fun kv => String.eqb c (fst kv)) r)).
        { apply filter_In. split; [exact Hr|]. rewrite Hkv. apply String.eqb_refl. }
        rewrite Hnil in Hf. exact Hf. }
    rewrite IH; auto using in_cons.
    + rewrite Hk1, <- app_assoc. reflexivity.
    + intros c' Hc' Hin'. rewrite Hk1 in Hin'. apply in_app_or in Hin'.
      destruct Hin' as [Hin'|[<-|[]]]; [|exact (Hc Hc')].
      apply (Hfresh c'); [now right | exact Hin'].
Qed.

Lemma expected_cols_NoDup : NoDup Load.expected_cols.
Proof.
  unfold Load.expected_cols.
  repeat (constructor; [simpl; intuition discriminate|]). constructor.
Qed.

Lemma dict_of_Forall {V} (Q : string * V -> Prop) (l : list (string * V)) :
  Forall Q l -> Forall Q (dict_of l).
Proof.
  unfold dict_of. assert (H : Forall Q (@nil (string * V))) by constructor.
  revert H. generalize (@nil (string * V)).
  induction l as [|[k v] l IH]; intros acc Hacc Hl; [exact Hacc|].
  inversion Hl; subst. cbn [fold_left fst snd].
  apply IH; [|assumption]. apply dict_set_Forall; [assumption|]. now intros k' ->.
Qed.

(** The frame that [_normalize_for_insert] returns for a frame read from
    CSV: each of its rows makes a record with the thirteen keys, in
    order. *)
Lemma normalize_for_insert_spec P df dfn :
  Load._normalize_for_insert P df = Ok dfn ->
  rectangular df -> cells_satisfy csv_cell df ->
  forall rec, In rec (Load.to_dict_records dfn) ->
    keys rec = Load.expected_cols /\ Forall entry_ok rec.
Proof.
  unfold Load._normalize_for_insert. intros E Hrect Hcsv.
  set (df1 := Load.rename _ (Load.rename lower df)) in E.
  assert (R1 : rectangular df1) by (unfold df1; auto using rectangular_rename).
  assert (K1 : frame_ok df1)
    by (unfold df1; auto using csv_frame_ok, cells_satisfy_rename).
  clearbody df1. clear Hrect Hcsv df.
  destruct (ensure_columns_spec Load.expected_cols df1 R1) as (R2 & _ & C2).
  assert (K2 : frame_ok (fold_left Load.ensure_column Load.expected_cols df1)).
  { clear - K1. revert K1. generalize df1.
    induction Load.expected_cols as [|c cols IH]; intros d Hd; [exact Hd|].
    cbn [fold_left]. apply IH. unfold Load.ensure_column.
    destruct (has_column c d); [exact Hd|].
    apply frame_ok_assign; [|exact Hd]. intros r. now right; left. }
  revert E R2 C2 K2.
  generalize (fold_left Load.ensure_column Load.expected_cols df1).
  clear df1 R1 K1. intros df2 E R2 C2 K2.
  destruct (1 <? Load.count_label "time" df2)%nat; [discriminate E|].
  assert (R3 := rectangular_assign "time"
                  (fun r => match to_datetime P (cell "time" r) with
                            | Some t => VStr (isoformat P t)
                            | None => VNone
                            end) df2 R2).
  assert (K3 : frame_ok (assign "time"
                  (fun r => match to_datetime P (cell "time" r) with
                            | Some t => VStr (isoformat P t)
                            | None => VNone
                            end) df2)).
  { apply frame_ok_assign; [|exact K2]. intros r. cbn [snd fst].
    destruct (to_datetime P (cell "time" r)); [now left | now right; left]. }
  assert (C3 : forall c, In c Load.expected_cols ->
                 In c (columns (assign "time"
                  (fun r => match to_datetime P (cell "time" r) with
                            | Some t => VStr (isoformat P t)
                            | None => VNone
                            end) df2)))
    by (intros c Hc; auto using columns_assign).
  revert E R3 K3 C3.
  generalize (assign "time"
                  (fun r => match to_datetime P (cell "time" r) with
                            | Some t => VStr (isoformat P t)
                            | None => VNone
                            end) df2).
  clear df2 R2 C2 K2. intros df3 E R3 K3 C3.
  destruct (fold_left (Load.coerce_numeric P) Load.num_cols (Ok df3)) as [df4|e|] eqn:E4;
    try discriminate E.
  destruct (coerce_numeric_spec P _ _ _ E4 R3) as [R4 C4].
  pose proof (frame_ok_coerce_numeric P _ _ _ E4 K3) as K4.
  assert (C4' : forall c, In c Load.expected_cols -> In c (columns df4)) by auto.
  clear E4 R3 K3 C3 C4 df3.
  assert (R5 : rectangular (match Load.astype_Int64 (column "hour" df4) with
                            | Some cells => assign_column "hour" cells df4
                            | None => df4
                            end))
    by (destruct (Load.astype_Int64 _); auto using rectangular_assign_column).
  assert (K5 : frame_ok (match Load.astype_Int64 (column "hour" df4) with
                         | Some cells => assign_column "hour" cells df4
                         | None => df4
                         end)).
  { destruct (Load.astype_Int64 _) as [cells|] eqn:Ea; [|exact K4].
    apply frame_ok_assign_column; [|exact K4].
    intros v. apply (astype_Int64_ok _ _ _ Ea). }
  assert (C5 : forall c, In c Load.expected_cols ->
                 In c (columns (match Load.astype_Int64 (column "hour" df4) with
                                | Some cells => assign_column "hour" cells df4
                                | None => df4
                                end))).
  { intros c Hc. destruct (Load.astype_Int64 _); auto using columns_assign_column. }
  revert E R5 K5 C5.
  generalize (match Load.astype_Int64 (column "hour" df4) with
              | Some cells => assign_column "hour" cells df4
              | None => df4
              end).
  clear df4 R4 K4 C4'. intros df5 E R5 K5 C5.
  assert (R6 := rectangular_where P df5 R5).
  assert (K6 := frame_ok_where P df5 K5).
  assert (C6 : forall c, In c Load.expected_cols ->
                 In c (columns (Load.where_notnull_none P df5))) by exact C5.
  revert E R6 K6 C6. generalize (Load.where_notnull_none P df5).
  clear df5 R5 K5 C5. intros df6 E R6 K6 C6.
  injection E as <-.
  intros rec Hrec. unfold Load.to_dict_records, Load.select in Hrec. cbn [rows] in Hrec.
  rewrite map_map in Hrec. apply in_map_iff in Hrec. destruct Hrec as [r [<- Hr]].
  split.
  - unfold dict_of. rewrite select_row_keys; [reflexivity | apply expected_cols_NoDup | | auto].
    intros c Hc. rewrite (R6 r Hr). apply C6, Hc.
  - apply dict_of_Forall. apply Forall_forall. intros kv Hkv.
    apply in_flat_map in Hkv. destruct Hkv as [c [_ Hkv]]. apply filter_In in Hkv.
    pose proof (K6 r Hr) as Hall. rewrite Forall_forall in Hall. apply Hall, Hkv.
Qed.

Lemma insert_with_retries_events w t k b : forall fuel st,
  Forall (batch_event t k b) (events (Load.insert_with_retries fuel w t k b st)).
Proof.
  induction fuel as [|fuel IH]; intros st.
  - cbn [Load.insert_with_retries].
    destruct ((Load.attempt st <=? Load.RETRY_COUNT w) && negb (Load.success st));
      constructor.
  - destruct ((Load.attempt st <=? Load.RETRY_COUNT w) && negb (Load.success st)) eqn:E.
    + rewrite insert_with_retries_step by exact E.
      destruct (escapes w k b (Load.attempt st + 1));
        [repeat constructor; cbn; auto|].
      cbn [events snd].
      constructor; [cbn; auto|]. apply Forall_app. split; [|apply IH].
      destruct (accepts w k b (Load.attempt st + 1)); [constructor|].
      rewrite backoff_events.
      destruct (Load.attempt st + 1 <=? Load.RETRY_COUNT w); repeat constructor.
    + rewrite insert_with_retries_exit by exact E. constructor.
Qed.

Lemma insert_batches_events P w t records : forall starts ins failed,
  Forall (prepared_event P w records)
         (events (Load.insert_batches P w t records starts ins failed)).
Proof.
  induction starts as [|i starts IH]; intros ins failed; [constructor|].
  cbn [Load.insert_batches]. rewrite events_bind. apply Forall_app. split.
  - eapply Forall_impl; [|apply insert_with_retries_events].
    intros e He. destruct e; cbn in *; auto. destruct He as (_ & _ & ->). eauto.
  - destruct (outcome _); try constructor. apply IH.
Qed.

Lemma load_to_supabase_events P w path table df dfn :
  Load.read_csv w path = Ok df ->
  Load._normalize_for_insert P df = Ok dfn ->
  Forall (prepared_event P w (Load.to_dict_records dfn))
         (events (Load.load_to_supabase P w path table)).
Proof.
  intros Hread Hnorm. unfold Load.load_to_supabase. rewrite Hread, Hnorm.
  destruct (_ =? 0); [constructor|].
  rewrite events_bind. apply Forall_app. split.
  - destruct (Load.create_client w); constructor.
  - destruct (outcome _); try constructor.
    rewrite events_bind. apply Forall_app. split.
    + destruct (Load.BATCH_SIZE w =? 0); constructor.
    + destruct (outcome _); try constructor.
      rewrite events_bind. apply Forall_app. split; [apply insert_batches_events|].
      destruct (outcome _); constructor.
Qed.

Lemma In_slice {A} (l : list A) i j x : In x (Load.slice l i j) -> In x l.
Proof.
  unfold Load.slice. intros H.
  assert (H1 : In x (skipn (Z.to_nat i) l)).
  { revert H. generalize (skipn (Z.to_nat i) l). generalize (Z.to_nat (j - i)).
    induction n as [|n IH]; intros l0 H; [destruct H|].
    destruct l0 as [|y l0]; [destruct H|]. destruct H as [->|H]; [now left|].
    right. now apply IH. }
  rewrite <- (firstn_skipn (Z.to_nat i) l). apply in_or_app. now right.
Qed.

Lemma defensive_clean_entries P rec :
  Forall entry_ok rec -> Forall (sink_entry P) (Load.defensive_clean rec).
Proof.
  intros H. unfold Load.defensive_clean. apply Forall_map.
  eapply Forall_impl; [|exact H].
  intros [k v] [Hv|[Hv|[Hk Hv]]]; cbn [fst snd] in *; unfold sink_entry; cbn [fst snd].
  - destruct v; try discriminate; cbn; try (repeat split; auto; discriminate).
    destruct (isnan f) eqn:Ef; cbn; [repeat split; auto|].
    rewrite Ef. repeat split; auto. discriminate.
  - subst. cbn. repeat split; auto.
  - subst. cbn. repeat split; auto.
Qed.

Lemma expected_cols_lower k : In k Load.expected_cols -> lower k = k.
Proof. unfold Load.expected_cols. simpl. intuition (subst; reflexivity). Qed.

(** X28. For a staged frame read from CSV, every record of every batch
    that is inserted carries exactly the thirteen canonical keys, in
    order; none of its values is a float NaN; and a missing value is
    [None], or [pandas.NA] in the [hour] column. *)
Lemma inserted_records_are_canonical P w path table df :
  Load.read_csv w path = Ok df ->
  rectangular df -> cells_satisfy csv_cell df ->
  forall t k a batch rec,
    In (EvInsert t k a batch) (events (Load.load_to_supabase P w path table)) ->
    In rec batch ->
    keys rec = Load.expected_cols /\
    Forall (fun kv =>
              is_float_nan (snd kv) = false /\
              (isna (snd kv) = true ->
               snd kv = VNone \/ (fst kv = "hour" /\ snd kv = VNA))) rec.
Proof.
  intros Hread Hrect Hcsv t k a batch rec Hev Hrec.
  destruct (Load._normalize_for_insert P df) as [dfn|e|] eqn:Hnorm.
  2,3: (unfold Load.load_to_supabase in Hev; rewrite Hread, Hnorm in Hev; destruct Hev).
  pose proof (load_to_supabase_events P w path table df dfn Hread Hnorm) as Hall.
  rewrite Forall_forall in Hall. specialize (Hall _ Hev). cbn in Hall.
  destruct Hall as [i ->].
  unfold Load.prepare_batch, Load._normalize_record_types in Hrec.
  rewrite map_map in Hrec. apply in_map_iff in Hrec. destruct Hrec as [r0 [<- Hr0]].
  apply In_slice in Hr0.
  destruct (normalize_for_insert_spec P df dfn Hnorm Hrect Hcsv r0 Hr0) as [Hkeys Hok].
  pose proof (defensive_clean_entries P r0 Hok) as Hclean.
  assert (Hk : keys (Load.defensive_clean r0) = Load.expected_cols).
  { unfold Load.defensive_clean, keys. rewrite map_map. exact Hkeys. }
  assert (Hfix : Load.normalize_record P (Load.defensive_clean r0) = Load.defensive_clean r0).
  { unfold Load.normalize_record. rewrite normalize_record_fixed; [reflexivity| |].
    - cbn [app]. rewrite Hk. apply expected_cols_NoDup.
    - rewrite Forall_forall in *. intros kv Hkv. split.
      + apply expected_cols_lower. rewrite <- Hk. unfold keys. now apply in_map.
      + apply (Hclean kv Hkv). }
  rewrite Hfix. split; [exact Hk|].
  eapply Forall_impl; [|exact Hclean]. intros kv (H1 & H2 & _). auto.
Qed.

(* ================================================================== *)
(** * Further properties                                               *)
(* ================================================================== *)

(** ** Floats: the order of the comparisons *)

Ltac place_cases :=
  match goal with
  | |- _ <-> _ =>
      split;
      [ try discriminate; intros _; do 2 eexists; repeat split; simpl; lia
      | try reflexivity;
        intros (pa & pb & Hpa & Hpb & Hpab); try discriminate;
        inversion Hpa; inversion Hpb; subst; simpl in Hpab; lia ]
  end.

Lemma fleb_place x y :
  fleb x y = true <->
  exists a b, place x = Some a /\ place y = Some b /\ before_or_at a b.
Proof.
  unfold fleb, SFleb, SFcompare.
  destruct x as [sx| sx | |sx mx ex], y as [sy|sy| |sy my ey];
    try destruct sx; try destruct sy; simpl; try place_cases;
    change (PosDef.Pos.compare_cont Eq mx my) with (Pos.compare mx my);
    destruct (Z.compare_spec ex ey); destruct (Pos.compare_spec mx my);
    simpl; place_cases.
Qed.

Lemma fltb_place x y :
  fltb x y = true <->
  exists a b, place x = Some a /\ place y = Some b /\ strictly_before a b.
Proof.
  unfold fltb, SFltb, SFcompare.
  destruct x as [sx| sx | |sx mx ex], y as [sy|sy| |sy my ey];
    try destruct sx; try destruct sy; simpl; try place_cases;
    change (PosDef.Pos.compare_cont Eq mx my) with (Pos.compare mx my);
    destruct (Z.compare_spec ex ey); destruct (Pos.compare_spec mx my);
    simpl; place_cases.
Qed.

Ltac place_trans :=
  intros (a & b & Ha & Hb & H) (b' & c & Hb' & Hc & H');
  rewrite Hb in Hb'; inversion Hb'; subst b';
  exists a, c; repeat split; trivial;
  destruct a as [[a1 a2] a3], b as [[b1 b2] b3], c as [[c1 c2] c3]; simpl in *; lia.

Lemma fleb_trans x y z : fleb x y = true -> fleb y z = true -> fleb x z = true.
Proof. rewrite !fleb_place. place_trans. Qed.

Lemma fltb_fleb_trans x y z : fltb x y = true -> fleb y z = true -> fltb x z = true.
Proof. rewrite fleb_place, !fltb_place. place_trans. Qed.

Lemma fleb_fltb_trans x y z : fleb x y = true -> fltb y z = true -> fltb x z = true.
Proof. rewrite fleb_place, !fltb_place. place_trans. Qed.

Lemma fltb_fleb_false x y : fltb x y = true -> fleb y x = false.
Proof.
  intros H. destruct (fleb y x) eqn:E; trivial.
  apply fltb_place in H. apply fleb_place in E.
  destruct H as (a & b & Ha & Hb & H), E as (b' & a' & Hb' & Ha' & H').
  rewrite Ha in Ha'. rewrite Hb in Hb'. inversion Ha'; inversion Hb'; subst.
  destruct a' as [[a1 a2] a3], b' as [[b1 b2] b3]. simpl in *. lia.
Qed.

Lemma fltb_fleb x y : fltb x y = true -> fleb x y = true.
Proof.
  rewrite fleb_place, fltb_place. intros (a & b & Ha & Hb & H).
  exists a, b. repeat split; trivial.
  destruct a as [[a1 a2] a3], b as [[b1 b2] b3]. simpl in *. lia.
Qed.

Lemma fleb_not_nan x y : fleb x y = true -> isnan x = false /\ isnan y = false.
Proof.
  intros H. apply fleb_place in H. destruct H as (a & b & Ha & Hb & _).
  destruct x, y; try discriminate; auto.
Qed.

Lemma fleb_nan_l y : fleb nan y = false.
Proof. reflexivity. Qed.

Lemma fleb_nan_r x : fleb x nan = false.
Proof. destruct x; reflexivity. Qed.

Lemma fltb_nan_l y : fltb nan y = false.
Proof. reflexivity. Qed.

(** ** transform.py: the derived categories *)

Lemma in_combine_map {A B} (f : A -> B) (l : list A) x y :
  In (x, y) (combine l (map f l)) -> y = f x.
Proof.
  induction l as [|a l IH]; simpl; [tauto|].
  intros [E|H]; [injection E as <- <-; reflexivity | auto].
Qed.

Lemma hour_of_range t : 0 <= hour_of t < 24.
Proof. unfold hour_of. apply Z.mod_pos_bound. lia. Qed.

Lemma dt_hour_cells l x h :
  In (x, h) (combine l (dt_hour (map (cell "time") l))) ->
  (cell "time" x = VNaT \/ exists t, cell "time" x = VTimestamp t) ->
  hour_in_day (cell "time" x) h.
Proof.
  unfold dt_hour. rewrite !map_map.
  destruct (forallb _ _) eqn:Hall; intros H Ht.
  - assert (Hx := in_combine_l _ _ _ _ H).
    rewrite forallb_forall in Hall. specialize (Hall _ (in_map (cell "time") _ _ Hx)).
    apply in_combine_map in H. subst h.
    destruct Ht as [E|[t E]]; rewrite E in *; simpl in *;
      [discriminate | auto using hour_of_range].
  - apply in_combine_map in H. subst h.
    destruct Ht as [E|[t E]]; rewrite E; simpl; auto using hour_of_range.
Qed.

Ltac cell_rewrite :=
  repeat first
    [ rewrite cell_set_same
    | rewrite cell_set_other by (let H := fresh in intro H; discriminate H) ].

(** The cells that [add_features] derives, read off a row of its
    result. *)
Lemma add_features_derived P df df' r :
  Transform.add_features P df = Ok df' -> In r (rows df') ->
  cell "AQI_Category" r = VStr (Transform.classify_aqi (cell "pm2_5" r)) /\
  cell "Risk_Level" r = VStr (Transform.classify_risk (cell "severity_score" r)) /\
  hour_in_day (cell "time" r) (cell "hour" r).
Proof.
  unfold Transform.add_features.
  match goal with |- context [if ?c then _ else _] => destruct c end; [|discriminate].
  intros E Hr. injection E as <-.
  unfold assign_column in Hr; cbn [rows] in Hr.
  apply in_map_iff in Hr. destruct Hr as [[r5 h] [<- Hr]]. cbn [fst snd].
  unfold column in Hr.
  match type of Hr with In _ (combine ?l _) => remember l as rows5 eqn:E5 end.
  assert (Hh : hour_in_day (cell "time" r5) h).
  { apply (dt_hour_cells rows5); [exact Hr|].
    apply in_combine_l in Hr. rewrite E5 in Hr. unfold assign in Hr; cbn [rows] in Hr.
    apply in_map_iff in Hr. destruct Hr as [r4 [<- _]]. rewrite cell_set_same.
    destruct (to_datetime P (cell "time" r4)); eauto. }
  apply in_combine_l in Hr. rewrite E5 in Hr. clear E5.
  unfold assign in Hr; cbn [rows] in Hr.
  repeat (apply in_map_iff in Hr; destruct Hr as [? [<- Hr]]).
  revert Hh. cell_rewrite. intros Hh. repeat split; trivial.
Qed.

Lemma classify_aqi_closed v :
  In (Transform.classify_aqi v) aqi_categories /\
  (Transform.classify_aqi v = "Unknown" <-> isna v = true).
Proof.
  unfold Transform.classify_aqi, aqi_categories.
  destruct (isna v); [simpl; tauto|].
  repeat match goal with |- context [fleb ?a ?c] => destruct (fleb a c) end;
    (split; [simpl; tauto | split; discriminate]).
Qed.

Lemma classify_risk_closed v :
  In (Transform.classify_risk v) risk_levels /\
  (Transform.classify_risk v = "Unknown" <-> isna v = true).
Proof.
  unfold Transform.classify_risk, risk_levels.
  destruct (isna v); [simpl; tauto|].
  repeat match goal with |- context [fltb ?a ?c] => destruct (fltb a c) end;
    (split; [simpl; tauto | split; discriminate]).
Qed.

(** X1. Every record that leaves [add_features] carries an AQI category
    and a risk level out of the closed lists of the code. The category is
    "Unknown" exactly when [pm2_5] is missing, the risk level is "Unknown"
    exactly when the severity score is missing, and that is the case as
    soon as one of the six measurements is missing. *)
Theorem derived_categories_are_closed P df df' r :
  Transform.add_features P df = Ok df' -> In r (rows df') ->
  exists a k,
    cell "AQI_Category" r = VStr a /\ In a aqi_categories /\
    (a = "Unknown" <-> isna (cell "pm2_5" r) = true) /\
    cell "Risk_Level" r = VStr k /\ In k risk_levels /\
    (k = "Unknown" <-> isna (cell "severity_score" r) = true) /\
    (any_missing r = true -> k = "Unknown").
Proof.
  intros E Hr.
  destruct (add_features_derived P df df' r E Hr) as (Ha & Hk & _).
  destruct (add_features_cells P df df' r E Hr) as (_ & Hs & _).
  destruct (classify_aqi_closed (cell "pm2_5" r)) as [A1 A2].
  destruct (classify_risk_closed (cell "severity_score" r)) as [K1 K2].
  exists (Transform.classify_aqi (cell "pm2_5" r)),
         (Transform.classify_risk (cell "severity_score" r)).
  split; [exact Ha|]. split; [exact A1|]. split; [exact A2|].
  split; [exact Hk|]. split; [exact K1|]. split; [exact K2|].
  intros Hm. apply K2. rewrite Hs. simpl. now apply severity_nan_of_missing.
Qed.

Lemma derived_categories_are_closed_witness :
  exists a k,
    cell "AQI_Category" Cases.reading_with_features = VStr a /\ In a aqi_categories /\
    (a = "Unknown" <-> isna (cell "pm2_5" Cases.reading_with_features) = true) /\
    cell "Risk_Level" Cases.reading_with_features = VStr k /\ In k risk_levels /\
    (k = "Unknown" <-> isna (cell "severity_score" Cases.reading_with_features) = true) /\
    (any_missing Cases.reading_with_features = true -> k = "Unknown").
Proof.
  refine (derived_categories_are_closed
            Scenarios.sample_parsers Scenarios.df_readings _ Cases.reading_with_features _ _).
  - vm_compute. reflexivity.
  - right. left. vm_compute. reflexivity.
Defined.

(** X2. Both classifications are monotone in the order of the floats: a
    higher [pm2_5] never gives a better AQI category, a higher severity
    score never gives a lower risk level. *)
Theorem classifications_are_monotone x y :
  fleb x y = true ->
  aqi_rank (Transform.classify_aqi (VFloat x))
    <= aqi_rank (Transform.classify_aqi (VFloat y)) /\
  risk_rank (Transform.classify_risk (VFloat x))
    <= risk_rank (Transform.classify_risk (VFloat y)).
Proof.
  intros Hxy. destruct (fleb_not_nan x y Hxy) as [Nx Ny].
  unfold Transform.classify_aqi, Transform.classify_risk. simpl isna. simpl num.
  rewrite Nx, Ny. split.
  - repeat match goal with |- context [fleb ?a ?c] => destruct (fleb a c) eqn:? end;
      try (vm_compute; discriminate);
      match goal with
      | Hy : fleb y ?c = true, Hx : fleb x ?c = false |- _ =>
          rewrite (fleb_trans x y c Hxy Hy) in Hx; discriminate Hx
      end.
  - repeat match goal with |- context [fltb ?c ?a] => destruct (fltb c a) eqn:? end;
      try (vm_compute; discriminate);
      match goal with
      | Hx : fltb ?c x = true, Hy : fltb ?c y = false |- _ =>
          rewrite (fltb_fleb_trans c x y Hx Hxy) in Hy; discriminate Hy
      end.
Qed.

Lemma classifications_are_monotone_witness :
  aqi_rank (Transform.classify_aqi (VFloat (float_of_Z 25)))
    <= aqi_rank (Transform.classify_aqi (VFloat (float_of_Z 150))) /\
  risk_rank (Transform.classify_risk (VFloat (float_of_Z 25)))
    <= risk_rank (Transform.classify_risk (VFloat (float_of_Z 150))).
Proof.
  apply (classifications_are_monotone (float_of_Z 25) (float_of_Z 150)).
  vm_compute. reflexivity.
Defined.

(** X3. In every record that leaves [add_features] the hour is the hour
    of the day (0 to 23) of the parsed time, as an integer or as a float;
    it is missing exactly for a time that could not be parsed. *)
Theorem hour_is_the_hour_of_the_time P df df' r :
  Transform.add_features P df = Ok df' -> In r (rows df') ->
  hour_in_day (cell "time" r) (cell "hour" r).
Proof.
  intros E Hr. now destruct (add_features_derived P df df' r E Hr) as (_ & _ & H).
Qed.

Lemma hour_is_the_hour_of_the_time_witness :
  hour_in_day (cell "time" Cases.reading_with_features)
              (cell "hour" Cases.reading_with_features).
Proof.
  refine (hour_is_the_hour_of_the_time
            Scenarios.sample_parsers Scenarios.df_readings _ Cases.reading_with_features _ _).
  - vm_compute. reflexivity.
  - right. left. vm_compute. reflexivity.
Defined.

Lemma has_column_assign c c' g df :
  has_column c (assign c' g df) = has_column c df || String.eqb c c'.
Proof.
  unfold assign, has_column; cbn [columns].
  destruct (mem c' (columns df)) eqn:E.
  - destruct (String.eqb_spec c c') as [->|]; [|now rewrite orb_false_r].
    rewrite E. reflexivity.
  - unfold mem. rewrite existsb_app. simpl. now rewrite orb_false_r.
Qed.

Lemma coerce_pollutant_assign P df col :
  exists g, Transform.coerce_pollutant P df col = assign col g df.
Proof. unfold Transform.coerce_pollutant. destruct (has_column col df); eauto. Qed.

Lemma coerce_fold_columns P cols : forall df,
  let df' := fold_left (Transform.coerce_pollutant P) cols df in
  (forall c, In c (columns df) -> In c (columns df')) /\
  (forall c, In c cols -> In c (columns df')) /\
  (forall c, ~ In c cols -> has_column c df' = has_column c df) /\
  List.length (rows df') = List.length (rows df).
Proof.
  induction cols as [|col cols IH]; intros df; simpl.
  - repeat split; tauto.
  - destruct (coerce_pollutant_assign P df col) as [g ->].
    destruct (IH (assign col g df)) as (I1 & I2 & I3 & I4). repeat split.
    + intros c Hc. apply I1. now apply columns_assign.
    + intros c [<-|Hc]; [apply I1, columns_assign_new | now apply I2].
    + intros c Hc. rewrite I3 by tauto. rewrite has_column_assign.
      destruct (String.eqb_spec c col); [subst; tauto | apply orb_false_r].
    + rewrite I4. unfold assign; cbn [rows]. apply length_map.
Qed.

Lemma length_dt_hour l : List.length (dt_hour l) = List.length l.
Proof. unfold dt_hour. destruct (forallb _ _); apply length_map. Qed.

(** X4. [add_features] returns only for a frame that has a [time]
    column. The frame it returns keeps every column it was given, has the
    six measurement columns and the four derived ones, and has no more
    rows than the input. *)
Theorem add_features_needs_the_time_column P df df' :
  Transform.add_features P df = Ok df' ->
  has_column "time" df = true /\
  (forall c, In c (columns df) -> In c (columns df')) /\
  (forall c, In c feature_columns -> In c (columns df')) /\
  (List.length (rows df') <= List.length (rows df))%nat.
Proof.
  unfold Transform.add_features.
  destruct (coerce_fold_columns P Transform.pollutants df) as (I1 & I2 & I3 & I4).
  set (df1 := fold_left (Transform.coerce_pollutant P) Transform.pollutants df) in *.
  rewrite !has_column_assign. simpl (String.eqb "time" _). rewrite !orb_false_r.
  assert (Ht : has_column "time" (dropna_all Transform.pollutants df1) = has_column "time" df).
  { change (has_column "time" df1 = has_column "time" df). apply I3.
    simpl. intros H. repeat (destruct H as [H|H]; [discriminate H|]). exact H. }
  rewrite Ht. destruct (has_column "time" df); [|discriminate].
  intros E. injection E as <-.
  split; [reflexivity|]. split; [|split].
  - intros c Hc. apply columns_assign_column. do 4 apply columns_assign.
    change (In c (columns df1)). auto.
  - intros c Hc. unfold feature_columns in Hc. apply in_app_or in Hc.
    destruct Hc as [Hc|Hc].
    + apply columns_assign_column. do 4 apply columns_assign.
      change (In c (columns df1)). auto.
    + simpl in Hc. destruct Hc as [<-|[<-|[<-|[<-|[]]]]].
      * apply columns_assign_column. do 3 apply columns_assign. apply columns_assign_new.
      * apply columns_assign_column. do 2 apply columns_assign. apply columns_assign_new.
      * apply columns_assign_column. apply columns_assign. apply columns_assign_new.
      * unfold assign_column; cbn [columns].
        match goal with |- context [if ?b then _ else _] => destruct b eqn:Hb end.
        -- now apply mem_In in Hb.
        -- apply in_or_app. right. now left.
  - unfold assign_column; cbn [rows]. rewrite length_map, length_combine.
    unfold column. rewrite length_dt_hour, length_map, Nat.min_id.
    unfold assign; cbn [rows]. rewrite !length_map.
    unfold dropna_all; cbn [rows]. rewrite <- I4. apply filter_length_le.
Qed.

Lemma add_features_needs_the_time_column_witness :
  has_column "time" Scenarios.df_readings = true /\
  (forall c, In c (columns Scenarios.df_readings) ->
             In c (columns Cases.readings_with_features)) /\
  (forall c, In c feature_columns -> In c (columns Cases.readings_with_features)) /\
  (List.length (rows Cases.readings_with_features)
   <= List.length (rows Scenarios.df_readings))%nat.
Proof.
  apply (add_features_needs_the_time_column Scenarios.sample_parsers
           Scenarios.df_readings Cases.readings_with_features).
  vm_compute. reflexivity.
Defined.

(** ** transform.py (etlex): the derived fields *)

Lemma fltb_total x y :
  isnan x = false -> isnan y = false -> fltb x y = false -> fleb y x = true.
Proof.
  intros Hx Hy H. apply fleb_place.
  destruct (place x) as [a|] eqn:Ha; [|destruct x as [| [] | |[]]; discriminate].
  destruct (place y) as [b|] eqn:Hb; [|destruct y as [| [] | |[]]; discriminate].
  exists b, a. repeat split; trivial.
  destruct a as [[a1 a2] a3], b as [[b1 b2] b3]. simpl.
  assert (Hn : ~ strictly_before (a1, a2, a3) (b1, b2, b3)).
  { intros Hc. assert (fltb x y = true) by (apply fltb_place; eauto). congruence. }
  simpl in Hn. lia.
Qed.

Lemma float_of_Z_not_nan z : isnan (float_of_Z z) = false.
Proof.
  unfold float_of_Z, binary_normalize.
  destruct z as [|p|p]; [reflexivity| |];
    eapply signed_not_nan, binary_round_signed.
Qed.

(** X5. The derived segments of the telco transformation. For a tenure
    in whole months the four groups are consecutive ranges (up to 12,
    13 to 36, 37 to 60, above); the charge segments split the floats at 30
    and 70, a missing charge falling into "High"; and every value the two
    functions return is one the validation expects. *)
Theorem telco_segments_partition_their_inputs :
  (forall z,
     TelcoTransform.tenure_group_fn (TelcoTransform.Int z) =
     if z <=? 12 then "New" else if z <=? 36 then "Regular"
     else if z <=? 60 then "Loyal" else "Champion") /\
  (forall m,
     TelcoTransform.monthly_segment (TelcoTransform.Float m) =
     if fltb m (float_of_Z 30) then "Low"
     else if fleb m (float_of_Z 70) then "Medium" else "High") /\
  (forall t, Validate.member (VStr (TelcoTransform.tenure_group_fn t))
                             Validate.expected_tenure_groups = true) /\
  (forall m, Validate.member (VStr (TelcoTransform.monthly_segment m))
                             Validate.expected_charge_segments = true).
Proof.
  split; [|split; [|split]].
  - intros z. unfold TelcoTransform.tenure_group_fn. simpl.
    destruct (Z.leb_spec z 12), (Z.leb_spec 13 z), (Z.leb_spec z 36),
             (Z.leb_spec 37 z), (Z.leb_spec z 60); simpl; trivial; lia.
  - intros m. unfold TelcoTransform.monthly_segment, TelcoTransform.lt_lit,
      TelcoTransform.lit_le, TelcoTransform.le_lit.
    destruct (fltb m (float_of_Z 30)) eqn:Hlt; [reflexivity|].
    destruct (isnan m) eqn:Hn.
    + destruct m; try discriminate Hn. reflexivity.
    + rewrite (fltb_total m (float_of_Z 30) Hn (float_of_Z_not_nan 30) Hlt). reflexivity.
  - intros t. unfold TelcoTransform.tenure_group_fn.
    repeat match goal with |- context [if ?b then _ else _] => destruct b end; reflexivity.
  - intros m. unfold TelcoTransform.monthly_segment.
    repeat match goal with |- context [if ?b then _ else _] => destruct b end; reflexivity.
Qed.

(** X6. Between the whole months the tenure groups have gaps: a tenure
    strictly between 12 and 13 months, or between 36 and 37, belongs to no
    range of the function and is called "Champion", and so is a missing
    tenure. *)
Theorem tenure_between_whole_months_is_champion f :
  (fltb (float_of_Z 12) f = true /\ fltb f (float_of_Z 13) = true) \/
  (fltb (float_of_Z 36) f = true /\ fltb f (float_of_Z 37) = true) \/
  isnan f = true ->
  TelcoTransform.tenure_group_fn (TelcoTransform.Float f) = "Champion".
Proof.
  unfold TelcoTransform.tenure_group_fn, TelcoTransform.lit_le, TelcoTransform.le_lit.
  intros [[H1 H2]|[[H1 H2]|H]].
  - rewrite (fltb_fleb_false _ _ H1), (fltb_fleb_false _ _ H2). cbn [andb].
    assert (H3 : fltb f (float_of_Z 37) = true).
    { apply (fltb_fleb_trans f (float_of_Z 13)); [exact H2 | vm_compute; reflexivity]. }
    rewrite (fltb_fleb_false _ _ H3). reflexivity.
  - rewrite (fltb_fleb_false _ _ H1), (fltb_fleb_false _ _ H2).
    assert (H3 : fltb (float_of_Z 12) f = true).
    { apply (fleb_fltb_trans (float_of_Z 12) (float_of_Z 36)); [vm_compute; reflexivity | exact H1]. }
    rewrite (fltb_fleb_false _ _ H3). rewrite andb_false_r. reflexivity.
  - destruct f; try discriminate H. reflexivity.
Qed.

Lemma tenure_between_whole_months_is_champion_witness :
  TelcoTransform.tenure_group_fn (TelcoTransform.Float Cases.tenure_12_5) = "Champion".
Proof.
  apply (tenure_between_whole_months_is_champion Cases.tenure_12_5).
  left. split; vm_compute; reflexivity.
Defined.

Lemma staged_code_allowed x v :
  staged_code x v -> notnull v = true -> Validate.member v Validate.allowed_codes = true.
Proof.
  unfold staged_code, TelcoTransform.contract_type_code, TelcoTransform.mapping.
  cbn [dict_get].
  repeat match goal with |- context [String.eqb x ?k] => destruct (String.eqb x k) end;
    intros [->| ->]; intros H; try discriminate H; vm_compute; reflexivity.
Qed.

(** X7. The check of the contract codes cannot fail on codes that
    [transform_data] wrote: whatever the contracts were, a staged file
    whose [contract_type_code] cells are such codes (read back as integers
    or as floats, the unmapped contracts missing) passes it. *)
Theorem contract_check_passes_on_transformed_codes df :
  has_column "contract_type_code" df = true ->
  (forall r, In r (rows df) -> exists x, staged_code x (cell "contract_type_code" r)) ->
  Validate.check_contract_codes df = Validate.Passed.
Proof.
  intros Hc Hrows.
  assert (Hp : Validate.passed (Validate.check_contract_codes df) = true).
  { rewrite check_contract_codes_passed, Hc. simpl.
    unfold within, Validate.observed, column. apply forallb_forall.
    intros v Hv. apply filter_In in Hv. destruct Hv as [Hv Hnn].
    apply in_map_iff in Hv. destruct Hv as (r & <- & Hr).
    destruct (Hrows r Hr) as [x Hx]. eapply staged_code_allowed; eauto. }
  destruct (Validate.check_contract_codes df); try discriminate Hp. reflexivity.
Qed.

Lemma contract_check_passes_on_transformed_codes_witness :
  Validate.check_contract_codes Cases.telco_codes_as_floats = Validate.Passed.
Proof.
  apply (contract_check_passes_on_transformed_codes Cases.telco_codes_as_floats).
  - reflexivity.
  - intros r [<-|[<-|[<-|[]]]].
    + exists "Month-to-month". right. reflexivity.
    + exists "Unknown". right. reflexivity.
    + exists "Two year". right. reflexivity.
Defined.

(** ** validate.py: the numeric check and the unique rows *)

Lemma no_missing_cells l :
  (0 <? List.length (filter isna l))%nat = false <-> forallb notnull l = true.
Proof.
  induction l as [|v l IH]; simpl; [tauto|].
  unfold notnull at 1. destruct (isna v); simpl; [split; discriminate | exact IH].
Qed.

Lemma column_issue_nil c df :
  (if has_column c df
   then if (0 <? List.length (filter isna (column c df)))%nat
        then [(c, Some (List.length (filter isna (column c df))))]
        else []
   else [(c, @None nat)]) = [] <->
  has_column c df = true /\ forallb notnull (column c df) = true.
Proof.
  rewrite <- no_missing_cells.
  destruct (has_column c df); [|split; [discriminate | intros [H _]; discriminate H]].
  destruct (0 <? _)%nat; split; try discriminate; auto.
  intros [_ H]. discriminate H.
Qed.

(** X8. The check of the numeric columns reports nothing exactly when
    each of [tenure], [MonthlyCharges] and [TotalCharges] is a column of
    the staged file and holds no missing cell. *)
Theorem numeric_check_is_clean_iff_columns_complete df :
  Validate.missing_issues df = [] <->
  forall c, In c Validate.required_numeric_cols ->
            has_column c df = true /\ forallb notnull (column c df) = true.
Proof.
  unfold Validate.missing_issues, Validate.required_numeric_cols. cbn [flat_map].
  cbv zeta. rewrite app_nil_r. split.
  - intros H c Hc.
    apply app_eq_nil in H. destruct H as [H1 H].
    apply app_eq_nil in H. destruct H as [H2 H3].
    simpl in Hc. destruct Hc as [<-|[<-|[<-|[]]]]; now apply column_issue_nil.
  - intros H.
    rewrite (proj2 (column_issue_nil "tenure" df)) by (apply H; simpl; tauto).
    rewrite (proj2 (column_issue_nil "MonthlyCharges" df)) by (apply H; simpl; tauto).
    rewrite (proj2 (column_issue_nil "TotalCharges" df)) by (apply H; simpl; tauto).
    reflexivity.
Qed.

Lemma drop_duplicates_fresh rs : forall seen,
  fresh_rows seen (Validate.drop_duplicates rs seen).
Proof.
  induction rs as [|r rs IH]; intros seen; simpl; [exact I|].
  destruct (existsb (Validate.same_row r) seen) eqn:E; [apply IH|].
  simpl. split; [exact E | apply IH].
Qed.

Lemma drop_duplicates_fixed u : forall seen,
  fresh_rows seen u -> Validate.drop_duplicates u seen = u.
Proof.
  induction u as [|r u IH]; intros seen; simpl; [reflexivity|].
  intros [E H]. rewrite E. f_equal. now apply IH.
Qed.

Lemma drop_duplicates_sub rs : forall seen,
  (List.length (Validate.drop_duplicates rs seen) <= List.length rs)%nat /\
  (forall r, In r (Validate.drop_duplicates rs seen) -> In r rs) /\
  (forall r, In r rs ->
     In r (Validate.drop_duplicates rs seen) \/
     existsb (Validate.same_row r) (Validate.drop_duplicates rs seen ++ seen) = true).
Proof.
  induction rs as [|r rs IH]; intros seen; simpl.
  - repeat split; auto; tauto.
  - destruct (existsb (Validate.same_row r) seen) eqn:E.
    + destruct (IH seen) as (L & I & C). repeat split.
      * lia.
      * auto.
      * intros r' [<-|Hr'].
        -- right. rewrite existsb_app, E. apply orb_true_r.
        -- auto.
    + destruct (IH (r :: seen)) as (L & I & C). repeat split.
      * simpl. lia.
      * intros r' [<-|Hr']; simpl; auto.
      * intros r' [<-|Hr']; [left; now left|].
        destruct (C r' Hr') as [Hin|Hex]; [left; now right|].
        right. rewrite existsb_app in Hex. simpl in Hex.
        simpl. rewrite existsb_app.
        destruct (Validate.same_row r' r); simpl in *; trivial.
Qed.

(** X9. [drop_duplicates], as the count of unique rows uses it, keeps
    the first row of each group of equal rows: no kept row equals a kept
    row before it, every kept row is a row of the frame, every row of the
    frame is kept or equals a kept one, and dropping the duplicates a
    second time changes nothing. The count of unique rows is therefore at
    most the number of rows. *)
Theorem drop_duplicates_keeps_the_first_of_each_group rs :
  let unique := Validate.drop_duplicates rs [] in
  fresh_rows [] unique /\
  (List.length unique <= List.length rs)%nat /\
  (forall r, In r unique -> In r rs) /\
  (forall r, In r rs -> In r unique \/ existsb (Validate.same_row r) unique = true) /\
  Validate.drop_duplicates unique [] = unique.
Proof.
  intros unique. subst unique.
  destruct (drop_duplicates_sub rs []) as (L & I & C).
  split; [apply drop_duplicates_fresh|]. split; [exact L|]. split; [exact I|].
  split.
  - intros r Hr. destruct (C r Hr) as [H|H]; [now left|right].
    now rewrite app_nil_r in H.
  - apply drop_duplicates_fixed, drop_duplicates_fresh.
Qed.

(** ** extract.py: what is saved, and when the fallback is asked *)

Lemma saved_paths_app a b : saved_paths (a ++ b) = saved_paths a ++ saved_paths b.
Proof. apply flat_map_app. Qed.

Lemma fallback_requests_app a b :
  fallback_requests (a ++ b) = fallback_requests a + fallback_requests b.
Proof. unfold fallback_requests. rewrite filter_app, length_app. lia. Qed.

Lemma try_openaq_saved w city k :
  fallback_requests (events (Extract.try_openaq w city k)) = 0 /\
  match outcome (Extract.try_openaq w city k) with
  | Ok (Some found) =>
      exists p, found = Extract.outcome_dict city (Some "OpenAQ") (Some p) /\
                saved_paths (events (Extract.try_openaq w city k)) = [p]
  | _ => saved_paths (events (Extract.try_openaq w city k)) = []
  end.
Proof.
  unfold Extract.try_openaq, Extract.call_openaq_v3, Extract.get_results, Extract.save_raw.
  io_cases; split; eauto.
Qed.

Lemma openaq_with_retries_saved w city l :
  fallback_requests (events (Extract.openaq_with_retries w city l)) = 0 /\
  match outcome (Extract.openaq_with_retries w city l) with
  | Ok (Some found) =>
      exists p, found = Extract.outcome_dict city (Some "OpenAQ") (Some p) /\
                saved_paths (events (Extract.openaq_with_retries w city l)) = [p]
  | _ => saved_paths (events (Extract.openaq_with_retries w city l)) = []
  end.
Proof.
  induction l as [|a l [IH1 IH2]]; [split; reflexivity|].
  rewrite openaq_with_retries_outcome_cons, openaq_with_retries_cons.
  rewrite saved_paths_app, fallback_requests_app.
  destruct (try_openaq_saved w city a) as [F S]. rewrite F.
  destruct (outcome (Extract.try_openaq w city a)) as [[f|]|e|].
  - destruct S as (p & -> & ->). split; [reflexivity|]. exists p. split; reflexivity.
  - rewrite S. split; [exact IH1 | exact IH2].
  - rewrite S. split; reflexivity.
  - rewrite S. split; reflexivity.
Qed.

Lemma fallback_open_meteo_saved w city i :
  fallback_requests (events (Extract.fallback_open_meteo w city i)) = 1 /\
  match outcome (Extract.fallback_open_meteo w city i) with
  | Ok d =>
      dict_get "source" d <> Some (VStr "OpenAQ") /\
      saved_paths (events (Extract.fallback_open_meteo w city i)) =
      match dict_get "raw_path" d with Some (VStr p) => [p] | _ => [] end
  | _ => True
  end.
Proof.
  unfold Extract.fallback_open_meteo, Extract.call_open_meteo, Extract.save_raw.
  io_cases; split; trivial; split; trivial; discriminate.
Qed.

(** X10. The raw files written for a city are exactly what the outcome
    reports: when [fetch_city] returns a snapshot, one file was written
    and [raw_path] is its path; when it returns the failure of both
    sources, no file was written. *)
Theorem reported_raw_file_is_the_one_saved w city i d :
  outcome (Extract.fetch_city w city i) = Ok d ->
  saved_paths (events (Extract.fetch_city w city i)) =
  match dict_get "raw_path" d with Some (VStr p) => [p] | _ => [] end.
Proof.
  rewrite fetch_city_events, saved_paths_app.
  unfold Extract.fetch_city. rewrite outcome_bind.
  destruct (openaq_with_retries_saved w city (Py.range 1 (Extract.MAX_RETRIES w + 1)))
    as [_ S].
  destruct (outcome (Extract.openaq_with_retries _ _ _)) as [[f|]|e|]; try discriminate.
  - destruct S as (p & -> & ->). intros E. injection E as <-. reflexivity.
  - rewrite S. intros E.
    destruct (fallback_open_meteo_saved w city i) as [_ F]. rewrite E in F.
    apply F.
Qed.

Lemma reported_raw_file_is_the_one_saved_witness :
  saved_paths (events (Extract.fetch_city Scenarios.world_empty_results
                         "Delhi" Scenarios.delhi)) =
  ["data/raw/delhi_raw_20250101T000000Z.json"].
Proof.
  exact (reported_raw_file_is_the_one_saved Scenarios.world_empty_results
           "Delhi" Scenarios.delhi
           (Extract.outcome_dict "Delhi" (Some "Open-Meteo")
              (Some "data/raw/delhi_raw_20250101T000000Z.json"))
           eq_refl).
Defined.

Lemma waits_app a b : waits (a ++ b) = waits a ++ waits b.
Proof. apply flat_map_app. Qed.

Lemma total_wait_app a b : total_wait (a ++ b) = total_wait a + total_wait b.
Proof. unfold total_wait. now rewrite waits_app, sum_Z_app. Qed.

Lemma openaq_with_retries_failed w city l :
  outcome (Extract.openaq_with_retries w city l) = Ok None ->
  forall k, In k l -> outcome (Extract.try_openaq w city k) = Ok None.
Proof.
  induction l as [|a l IH]; intros H k Hk; [destruct Hk|].
  rewrite openaq_with_retries_outcome_cons in H.
  destruct (outcome (Extract.try_openaq w city a)) as [[f|]|e|] eqn:E; try discriminate H.
  destruct Hk as [<-|Hk]; auto.
Qed.

Lemma failed_passes_total_wait w city n : forall a b,
  Z.to_nat (b - a) = n -> 1 <= a ->
  total_wait (openaq_view (failed_passes w city (Py.range a b)))
  = 2 ^ (Z.max a b - 1) - 2 ^ (a - 1).
Proof.
  induction n as [|n IH]; intros a b Hn Ha.
  - rewrite range_nil by lia. replace (Z.max a b) with a by lia.
    change (total_wait (openaq_view (failed_passes w city []))) with 0. lia.
  - rewrite range_cons by lia. unfold failed_passes. cbn [flat_map].
    fold (failed_passes w city (Py.range (a + 1) b)).
    rewrite openaq_view_app, total_wait_app, IH by lia.
    destruct (try_openaq_events w city a) as (rest & -> & Hrest).
    assert (Hv : openaq_view ((EvGet (OpenAQ_latest city) :: rest) ++ [EvSleep (2 ^ (a - 1))])
                 = [Attempt; Wait (2 ^ (a - 1))]).
    { rewrite openaq_view_app.
      change (openaq_view (EvGet (OpenAQ_latest city) :: rest))
        with (Attempt :: openaq_view rest).
      rewrite Hrest. reflexivity. }
    rewrite Hv.
    change (total_wait [Attempt; Wait (2 ^ (a - 1))]) with (2 ^ (a - 1) + 0).
    replace (Z.max (a + 1) b) with (Z.max a b) by lia.
    replace (a + 1 - 1) with (Z.succ (a - 1)) by lia.
    rewrite Z.pow_succ_r by lia. lia.
Qed.

(** X11. The fallback source is asked at most once for a city, and only
    after every primary attempt has failed and every wait has been made:
    [MAX_RETRIES] attempts and [2^MAX_RETRIES - 1] seconds of waiting.
    The outcome names OpenAQ as its source exactly when the fallback was
    not asked. *)
Theorem fallback_is_asked_once_after_all_primary_attempts w city i :
  let evs := events (Extract.fetch_city w city i) in
  let n := Z.max 0 (Extract.MAX_RETRIES w) in
  fallback_requests evs <= 1 /\
  (fallback_requests evs = 1 ->
   attempts (openaq_view evs) = n /\ total_wait (openaq_view evs) = 2 ^ n - 1) /\
  (forall d, outcome (Extract.fetch_city w city i) = Ok d ->
     (dict_get "source" d = Some (VStr "OpenAQ") <-> fallback_requests evs = 0)).
Proof.
  intros evs n. subst evs.
  rewrite fetch_city_events, fallback_requests_app, openaq_view_app.
  unfold Extract.fetch_city. rewrite outcome_bind.
  set (l := Py.range 1 (Extract.MAX_RETRIES w + 1)).
  destruct (openaq_with_retries_saved w city l) as [F S]. rewrite F.
  destruct (fallback_open_meteo_saved w city i) as [F' S'].
  destruct (outcome (Extract.openaq_with_retries w city l)) as [[f|]|e|] eqn:E.
  - destruct S as (p & -> & _). cbn. split; [lia|]. split; [discriminate|].
    intros d Hd. injection Hd as <-. split; reflexivity.
  - rewrite F'. split; [lia|]. split.
    + intros _. rewrite fallback_open_meteo_view, app_nil_r.
      destruct (openaq_with_retries_app w city l []
                  (openaq_with_retries_failed w city l E)) as [Hev _].
      rewrite app_nil_r in Hev. rewrite Hev. cbn [events Extract.openaq_with_retries
        IO.ret snd]. rewrite app_nil_r. split.
      * rewrite failed_passes_attempts. unfold l. rewrite range_length. subst n. lia.
      * unfold l. rewrite (failed_passes_total_wait w city _ 1 _ eq_refl) by lia.
        subst n. replace (Z.max 1 (Extract.MAX_RETRIES w + 1) - 1)
          with (Z.max 0 (Extract.MAX_RETRIES w)) by lia. simpl. lia.
    + intros d Hd. rewrite Hd in S'. destruct S' as [Hs _]. split; [contradiction | lia].
  - cbn. split; [lia|]. split; discriminate.
  - cbn. split; [lia|]. split; discriminate.
Qed.

(** ** The time spent waiting *)

Lemma backoff_total_wait m : forall v a n,
  (List.length v <= m)%nat ->
  backoff_ok 1 a v = true -> 1 <= a ->
  Z.of_nat (List.length (waits v)) <= n ->
  total_wait v <= 2 ^ (a - 1) * (2 ^ n - 1).
Proof.
  assert (Hbase : forall a n, 1 <= a -> 0 <= n -> 0 <= 2 ^ (a - 1) * (2 ^ n - 1)).
  { intros a n Ha Hn.
    assert (0 < 2 ^ (a - 1)) by (apply Z.pow_pos_nonneg; lia).
    assert (0 < 2 ^ n) by (apply Z.pow_pos_nonneg; lia). nia. }
  induction m as [|m IH]; intros v a n Hlen Hok Ha Hn.
  - destruct v; [|simpl in Hlen; lia]. apply Hbase; [lia | simpl in Hn; lia].
  - destruct v as [|[|s] v]; [apply Hbase; simpl in Hn; lia | | discriminate Hok].
    destruct v as [|[|s] rest]; [apply Hbase; simpl in Hn; lia | discriminate Hok |].
    cbn [backoff_ok] in Hok. apply andb_true_iff in Hok. destruct Hok as [Hs Hok].
    apply Z.eqb_eq in Hs.
    change (waits (Attempt :: Wait s :: rest)) with (s :: waits rest) in Hn.
    change (total_wait (Attempt :: Wait s :: rest)) with (s + total_wait rest).
    cbn [List.length] in Hn, Hlen.
    specialize (IH rest (a + 1) (n - 1)).
    replace (a + 1 - 1) with (Z.succ (a - 1)) in IH by lia.
    rewrite Z.pow_succ_r in IH by lia.
    assert (Hrest : total_wait rest <= 2 * 2 ^ (a - 1) * (2 ^ (n - 1) - 1))
      by (apply IH; [lia | exact Hok | lia | lia]).
    replace n with (Z.succ (n - 1)) at 1 by lia.
    rewrite Z.pow_succ_r by lia. nia.
Qed.

Lemma waits_le_attempts m : forall v a,
  (List.length v <= m)%nat -> backoff_ok 1 a v = true ->
  Z.of_nat (List.length (waits v)) <= attempts v.
Proof.
  induction m as [|m IH]; intros v a Hlen Hok.
  - destruct v; [|simpl in Hlen; lia]. cbn. lia.
  - destruct v as [|[|s] v]; [cbn; lia | | discriminate Hok].
    destruct v as [|[|s] rest]; [cbn; lia | discriminate Hok |].
    cbn [backoff_ok] in Hok. apply andb_true_iff in Hok. destruct Hok as [_ Hok].
    rewrite attempts_cons_attempt, attempts_cons_wait.
    change (waits (Attempt :: Wait s :: rest)) with (s :: waits rest).
    cbn [List.length] in *. specialize (IH rest (a + 1)).
    assert (Z.of_nat (List.length (waits rest)) <= attempts rest)
      by (apply IH; [lia | exact Hok]).
    lia.
Qed.

Lemma insert_with_retries_waits w t k b : forall fuel st,
  Z.of_nat (List.length
              (waits (insert_view (events (Load.insert_with_retries fuel w t k b st)))))
  <= Z.max 0 (Load.RETRY_COUNT w - Load.attempt st).
Proof.
  induction fuel as [|fuel IH]; intros st.
  - cbn [Load.insert_with_retries].
    destruct ((Load.attempt st <=? Load.RETRY_COUNT w) && negb (Load.success st));
      cbn; lia.
  - destruct ((Load.attempt st <=? Load.RETRY_COUNT w) && negb (Load.success st)) eqn:E.
    + rewrite insert_with_retries_step by exact E.
      destruct (escapes w k b (Load.attempt st + 1)); [cbn; lia|].
      cbn [events snd].
      change (insert_view (EvInsert t k (Load.attempt st + 1) b :: ?l))
        with (Attempt :: insert_view l).
      change (waits (Attempt :: ?l)) with (waits l).
      rewrite insert_view_app, waits_app, length_app.
      specialize (IH (next_state w k b st)).
      destruct (next_state_facts w k b st) as (Na & _ & _). rewrite Na in IH.
      destruct (accepts w k b (Load.attempt st + 1)).
      * cbn [insert_view flat_map waits List.length]. lia.
      * rewrite backoff_events.
        destruct (Z.leb_spec (Load.attempt st + 1) (Load.RETRY_COUNT w)); cbn; lia.
    + rewrite insert_with_retries_exit by exact E. cbn. lia.
Qed.

(** X12. The time spent waiting is bounded: for a city, the waits
    between the primary attempts add up to at most [2^MAX_RETRIES - 1]
    seconds; for a batch, the waits between the insertions add up to at
    most [2^RETRY_COUNT - 1] seconds. *)
Theorem waiting_time_is_bounded
    (we : Extract.World) (city : string) (i : Extract.info)
    (wl : Load.World) (table : string) (batch_no : Z) (batch : list Load.record)
    (inserted : Z) :
  0 <= Extract.MAX_RETRIES we ->
  0 <= Load.RETRY_COUNT wl ->
  let loop := Load.insert_with_retries (Z.to_nat (Load.RETRY_COUNT wl + 1)) wl table
                batch_no batch
                {| Load.attempt := 0; Load.success := false; Load.last_err := None;
                   Load.inserted_so_far := inserted |} in
  total_wait (openaq_view (events (Extract.fetch_city we city i)))
    <= 2 ^ Extract.MAX_RETRIES we - 1 /\
  total_wait (insert_view (events loop)) <= 2 ^ Load.RETRY_COUNT wl - 1.
Proof.
  intros He Hl loop. split.
  - destruct (fetch_city_schedule we city i He) as [Ha Hb].
    pose proof (backoff_total_wait _ _ 1 (Extract.MAX_RETRIES we) (Nat.le_refl _) Hb) as H.
    pose proof (waits_le_attempts _ _ 1 (Nat.le_refl _) Hb) as Hw.
    change (2 ^ (1 - 1)) with 1 in H. lia.
  - pose proof (insert_with_retries_spec wl table batch_no batch
                  (Z.to_nat (Load.RETRY_COUNT wl + 1))
                  {| Load.attempt := 0; Load.success := false; Load.last_err := None;
                     Load.inserted_so_far := inserted |} eq_refl ltac:(simpl; lia)
                  ltac:(simpl; lia)) as Hloop.
    cbv zeta in Hloop. destruct Hloop as (_ & _ & _ & Hb & _).
    pose proof (insert_with_retries_waits wl table batch_no batch
                  (Z.to_nat (Load.RETRY_COUNT wl + 1))
                  {| Load.attempt := 0; Load.success := false; Load.last_err := None;
                     Load.inserted_so_far := inserted |}) as Hw.
    cbn [Load.attempt] in Hw, Hb.
    pose proof (backoff_total_wait _ _ 1 (Load.RETRY_COUNT wl) (Nat.le_refl _) Hb) as H.
    change (2 ^ (1 - 1)) with 1 in H. fold loop in H, Hw. lia.
Qed.

Lemma waiting_time_is_bounded_witness :
  total_wait (openaq_view (events (Extract.fetch_city Scenarios.world_all_sources_fail
                                     "Delhi" Scenarios.delhi)))
    <= 2 ^ 3 - 1 /\
  total_wait (insert_view (events
    (Load.insert_with_retries 3 (Scenarios.world_batch3_rejected 5 2)
       "air_quality_data" 3 []
       {| Load.attempt := 0; Load.success := false; Load.last_err := None;
          Load.inserted_so_far := 4 |})))
    <= 2 ^ 2 - 1.
Proof.
  apply (waiting_time_is_bounded Scenarios.world_all_sources_fail "Delhi" Scenarios.delhi
           (Scenarios.world_batch3_rejected 5 2) "air_quality_data" 3 [] 4);
    simpl; lia.
Defined.

(** ** load.py: the attempts for one batch *)

Lemma next_state_last_err w k b st :
  Load.success (next_state w k b st) = false ->
  Load.last_err (next_state w k b st) = attempt_error w k b (Load.attempt st + 1).
Proof.
  unfold next_state, attempt_error, Load.response_error.
  destruct (Load.insert w k (Load.attempt st + 1) b) as [[cls msg]|[err|]]; simpl;
    [reflexivity | | discriminate].
  destruct (String.eqb err EmptyString); simpl; [discriminate | reflexivity].
Qed.

Lemma insert_attempts_app a b :
  insert_attempts (a ++ b) = insert_attempts a ++ insert_attempts b.
Proof. apply flat_map_app. Qed.

Lemma final_cases w k b a :
  final w k b a = match escapes w k b a with Some _ => true | None => accepts w k b a end.
Proof.
  unfold final. destruct (escapes w k b a) as [e|] eqn:E; [|apply orb_false_r].
  apply orb_true_r.
Qed.

Lemma insert_with_retries_attempts w t k b : forall fuel st,
  Load.success st = false -> 0 <= Load.attempt st <= Load.RETRY_COUNT w ->
  (Z.to_nat (Load.RETRY_COUNT w + 1 - Load.attempt st) <= fuel)%nat ->
  let n := last_attempt_from w k b (Load.attempt st + 1) in
  let m := Load.insert_with_retries fuel w t k b st in
  Load.attempt st + 1 <= n <= Load.RETRY_COUNT w + 1 /\
  insert_attempts (events m) = Py.range (Load.attempt st + 1) (n + 1) /\
  (forall a, Load.attempt st + 1 <= a < n -> final w k b a = false) /\
  match escapes w k b n with
  | Some e => outcome m = Raise e
  | None =>
      exists st',
        outcome m = Ok st' /\
        Load.attempt st' = n /\
        Load.success st' = accepts w k b n /\
        (Load.success st' = false -> Load.last_err st' = attempt_error w k b n)
  end.
Proof.
  induction fuel as [|fuel IH]; intros st Hs Ha Hf n m; subst m; [lia|].
  rewrite insert_with_retries_step
    by (rewrite Hs; apply andb_true_iff; split; [apply Z.leb_le; lia | reflexivity]).
  destruct (next_state_facts w k b st) as (Na & Ns & _).
  pose proof (next_state_last_err w k b st) as Ne.
  set (st1 := next_state w k b st) in *.
  set (a := Load.attempt st + 1) in *.
  assert (Hn : n = if final w k b a then a
                   else if a <=? Load.RETRY_COUNT w then last_attempt_from w k b (a + 1)
                   else a).
  { subst n. unfold last_attempt_from. rewrite (range_cons a) by lia. cbn [find].
    destruct (final w k b a); [reflexivity|].
    destruct (Z.leb_spec a (Load.RETRY_COUNT w)); [reflexivity|].
    rewrite range_nil by lia. cbn. lia. }
  clearbody n. subst n. rewrite final_cases.
  destruct (escapes w k b a) as [e|] eqn:Hesc.
  { (* the insertion raises past the handler *)
    rewrite Hesc. cbn [outcome events fst snd insert_attempts flat_map app].
    rewrite (range_cons a), range_nil by lia.
    split; [lia|]. split; [reflexivity|]. split; [intros; lia | reflexivity]. }
  cbn [outcome events fst snd].
  change (insert_attempts (EvInsert t k a b :: ?l)) with (a :: insert_attempts l).
  rewrite insert_attempts_app.
  destruct (accepts w k b a) eqn:Hacc.
  - rewrite insert_with_retries_exit
      by (rewrite Ns; apply andb_false_iff; right; reflexivity).
    change (events (ret st1)) with (@nil event).
    change (outcome (ret st1)) with (Ok st1). cbn [app insert_attempts flat_map].
    rewrite (range_cons a), range_nil by lia. rewrite Hesc.
    split; [lia|]. split; [reflexivity|]. split; [intros; lia|].
    exists st1. split; [reflexivity|]. split; [exact Na|]. split; congruence.
  - rewrite backoff_events.
    destruct (Z.leb_spec a (Load.RETRY_COUNT w)) as [Hle|Hgt].
    + pose proof (IH st1) as IH1. cbv zeta in IH1.
      destruct IH1 as (Hb & Hatt & Hrej & Hout); [exact Ns | lia | lia |].
      rewrite Na in *. fold a in Hb, Hatt, Hrej, Hout.
      set (n := last_attempt_from w k b (a + 1)) in *.
      split; [lia|]. split.
      * cbn [app insert_attempts flat_map]. rewrite Hatt.
        rewrite (range_cons a) by lia. reflexivity.
      * split; [|exact Hout].
        intros a' Ha'. destruct (Z.eq_dec a' a) as [->|].
        -- rewrite final_cases, Hesc. exact Hacc.
        -- apply Hrej. lia.
    + rewrite insert_with_retries_exit
        by (rewrite Na; apply andb_false_iff; left; apply Z.leb_gt; lia).
      change (events (ret st1)) with (@nil event).
      change (outcome (ret st1)) with (Ok st1). cbn [app insert_attempts flat_map].
      rewrite (range_cons a), range_nil by lia. rewrite Hesc.
      split; [lia|]. split; [reflexivity|]. split; [intros; lia|].
      exists st1. split; [reflexivity|]. split; [exact Na|]. split; [congruence|].
      intros _. apply Ne. congruence.
Qed.

(** X13. The insertions of one batch are the attempts 1, 2, ... up to
    the first one that the sink accepts or that raises what
    [except Exception] does not catch, or up to attempt [RETRY_COUNT + 1]
    when there is none: no attempt follows an accepted one, so retrying
    never inserts a batch twice. An insertion that raises past the handler
    ends the loop with that exception. Otherwise the loop returns: it ends
    in success exactly when its last attempt is accepted, and else
    [last_err] is the error of the last attempt. *)
Theorem batch_is_sent_until_first_acceptance w t k b ins :
  0 <= Load.RETRY_COUNT w ->
  let loop := Load.insert_with_retries (Z.to_nat (Load.RETRY_COUNT w + 1)) w t k b
                {| Load.attempt := 0; Load.success := false; Load.last_err := None;
                   Load.inserted_so_far := ins |} in
  let n := last_attempt_from w k b 1 in
  1 <= n <= Load.RETRY_COUNT w + 1 /\
  insert_attempts (events loop) = Py.range 1 (n + 1) /\
  (forall a, 1 <= a < n -> accepts w k b a = false /\ escapes w k b a = None) /\
  match escapes w k b n with
  | Some e => outcome loop = Raise e /\ is_Exception e = false
  | None =>
      exists st,
        outcome loop = Ok st /\
        Load.attempt st = n /\
        Load.success st = accepts w k b n /\
        (Load.success st = false -> Load.last_err st = attempt_error w k b n)
  end.
Proof.
  intros H loop n.
  pose proof (insert_with_retries_attempts w t k b (Z.to_nat (Load.RETRY_COUNT w + 1))
                {| Load.attempt := 0; Load.success := false; Load.last_err := None;
                   Load.inserted_so_far := ins |} eq_refl ltac:(simpl; lia)
                ltac:(simpl; lia)) as Hloop.
  cbv zeta in Hloop. cbn [Load.attempt] in Hloop.
  change (0 + 1) with 1 in Hloop. fold n loop in Hloop.
  destruct Hloop as (Hn & Hatt & Hrej & Hout).
  split; [exact Hn|]. split; [exact Hatt|]. split.
  - intros a Ha. specialize (Hrej a Ha). rewrite final_cases in Hrej.
    destruct (escapes w k b a); [discriminate Hrej | auto].
  - destruct (escapes w k b n) as [e|] eqn:Hesc; [|exact Hout].
    split; [exact Hout|]. now destruct (escapes_not_exception _ _ _ _ _ Hesc).
Qed.

Lemma batch_is_sent_until_first_acceptance_witness :
  let w := Scenarios.world_batch3_rejected 5 2 in
  let loop := Load.insert_with_retries (Z.to_nat (Load.RETRY_COUNT w + 1)) w
                "air_quality_data" 3 []
                {| Load.attempt := 0; Load.success := false; Load.last_err := None;
                   Load.inserted_so_far := 4 |} in
  let n := last_attempt_from w 3 [] 1 in
  1 <= n <= Load.RETRY_COUNT w + 1 /\
  insert_attempts (events loop) = Py.range 1 (n + 1) /\
  (forall a, 1 <= a < n -> accepts w 3 [] a = false /\ escapes w 3 [] a = None) /\
  match escapes w 3 [] n with
  | Some e => outcome loop = Raise e /\ is_Exception e = false
  | None =>
      exists st,
        outcome loop = Ok st /\
        Load.attempt st = n /\
        Load.success st = accepts w 3 [] n /\
        (Load.success st = false -> Load.last_err st = attempt_error w 3 [] n)
  end.
Proof.
  intros w.
  apply (batch_is_sent_until_first_acceptance w "air_quality_data" 3 [] 4).
  simpl. lia.
Defined.

(** ** load.py: the rows that are counted *)

Lemma length_rows_assign_column c vals df :
  List.length vals = List.length (rows df) ->
  List.length (rows (assign_column c vals df)) = List.length (rows df).
Proof.
  intros H. unfold assign_column; cbn [rows].
  rewrite length_map, length_combine, H. apply Nat.min_id.
Qed.

Lemma ensure_fold_rows cols : forall df,
  List.length (rows (fold_left Load.ensure_column cols df)) = List.length (rows df).
Proof.
  induction cols as [|c cols IH]; intros df; [reflexivity|].
  cbn [fold_left]. rewrite IH. unfold Load.ensure_column.
  destruct (has_column c df); [reflexivity|]. unfold assign; cbn [rows]. apply length_map.
Qed.

Lemma coerce_numeric_raise P cols e :
  fold_left (Load.coerce_numeric P) cols (Raise e) = Raise e.
Proof. induction cols; [reflexivity | exact IHcols]. Qed.

Lemma coerce_numeric_rows P cols : forall df df',
  fold_left (Load.coerce_numeric P) cols (Ok df) = Ok df' ->
  List.length (rows df') = List.length (rows df).
Proof.
  induction cols as [|c cols IH]; intros df df' E; cbn [fold_left] in E.
  - injection E as <-. reflexivity.
  - unfold Load.coerce_numeric at 2 in E.
    destruct (has_column c df); [|now apply IH].
    destruct (1 <? Load.count_label c df)%nat.
    + rewrite coerce_numeric_raise in E. discriminate E.
    + apply IH in E. rewrite E. apply length_rows_assign_column.
      unfold Load.to_numeric_column, column.
      destruct (forallb _ _); rewrite ?length_map; reflexivity.
Qed.

Lemma normalize_for_insert_rows P df dfn :
  Load._normalize_for_insert P df = Ok dfn ->
  List.length (rows dfn) = List.length (rows df).
Proof.
  unfold Load._normalize_for_insert.
  destruct (1 <? _)%nat; [discriminate|].
  destruct (fold_left (Load.coerce_numeric P) Load.num_cols _) as [df4|e|] eqn:E4;
    try discriminate.
  intros E. injection E as <-.
  unfold Load.select, Load.where_notnull_none; cbn [rows]. rewrite !length_map.
  apply coerce_numeric_rows in E4.
  assert (H5 : List.length (rows match Load.astype_Int64 (column "hour" df4) with
                                 | Some cells => assign_column "hour" cells df4
                                 | None => df4
                                 end) = List.length (rows df4)).
  { destruct (Load.astype_Int64 (column "hour" df4)) as [cells|] eqn:Ea; [|reflexivity].
    apply length_rows_assign_column. unfold Load.astype_Int64 in Ea.
    destruct (forallb _ _); [|discriminate Ea]. injection Ea as <-.
    unfold column. now rewrite !length_map. }
  transitivity (List.length (rows df4)); [exact H5|].
  rewrite E4. unfold assign; cbn [rows]. rewrite length_map, ensure_fold_rows.
  unfold Load.rename; cbn [rows]. now rewrite !length_map.
Qed.

Lemma to_dict_records_length dfn :
  List.length (Load.to_dict_records dfn) = List.length (rows dfn).
Proof. apply length_map. Qed.

(** X14. [_normalize_for_insert] drops no row and adds none, and the
    report of a load counts every row of the staged file: [total] is the
    number of rows that were read. *)
Theorem load_report_counts_every_staged_row P w path table df report :
  Load.read_csv w path = Ok df ->
  outcome (Load.load_to_supabase P w path table) = Ok (Some report) ->
  Load.total report = Z.of_nat (List.length (rows df)) /\
  exists dfn, Load._normalize_for_insert P df = Ok dfn /\
              List.length (rows dfn) = List.length (rows df).
Proof.
  intros Hread. unfold Load.load_to_supabase. rewrite Hread.
  destruct (Load._normalize_for_insert P df) as [dfn|e|] eqn:Hn; try discriminate.
  pose proof (normalize_for_insert_rows P df dfn Hn) as Hrows.
  cbv zeta. rewrite (to_dict_records_length dfn), Hrows.
  destruct (_ =? 0); [discriminate|].
  rewrite !outcome_bind.
  destruct (outcome (match Load.create_client w with _ => _ end)); try discriminate.
  destruct (outcome (if Load.BATCH_SIZE w =? 0 then _ else _)); try discriminate.
  destruct (outcome (Load.insert_batches _ _ _ _ _ _ _)); try discriminate.
  intros E. injection E as <-. cbn [Load.total].
  split; [reflexivity|]. exists dfn. split; [reflexivity | exact Hrows].
Qed.

Lemma load_report_counts_every_staged_row_witness :
  Load.total {| Load.total := 5; Load.inserted := 4;
                Load.failed_batches :=
                  [{| Load.batch := 3; Load.size := 1; Load.error := Some "timeout" |}] |}
    = Z.of_nat (List.length (rows (Scenarios.staged 5))) /\
  exists dfn, Load._normalize_for_insert Scenarios.sample_parsers (Scenarios.staged 5) = Ok dfn /\
              List.length (rows dfn) = List.length (rows (Scenarios.staged 5)).
Proof.
  apply (load_report_counts_every_staged_row Scenarios.sample_parsers
           (Scenarios.world_batch3_rejected 5 2) "staged.csv" "air_quality_data").
  - reflexivity.
  - vm_compute. reflexivity.
Defined.

(** X15. When the staged file cannot be read or holds no row, the load
    leaves the sink alone: nothing is inserted, no report is returned. The
    load returns [None], unless the normalization of the empty frame
    raises. *)
Theorem load_without_rows_leaves_the_sink_alone P w path table :
  nothing_to_load (Load.read_csv w path) = true ->
  events (Load.load_to_supabase P w path table) = [] /\
  (outcome (Load.load_to_supabase P w path table) = Ok None \/
   exists df e, Load.read_csv w path = Ok df /\
                Load._normalize_for_insert P df = Raise e /\
                outcome (Load.load_to_supabase P w path table) = Raise e).
Proof.
  unfold Load.load_to_supabase, nothing_to_load.
  destruct (Load.read_csv w path) as [df|e|]; [| |discriminate].
  - destruct (rows df) eqn:Hr; [intros _|discriminate].
    destruct (Load._normalize_for_insert P df) as [dfn|e|] eqn:Hn.
    + apply normalize_for_insert_rows in Hn. rewrite Hr in Hn.
      cbv zeta. rewrite (to_dict_records_length dfn), Hn. cbn. auto.
    + cbn. split; [reflexivity|]. right. eauto.
    + exfalso. revert Hn. unfold Load._normalize_for_insert.
      destruct (1 <? _)%nat; [discriminate|].
      destruct (fold_left (Load.coerce_numeric P) Load.num_cols _) as [df4|e|] eqn:E4;
        try discriminate.
      clear - E4. revert E4. generalize Load.num_cols.
      generalize (assign "time"
        (fun r => match to_datetime P (cell "time" r) with
                  | Some t => VStr (isoformat P t)
                  | None => VNone
                  end)
        (fold_left Load.ensure_column Load.expected_cols
           (Load.rename (Load.renamed (Load.rename_map (Load.rename lower df)))
              (Load.rename lower df)))).
      intros d l. revert d. induction l as [|c l IH]; intros d; [discriminate|].
      cbn [fold_left]. unfold Load.coerce_numeric at 2.
      destruct (has_column c d); [|apply IH].
      destruct (1 <? Load.count_label c d)%nat; [|apply IH].
      rewrite coerce_numeric_raise. discriminate.
  - intros ->. cbn. auto.
Qed.

Lemma load_without_rows_leaves_the_sink_alone_witness :
  events (Load.load_to_supabase Scenarios.sample_parsers Scenarios.world_empty_staged
            "staged.csv" "air_quality_data") = [] /\
  (outcome (Load.load_to_supabase Scenarios.sample_parsers Scenarios.world_empty_staged
              "staged.csv" "air_quality_data") = Ok None \/
   exists df e, Load.read_csv Scenarios.world_empty_staged "staged.csv" = Ok df /\
                Load._normalize_for_insert Scenarios.sample_parsers df = Raise e /\
                outcome (Load.load_to_supabase Scenarios.sample_parsers
                           Scenarios.world_empty_staged "staged.csv" "air_quality_data")
                  = Raise e).
Proof.
  apply (load_without_rows_leaves_the_sink_alone Scenarios.sample_parsers
           Scenarios.world_empty_staged "staged.csv" "air_quality_data").
  reflexivity.
Defined.

Lemma range_step_backwards total B : B < 0 -> 0 < total -> Load.range_step 0 total B = [].
Proof.
  intros HB Ht. unfold Load.range_step.
  destruct (Z.ltb_spec 0 B); [lia|]. destruct (Z.ltb_spec B 0); [|lia].
  assert (Hq : (0 - total - B - 1) / - B <= 0).
  { apply Z.lt_succ_r. apply Z.div_lt_upper_bound; lia. }
  replace (Z.to_nat ((0 - total - B - 1) / - B)) with 0%nat by lia. reflexivity.
Qed.

(** X16. With a batch size that is not positive nothing reaches the
    sink. [BATCH_SIZE = 0] makes the load raise [ZeroDivisionError]; with
    a negative [BATCH_SIZE] the load returns a report that counts the rows
    and shows no insertion and no failed batch. *)
Theorem nonpositive_batch_size_loads_nothing P w path table df :
  Load.BATCH_SIZE w <= 0 ->
  Load.read_csv w path = Ok df ->
  rows df <> [] ->
  (exists dfn, Load._normalize_for_insert P df = Ok dfn) ->
  Load.create_client w = None ->
  Load.load_to_supabase P w path table =
  (if Load.BATCH_SIZE w =? 0
   then Raise (Exn "ZeroDivisionError" "division by zero")
   else Ok (Some {| Load.total := Z.of_nat (List.length (rows df));
                    Load.inserted := 0;
                    Load.failed_batches := [] |}),
   []).
Proof.
  intros HB Hread Hrows [dfn Hn] Hc. unfold Load.load_to_supabase. rewrite Hread, Hn, Hc.
  pose proof (normalize_for_insert_rows P df dfn Hn) as Hlen.
  cbv zeta. rewrite (to_dict_records_length dfn), Hlen.
  assert (Hpos : 0 < Z.of_nat (List.length (rows df))).
  { destruct (rows df); [congruence | cbn [List.length]; lia]. }
  destruct (Z.eqb_spec (Z.of_nat (List.length (rows df))) 0); [lia|].
  destruct (Z.eqb_spec (Load.BATCH_SIZE w) 0); [reflexivity|].
  rewrite range_step_backwards by lia. reflexivity.
Qed.

Lemma nonpositive_batch_size_loads_nothing_witness :
  Load.load_to_supabase Scenarios.sample_parsers (Cases.world_batch_size (-200))
    "staged.csv" "air_quality_data" =
  (Ok (Some {| Load.total := 5; Load.inserted := 0; Load.failed_batches := [] |}), []).
Proof.
  apply (nonpositive_batch_size_loads_nothing Scenarios.sample_parsers
           (Cases.world_batch_size (-200)) "staged.csv" "air_quality_data"
           (Scenarios.staged 5)).
  - simpl. lia.
  - reflexivity.
  - discriminate.
  - exists Scenarios.staged5_normalized. vm_compute. reflexivity.
  - reflexivity.
Defined.

(** ** load.py: the labels of the columns *)

Lemma lower_ascii_not_upper_A a : lower_ascii a <> "A"%char.
Proof. destruct a as [[] [] [] [] [] [] [] []]; vm_compute; discriminate. Qed.

Lemma lowered_has_no_upper_label df :
  has_column (upper "aqi_category") (Load.rename lower df) = false.
Proof.
  unfold has_column, Load.rename; cbn [columns].
  destruct (mem _ _) eqn:E; [|reflexivity].
  apply mem_In, in_map_iff in E. destruct E as ([|a s] & E & _); [discriminate E|].
  injection E as E _. now apply lower_ascii_not_upper_A in E.
Qed.

Lemma length_filter_map {A B} (p : B -> bool) (f : A -> B) l :
  List.length (filter p (map f l)) = List.length (filter (fun x => p (f x)) l).
Proof.
  induction l as [|x l IH]; [reflexivity|]. simpl. destruct (p (f x)); simpl; now rewrite IH.
Qed.

Lemma renamed_keeps_time d c :
  String.eqb "time" (Load.renamed (Load.rename_map d) c) = String.eqb "time" c.
Proof.
  unfold Load.renamed, Load.rename_map.
  destruct (negb (has_column "aqi_category" d) && has_column (upper "aqi_category") d),
           (negb (has_column "risk_flag" d)), (has_column "risk_level" d),
           (has_column "risk" d); cbn [app dict_get];
    repeat match goal with
           | |- context [String.eqb c ?k] =>
               destruct (String.eqb_spec c k) as [->|]; try reflexivity
           end;
    try reflexivity.
Qed.

Lemma count_label_ensure c cols : forall df,
  (Load.count_label c df <= Load.count_label c (fold_left Load.ensure_column cols df))%nat.
Proof.
  induction cols as [|col cols IH]; intros df; [apply Nat.le_refl|].
  cbn [fold_left]. eapply Nat.le_trans; [|apply IH].
  unfold Load.ensure_column. destruct (has_column col df) eqn:E; [apply Nat.le_refl|].
  unfold Load.count_label, assign; cbn [columns]. rewrite E, filter_app, length_app. lia.
Qed.

Lemma normalize_refuses_two_times P df :
  (1 < count_lowered "time" df)%nat ->
  Load._normalize_for_insert P df
  = Raise (Exn "ValueError" "cannot assemble with duplicate keys").
Proof.
  intros H. unfold Load._normalize_for_insert.
  match goal with |- context [(1 <? ?n)%nat] => assert (Hn : (1 < n)%nat) end.
  { eapply Nat.lt_le_trans; [|apply count_label_ensure].
    unfold Load.count_label, Load.rename at 1; cbn [columns].
    rewrite length_filter_map.
    erewrite filter_ext by (intros c; apply renamed_keeps_time).
    unfold Load.rename; cbn [columns]. rewrite length_filter_map. exact H. }
  apply Nat.ltb_lt in Hn. rewrite Hn. reflexivity.
Qed.

(** X17. A staged file with two columns whose labels are [time] up to
    the case of the letters cannot be loaded: the normalization raises
    [ValueError], the load raises it on, and nothing is inserted. *)
Theorem two_time_columns_make_the_load_raise P w path table df :
  Load.read_csv w path = Ok df ->
  (1 < count_lowered "time" df)%nat ->
  Load.load_to_supabase P w path table
  = (Raise (Exn "ValueError" "cannot assemble with duplicate keys"), []).
Proof.
  intros Hread H. unfold Load.load_to_supabase.
  rewrite Hread, (normalize_refuses_two_times P df H). reflexivity.
Qed.

Lemma two_time_columns_make_the_load_raise_witness :
  Load.load_to_supabase Scenarios.sample_parsers Cases.world_two_times
    "staged.csv" "air_quality_data"
  = (Raise (Exn "ValueError" "cannot assemble with duplicate keys"), []).
Proof.
  apply (two_time_columns_make_the_load_raise Scenarios.sample_parsers
           Cases.world_two_times "staged.csv" "air_quality_data" Cases.staged_two_times).
  - reflexivity.
  - vm_compute. lia.
Defined.

(** X18. The labels under which the columns of a staged file reach the
    records: every label is put in lower case, and [risk_level] and [risk]
    become [risk_flag] unless the file has a [risk_flag] column. The
    renaming of [AQI_Category] never applies, since no label is in upper
    case once the labels are lowered; that column is [aqi_category] by its
    lower case alone. *)
Theorem staged_labels_are_lowered_and_risk_renamed df :
  let d := Load.rename lower df in
  columns (Load.rename (Load.renamed (Load.rename_map d)) d)
    = map (sink_label df) (columns df) /\
  dict_get "AQI_Category" (Load.rename_map d) = None /\
  sink_label df "AQI_Category" = "aqi_category" /\
  (count_lowered "risk_flag" df = 0%nat -> sink_label df "Risk_Level" = "risk_flag").
Proof.
  intros d.
  assert (Hflag : has_column "risk_flag" d = mem "risk_flag" (map lower (columns df)))
    by reflexivity.
  assert (Hhas : forall c, In c (columns df) -> has_column (lower c) d = true).
  { intros c Hc. apply mem_In. unfold d, Load.rename; cbn [columns]. now apply in_map. }
  assert (Hmap : Load.rename_map d =
            if negb (has_column "risk_flag" d)
            then (if has_column "risk_level" d then [("risk_level", "risk_flag")] else [])
                 ++ (if has_column "risk" d then [("risk", "risk_flag")] else [])
            else []).
  { unfold Load.rename_map. unfold d at 2. rewrite lowered_has_no_upper_label.
    rewrite andb_false_r. reflexivity. }
  split; [|split; [|split]].
  - unfold Load.rename at 1; cbn [columns]. unfold d at 2, Load.rename; cbn [columns].
    rewrite map_map. apply map_ext_in. intros c Hc.
    unfold sink_label, Load.renamed. rewrite Hmap, Hflag.
    destruct (mem "risk_flag" (map lower (columns df))); cbn [negb andb]; [reflexivity|].
    destruct (String.eqb_spec (lower c) "risk_level") as [E|N1].
    + specialize (Hhas c Hc). rewrite E in Hhas |- *. rewrite Hhas. reflexivity.
    + destruct (String.eqb_spec (lower c) "risk") as [E|N2].
      * specialize (Hhas c Hc). rewrite E in Hhas |- *. rewrite Hhas.
        destruct (has_column "risk_level" d); reflexivity.
      * cbn [orb].
        destruct (has_column "risk_level" d), (has_column "risk" d); cbn [app dict_get];
          repeat match goal with
                 | |- context [String.eqb (lower c) ?k] =>
                     destruct (String.eqb_spec (lower c) k); [contradiction|]
                 end; reflexivity.
  - rewrite Hmap.
    destruct (negb _), (has_column "risk_level" d), (has_column "risk" d); reflexivity.
  - unfold sink_label. rewrite andb_false_r. reflexivity.
  - intros H0. unfold sink_label.
    assert (Hm : mem "risk_flag" (map lower (columns df)) = false).
    { destruct (mem _ _) eqn:E; [|reflexivity]. exfalso.
      apply mem_In, in_map_iff in E. destruct E as (c & E & Hc).
      unfold count_lowered in H0. apply length_zero_iff_nil in H0.
      assert (Hin : In c (filter (fun l => String.eqb "risk_flag" (lower l)) (columns df))).
      { apply filter_In. split; [exact Hc|]. rewrite E. reflexivity. }
      rewrite H0 in Hin. destruct Hin. }
    rewrite Hm. reflexivity.
Qed.

(** ** load.py and extract.py: two instances *)

Lemma inserted_records_are_canonical_witness :
  keys Cases.record_without_hour = Load.expected_cols /\
  Forall (fun kv =>
            is_float_nan (snd kv) = false /\
            (isna (snd kv) = true ->
             snd kv = VNone \/ (fst kv = "hour" /\ snd kv = VNA)))
         Cases.record_without_hour.
Proof.
  apply (inserted_records_are_canonical Scenarios.sample_parsers
           Scenarios.world_without_hour "staged.csv" "air_quality_data"
           Scenarios.staged_without_hour eq_refl)
    with (t := "air_quality_data") (k := 1) (a := 1)
         (batch := [Cases.record_without_hour]).
  - intros r [<-|[]]. reflexivity.
  - intros r [<-|[]]. repeat constructor.
  - vm_compute. left. reflexivity.
  - left. reflexivity.
Defined.

Lemma fetch_each_one_outcome_per_city_witness :
  exists results,
    outcome (Extract.fetch_each Scenarios.world_all_sources_fail Extract.DEFAULT_CITIES)
      = Ok results /\
    Forall2 (fun c d => outcome_for (fst c) d) Extract.DEFAULT_CITIES results.
Proof.
  apply (fetch_each_one_outcome_per_city Scenarios.world_all_sources_fail
           Extract.DEFAULT_CITIES).
  split; [|split].
  - intros lat lon. simpl. intros H. discriminate H.
  - intros path. reflexivity.
  - intros city k e H. discriminate H.
Defined.

(** ** transform.py: the files that are passed over, and the ones that
    make it fail *)

Lemma and_then_proper {A B} (r : result A) (k : A -> result B) :
  proper r -> (forall a, proper (k a)) -> proper (and_then r k).
Proof. destruct r; simpl; auto. Qed.

Lemma for_each_proper {A B} (body : A -> result (list B)) xs :
  (forall x, proper (body x)) -> proper (for_each body xs).
Proof.
  intros H. induction xs as [|x xs IH]; [exact I|].
  cbn [for_each]. apply and_then_proper; [apply H|]. intros ys.
  apply and_then_proper; [exact IH|]. intros zs. exact I.
Qed.

Lemma json_in_proper key j : proper (json_in key j).
Proof. destruct j; simpl; auto. Qed.

Lemma json_get_proper key default j : proper (json_get key default j).
Proof. destruct j; simpl; auto. Qed.

Lemma json_item_proper key j : proper (json_item key j).
Proof. destruct j; simpl; auto. destruct (dict_get key fields); simpl; auto. Qed.

Lemma json_iter_proper j : proper (json_iter j).
Proof. destruct j; simpl; auto. Qed.

Lemma measurement_row_proper city m : proper (Transform.measurement_row city m).
Proof.
  unfold Transform.measurement_row.
  repeat first
    [ apply and_then_proper; [|intros ?]
    | apply json_get_proper
    | match goal with |- proper (if ?b then _ else _) => destruct b end
    | exact I ].
Qed.

Lemma station_rows_proper city station : proper (Transform.station_rows city station).
Proof.
  unfold Transform.station_rows.
  apply and_then_proper; [apply json_in_proper|]. intros [|]; [|exact I].
  apply and_then_proper; [apply json_item_proper|]. intros ms.
  apply and_then_proper; [apply json_iter_proper|]. intros l.
  apply for_each_proper, measurement_row_proper.
Qed.

Lemma flatten_openaq_proper P payload city : proper (Transform.flatten_openaq P payload city).
Proof.
  unfold Transform.flatten_openaq.
  apply and_then_proper; [apply json_in_proper|]. intros [|]; [|exact I].
  apply and_then_proper; [apply json_item_proper|]. intros results.
  apply and_then_proper; [apply json_iter_proper|]. intros stations.
  apply and_then_proper; [apply for_each_proper, station_rows_proper|]. intros rs.
  destruct (is_empty _); exact I.
Qed.

Lemma frame_of_columns_proper d : proper (Transform.frame_of_columns d).
Proof.
  unfold Transform.frame_of_columns. destruct d; [exact I|].
  destruct (Transform.list_lengths _) as [|n others]; [reflexivity|].
  destruct (forallb _ _); [exact I | reflexivity].
Qed.

Lemma frame_of_proper P data : proper (Transform.frame_of P data).
Proof.
  assert (Hn : proper (match frame_of_nested P data with
                       | inl df => Ok df
                       | inr c => Raise (data_exn c)
                       end)).
  { destruct (frame_of_nested P data) as [df|[| |]]; [exact I | reflexivity..]. }
  unfold Transform.frame_of. destruct data; try reflexivity; try exact I.
  - destruct items; [exact I|]. destruct (forallb _ _); [exact I | exact Hn].
  - destruct (existsb _ _); [exact Hn | apply frame_of_columns_proper].
Qed.

Lemma flatten_open_meteo_proper P payload city :
  proper (Transform.flatten_open_meteo P payload city).
Proof.
  unfold Transform.flatten_open_meteo.
  apply and_then_proper; [apply json_in_proper|]. intros [|]; [|exact I].
  apply and_then_proper; [apply json_item_proper|]. intros data.
  apply and_then_proper; [apply frame_of_proper|]. intros df.
  destruct (has_column _ _); exact I.
Qed.

Lemma detect_api_format_proper payload : proper (Transform.detect_api_format payload).
Proof.
  unfold Transform.detect_api_format.
  apply and_then_proper; [apply json_in_proper|]. intros [|]; [exact I|].
  apply and_then_proper; [apply json_in_proper|]. intros [|]; exact I.
Qed.

Lemma flatten_file_proper P file : proper (Transform.flatten_file P file).
Proof.
  unfold Transform.flatten_file. destruct (snd file) as [payload|]; [|exact I].
  apply and_then_proper; [apply detect_api_format_proper|]. intros fmt.
  apply and_then_proper.
  - destruct fmt; [| |exact I]; (apply and_then_proper; [|intros ?; exact I]).
    + apply flatten_openaq_proper.
    + apply flatten_open_meteo_proper.
  - intros [df|]; [|exact I]. destruct (is_empty df); exact I.
Qed.

Lemma add_features_proper P df : proper (Transform.add_features P df).
Proof.
  unfold Transform.add_features.
  match goal with |- context [if ?c then _ else _] => destruct c end; [exact I | reflexivity].
Qed.

Lemma transform_proper P w : proper (outcome (Transform.transform P w)).
Proof.
  unfold Transform.transform. cbv zeta.
  set (Q := at_clock P (Transform.wall_clock w)).
  pose proof (for_each_proper (Transform.flatten_file Q) (Transform.raw_files w)
                (flatten_file_proper Q)) as H.
  destruct (for_each _ _) as [all_data|e|]; [|exact H|exact H].
  destruct all_data as [|d l]; [exact I|].
  pose proof (add_features_proper Q (Transform.concat (d :: l))) as H'.
  destruct (Transform.add_features _ _); [exact I | exact H' | exact H'].
Qed.

Lemma and_then_Ok {A} (r : result A) : and_then r (fun a => Ok a) = r.
Proof. destruct r; reflexivity. Qed.

Lemma flatten_file_skipped P file :
  skipped file = true -> Transform.flatten_file P file = Ok [].
Proof.
  unfold skipped, Transform.flatten_file. destruct (snd file) as [payload|]; [|reflexivity].
  destruct (Transform.detect_api_format payload) as [[| |]|e|]; try discriminate.
  reflexivity.
Qed.

Lemma for_each_without_skipped P files :
  for_each (Transform.flatten_file P) (filter (fun f => negb (skipped f)) files)
  = for_each (Transform.flatten_file P) files.
Proof.
  induction files as [|f files IH]; [reflexivity|].
  cbn [filter for_each]. destruct (skipped f) eqn:E; cbn [negb].
  - rewrite (flatten_file_skipped P f E). cbn [and_then app].
    rewrite IH. symmetry. apply and_then_Ok.
  - cbn [for_each]. now rewrite IH.
Qed.

(** X19. [transform] passes over the raw files that cannot be read and
    those of an unknown format: its result and the file it writes are the
    same as if those files were not there. When every raw file is of that
    kind it returns without writing anything. *)
Theorem unusable_raw_files_do_not_count P w :
  Transform.transform P w = Transform.transform P (without_skipped w) /\
  (forallb skipped (Transform.raw_files w) = true ->
   Transform.transform P w = (Ok tt, [])).
Proof.
  split.
  - unfold Transform.transform, without_skipped;
      cbn [Transform.raw_files Transform.wall_clock].
    now rewrite for_each_without_skipped.
  - intros H. unfold Transform.transform. cbv zeta.
    rewrite <- for_each_without_skipped.
    replace (filter (fun f => negb (skipped f)) (Transform.raw_files w))
      with (@nil (string * option json)); [reflexivity|].
    symmetry. induction (Transform.raw_files w) as [|f l IH]; [reflexivity|].
    cbn [forallb] in H. apply andb_true_iff in H. destruct H as [Hf Hl].
    cbn [filter]. rewrite Hf. cbn [negb]. auto.
Qed.

Lemma for_each_raises {A B} (body : A -> result (list B)) xs x e :
  (forall y, proper (body y)) -> In x xs -> body x = Raise e ->
  exists e', for_each body xs = Raise e' /\ is_Exception e' = true.
Proof.
  intros Hp Hin Hx. induction xs as [|y xs IH]; [destruct Hin|].
  cbn [for_each]. pose proof (Hp y) as Hy.
  destruct (body y) as [ys|e0|] eqn:Ey; [| |destruct Hy].
  - destruct Hin as [->|Hin]; [congruence|].
    destruct (IH Hin) as (e' & -> & He'). exists e'. split; [reflexivity | exact He'].
  - exists e0. split; [reflexivity | exact Hy].
Qed.

(** X20. Only the parsing of a raw file is guarded. A raw file whose
    content is a JSON number, boolean or null makes [transform] raise (the
    membership test of [detect_api_format] refuses it): no staged file is
    written, whatever the other raw files hold. *)
Theorem scalar_payload_aborts_the_transform P w name payload :
  In (name, Some payload) (Transform.raw_files w) ->
  scalar payload = true ->
  exists e, Transform.transform P w = (Raise e, []) /\ is_Exception e = true.
Proof.
  intros Hin Hs.
  assert (Hf : exists e, Transform.flatten_file (at_clock P (Transform.wall_clock w))
                           (name, Some payload) = Raise e).
  { unfold Transform.flatten_file, Transform.detect_api_format. cbn [snd fst].
    destruct payload; try discriminate Hs; simpl; eauto. }
  destruct Hf as [e0 Hf].
  destruct (for_each_raises (Transform.flatten_file (at_clock P (Transform.wall_clock w)))
              _ _ e0 (flatten_file_proper _) Hin Hf) as (e & He & Hexc).
  exists e. unfold Transform.transform. cbv zeta. rewrite He.
  split; [reflexivity | exact Hexc].
Qed.

Lemma scalar_payload_aborts_the_transform_witness :
  exists e, Transform.transform Scenarios.sample_parsers Cases.world_with_scalar_file
            = (Raise e, []) /\ is_Exception e = true.
Proof.
  apply (scalar_payload_aborts_the_transform Scenarios.sample_parsers
           Cases.world_with_scalar_file "notes.json" (JInt 5)).
  - right. left. reflexivity.
  - reflexivity.
Defined.

(** ** run_pipeline.py: imports, fallbacks and what the steps return *)

Section Unseen.
Context {X : Type} (view : event -> list X).

Lemma unseen_ret {A} (a : A) : unseen view (ret a).
Proof. reflexivity. Qed.

Lemma unseen_raise {A} (e : exn) : unseen view (@raise A e).
Proof. reflexivity. Qed.

Lemma unseen_bind {A B} (m : io A) (k : A -> io B) :
  unseen view m -> (forall a, unseen view (k a)) -> unseen view (bind m k).
Proof.
  unfold unseen. intros Hm Hk. rewrite events_bind, flat_map_app, Hm.
  destruct (outcome m); simpl; auto.
Qed.

Lemma unseen_try_except {A} (m : io A) (h : exn -> io A) :
  unseen view m -> (forall e, unseen view (h e)) -> unseen view (try_except m h).
Proof.
  unfold unseen, try_except. intros Hm Hh.
  destruct m as [[a|e|] t]; simpl in *; auto.
  destruct (is_Exception e); simpl; auto.
  specialize (Hh e). destruct (h e) as [r t']. simpl in *.
  now rewrite flat_map_app, Hm, Hh.
Qed.

Lemma unseen_try_except_class {A} cls (m h : io A) :
  unseen view m -> unseen view h -> unseen view (try_except_class cls m h).
Proof.
  unfold unseen, try_except_class. intros Hm Hh.
  destruct m as [[a|e|] t]; simpl in *; auto.
  destruct (String.eqb (exn_class e) cls); simpl; auto.
  destruct h as [r t']. simpl in *. now rewrite flat_map_app, Hm, Hh.
Qed.

End Unseen.

Ltac unseen_step :=
  first
    [ apply unseen_ret | apply unseen_raise | reflexivity
    | apply unseen_bind; [|intros ?]
    | apply unseen_try_except; [|intros ?]
    | apply unseen_try_except_class
    | match goal with |- unseen _ (match ?x with _ => _ end) => destruct x end ].

Ltac unseen_auto := repeat unseen_step.

Lemma no_script_transform P w : unseen script_of (Transform.transform P w).
Proof. unfold Transform.transform. unseen_auto. Qed.

Lemma no_script_insert_with_retries w t k b : forall fuel st,
  unseen script_of (Load.insert_with_retries fuel w t k b st).
Proof.
  induction fuel as [|fuel IH]; intros st; cbn [Load.insert_with_retries];
    destruct ((Load.attempt st <=? Load.RETRY_COUNT w) && negb (Load.success st));
    try reflexivity.
  apply unseen_bind; [reflexivity|]. intros _.
  destruct (Load.insert w k (Load.attempt st + 1) b) as [e|error].
  - destruct (is_Exception e); [|reflexivity].
    apply unseen_bind; [unfold Load.backoff; unseen_auto | intros _; apply IH].
  - destruct (Load.response_error error); [|apply IH].
    apply unseen_bind; [unfold Load.backoff; unseen_auto | intros _; apply IH].
Qed.

Lemma no_script_insert_batches P w t records : forall starts ins failed,
  unseen script_of (Load.insert_batches P w t records starts ins failed).
Proof.
  induction starts as [|i starts IH]; intros ins failed; [reflexivity|].
  cbn [Load.insert_batches].
  apply unseen_bind; [apply no_script_insert_with_retries | intros st; apply IH].
Qed.

Lemma no_script_load_to_supabase P w path table :
  unseen script_of (Load.load_to_supabase P w path table).
Proof.
  unfold Load.load_to_supabase.
  unseen_auto; apply no_script_insert_batches.
Qed.

Lemma try_import_result w name :
  Pipeline.try_import w name =
  match Pipeline.import_module w name with
  | None => (Ok true, [])
  | Some e => if is_Exception e then (Ok false, []) else (Raise e, [])
  end.
Proof.
  unfold Pipeline.try_import.
  destruct (Pipeline.import_module w name) as [e|]; simpl; [|reflexivity].
  destruct (is_Exception e); reflexivity.
Qed.

(** X21. [run_load] has no working fallback. It never runs load.py as a
    sub-process: where the runner would, it raises first. What it
    returns, if it returns, is what [load_to_supabase] of the imported
    module returned. *)
Theorem run_load_never_runs_the_script w staged :
  scripts_run (events (Pipeline.run_load w staged)) = [] /\
  forall res, outcome (Pipeline.run_load w staged) = Ok res ->
    exists p, staged = Some p /\ Pipeline.import_module w "load" = None /\
      (outcome (Load.load_to_supabase (Pipeline.pandas w) (Pipeline.load_world w)
                  p "air_quality_data") = Ok res \/
       outcome (Load.load_to_supabase (Pipeline.pandas w) (Pipeline.load_world w)
                  (Pipeline.STAGED_DEFAULT w) "air_quality_data") = Ok res).
Proof.
  split.
  - unfold Pipeline.run_load. rewrite events_emit_bind.
    change (scripts_run (EvStage Loading :: ?l)) with (scripts_run l).
    match goal with |- scripts_run (events ?m) = [] => change (unseen script_of m) end.
    destruct staged as [p|]; [|reflexivity].
    rewrite try_import_result.
    unseen_auto; apply no_script_load_to_supabase.
  - intros res. unfold Pipeline.run_load. rewrite outcome_emit_bind.
    destruct staged as [p|]; [|discriminate].
    rewrite try_import_result.
    destruct (Pipeline.import_module w "load") as [e|].
    + destruct (is_Exception e); cbn; [|discriminate].
      destruct (Pipeline.script_exists w "load.py"); discriminate.
    + intros H. exists p. split; [reflexivity|]. split; [reflexivity|].
      revert H. unfold try_except_class, try_except, bind, ret, raise, outcome.
      destruct (Load.load_to_supabase _ _ p _) as [[r|e|] t]; cbn.
      * intros H. injection H as <-. now left.
      * destruct (String.eqb (exn_class e) "TypeError").
        -- destruct (Load.load_to_supabase _ _ (Pipeline.STAGED_DEFAULT w) _)
             as [[r|e'|] t']; cbn.
           ++ intros H. injection H as <-. now right.
           ++ destruct (is_Exception e'); cbn; [|discriminate].
              destruct (Pipeline.script_exists w "load.py"); discriminate.
           ++ discriminate.
        -- cbn. destruct (is_Exception e); cbn; [|discriminate].
           destruct (Pipeline.script_exists w "load.py"); discriminate.
      * discriminate.
Qed.

Lemma run_load_without_module w p e :
  Pipeline.import_module w "load" = Some e ->
  outcome (Pipeline.run_load w (Some p)) =
  Raise (if is_Exception e
         then if Pipeline.script_exists w "load.py"
              then Exn "NameError" "name 'os' is not defined"
              else Pipeline.runtime_error "No load method found and load.py missing or failed."
         else e).
Proof.
  intros H. unfold Pipeline.run_load. rewrite outcome_emit_bind, try_import_result, H.
  destruct (is_Exception e); cbn; [|reflexivity].
  destruct (Pipeline.script_exists w "load.py"); reflexivity.
Qed.

(** X22. When the module load cannot be imported, the run ends at the
    load step and the analysis is never started. An import error is
    reported as the failure of the load step. An exit at import time
    (load.py ends the interpreter with [SystemExit] when the credentials of
    the sink are not set) is caught nowhere: it ends the whole run. *)
Theorem failed_import_of_load_ends_the_run w p e :
  (exists results,
     outcome (Pipeline.run_extract w) = Ok results /\
     outcome (Pipeline.run_transform w results) = Ok (Some p)) ->
  Pipeline.import_module w "load" = Some e ->
  outcome (Pipeline.run_full_pipeline w)
    = (if is_Exception e then Ok (Pipeline.Step_failed Loading) else Raise e) /\
  stages_run (events (Pipeline.run_full_pipeline w)) = [Extracting; Transforming; Loading].
Proof.
  intros (results & E1 & E2) Hi. unfold Pipeline.run_full_pipeline.
  rewrite !guarded_outcome, !guarded_events, !stages_run_app, run_extract_stage, E1.
  rewrite outcome_emit_bind, events_emit_bind, !guarded_outcome, !guarded_events.
  change (stages_run (EvSleep 1 :: ?l)) with (stages_run l).
  rewrite !stages_run_app, run_transform_stage, E2.
  rewrite outcome_emit_bind, events_emit_bind, !guarded_outcome, !guarded_events.
  change (stages_run (EvSleep 1 :: ?l)) with (stages_run l).
  rewrite !stages_run_app, run_load_stage, (run_load_without_module w p e Hi).
  cbn [step_failure]. split; [|reflexivity].
  destruct (is_Exception e) eqn:He; [|now rewrite He].
  destruct (Pipeline.script_exists w "load.py"); reflexivity.
Qed.

Lemma failed_import_of_load_ends_the_run_witness :
  outcome (Pipeline.run_full_pipeline Cases.world_without_credentials)
    = Raise (Exn "SystemExit"
               "SUPABASE_URL and SUPABASE_KEY must be set in environment (.env)") /\
  stages_run (events (Pipeline.run_full_pipeline Cases.world_without_credentials))
    = [Extracting; Transforming; Loading].
Proof.
  apply (failed_import_of_load_ends_the_run Cases.world_without_credentials
           "/home/a/etl/data/staged/air_quality_transformed.csv"
           (Exn "SystemExit"
              "SUPABASE_URL and SUPABASE_KEY must be set in environment (.env)")).
  - eexists. split; vm_compute; reflexivity.
  - reflexivity.
Defined.

(** X23. What [run_transform] returns does not depend on what the
    transformation did. When the module can be imported (or its import
    fails with an ordinary exception), the step runs transform.py as a
    sub-process if the script exists, also after the imported function has
    run, and returns the newest CSV file of the staged directory ([None]
    when there is none); it raises only when the script exits with a
    non-zero code. *)
Theorem run_transform_returns_the_newest_staged_file w results :
  match Pipeline.import_module w "transform" with
  | Some e => is_Exception e
  | None => true
  end = true ->
  outcome (Pipeline.run_transform w results) =
    (if Pipeline.script_exists w "transform.py"
        && negb (Pipeline.subprocess_returncode w "transform.py" =? 0)
     then Raise (Pipeline.runtime_error "transform.py exited with a non-zero code")
     else Ok (last (map Some (Pipeline.staged_listing w)) None)) /\
  scripts_run (events (Pipeline.run_transform w results)) =
    (if Pipeline.script_exists w "transform.py" then ["transform.py"] else []).
Proof.
  intros Hi.
  pose proof (transform_proper (Pipeline.pandas w) (Pipeline.transform_world w)) as Hp.
  pose proof (no_script_transform (Pipeline.pandas w) (Pipeline.transform_world w)) as Hs.
  unfold unseen in Hs.
  unfold Pipeline.run_transform, Pipeline.try_import, Pipeline.run_subprocess, scripts_run.
  destruct (Transform.transform _ _) as [[[]|e|] t]; cbn [outcome events fst snd proper] in Hp, Hs;
    [| |destruct Hp].
  all: destruct (Pipeline.import_module w "transform") as [e0|];
       [cbn [try_except raise]; rewrite Hi|].
  all: unfold try_except, try_except_class, bind, ret, raise, emit, outcome, events;
       cbv beta iota zeta;
       destruct (filter Pipeline.has_raw_path results);
       destruct (Pipeline.script_exists w "transform.py");
       destruct (Pipeline.subprocess_returncode w "transform.py" =? 0);
       cbn [fst snd andb negb app exn_class type_error String.eqb Ascii.eqb Bool.eqb
            is_Exception mem existsb];
       try destruct (String.eqb (exn_class e) "TypeError");
       rewrite ?Hp;
       cbn [fst snd andb negb app flat_map script_of];
       rewrite ?flat_map_app, ?Hs;
       cbn [fst snd andb negb app flat_map script_of];
       rewrite ?flat_map_app, ?Hs;
       split; reflexivity.
Qed.

Lemma run_transform_returns_the_newest_staged_file_witness :
  outcome (Pipeline.run_transform Scenarios.world_nothing_usable []) =
    Ok (Some "/home/a/etl/data/staged/air_quality_transformed.csv") /\
  scripts_run (events (Pipeline.run_transform Scenarios.world_nothing_usable []))
    = ["transform.py"].
Proof.
  apply (run_transform_returns_the_newest_staged_file Scenarios.world_nothing_usable []).
  reflexivity.
Defined.

(** X24. When the imported [fetch_all] raises, [run_extract] runs
    extract.py as a sub-process after it, so the requests are made a second
    time; the step then returns the files of the raw directory, those of
    earlier runs included, and raises when the script is missing or exits
    with a non-zero code. *)
Theorem failed_fetch_is_repeated_by_the_script w e :
  Pipeline.import_module w "extract" = None ->
  outcome (Extract.fetch_all (Pipeline.extract_world w)) = Raise e ->
  is_Exception e = true ->
  events (Pipeline.run_extract w) =
    EvStage Extracting :: events (Extract.fetch_all (Pipeline.extract_world w))
    ++ (if Pipeline.script_exists w "extract.py" then [EvSubprocess "extract.py"] else []) /\
  outcome (Pipeline.run_extract w) =
    if Pipeline.script_exists w "extract.py"
    then if Pipeline.subprocess_returncode w "extract.py" =? 0
         then Ok (map (fun p => [("raw_path", VStr p)]) (Pipeline.raw_listing w))
         else Raise (Pipeline.runtime_error "extract.py exited with a non-zero code")
    else Raise (Pipeline.runtime_error
                  "No extract method found and extract.py missing or failed.").
Proof.
  intros Hi Hf He.
  unfold Pipeline.run_extract, Pipeline.try_import, Pipeline.run_subprocess.
  rewrite Hi.
  destruct (Extract.fetch_all (Pipeline.extract_world w)) as [[r|e'|] t];
    cbn [outcome fst] in Hf; try discriminate Hf.
  injection Hf as ->.
  unfold try_except, bind, ret, raise, emit, outcome, events.
  cbv beta iota zeta. rewrite He. cbv beta iota zeta.
  destruct (Pipeline.script_exists w "extract.py");
    [destruct (Pipeline.subprocess_returncode w "extract.py" =? 0)|];
    cbn [fst snd app]; rewrite ?app_nil_r; split; reflexivity.
Qed.

Lemma failed_fetch_is_repeated_by_the_script_witness :
  events (Pipeline.run_extract Cases.world_fetch_raises) =
    EvStage Extracting
    :: events (Extract.fetch_all (Pipeline.extract_world Cases.world_fetch_raises))
    ++ [EvSubprocess "extract.py"] /\
  outcome (Pipeline.run_extract Cases.world_fetch_raises) =
    Ok [[("raw_path", VStr "/home/a/etl/data/raw/delhi_raw_20240101T000000Z.json")]].
Proof.
  apply (failed_fetch_is_repeated_by_the_script Cases.world_fetch_raises
           (Exn "ConnectionError" "Max retries exceeded with url")).
  - reflexivity.
  - vm_compute. reflexivity.
  - reflexivity.
Defined.

(** ** extract.py and transform.py: the city in the name of a raw file *)

Lemma string_app_assoc (a b c : string) : ((a ++ b) ++ c = a ++ (b ++ c))%string.
Proof. induction a as [|x a IH]; simpl; [reflexivity | now rewrite IH]. Qed.

Lemma string_app_nil_r (a : string) : (a ++ EmptyString)%string = a.
Proof. induction a as [|x a IH]; simpl; [reflexivity | now rewrite IH]. Qed.

Lemma rev_string_app s : forall acc,
  Transform.rev_string s acc = (Transform.rev_string s EmptyString ++ acc)%string.
Proof.
  induction s as [|c s IH]; intros acc; [reflexivity|].
  cbn [Transform.rev_string]. rewrite (IH (String c acc)), (IH (String c EmptyString)).
  rewrite string_app_assoc. reflexivity.
Qed.

Lemma rev_string_append a : forall b acc,
  Transform.rev_string (a ++ b) acc = Transform.rev_string b (Transform.rev_string a acc).
Proof. induction a as [|c a IH]; intros b acc; simpl; [reflexivity | apply IH]. Qed.

Lemma rev_string_twice s : forall acc acc',
  Transform.rev_string (Transform.rev_string s acc) acc'
  = Transform.rev_string acc (s ++ acc')%string.
Proof.
  induction s as [|c s IH]; intros acc acc'; [reflexivity|].
  cbn [Transform.rev_string]. rewrite IH. reflexivity.
Qed.

Lemma no_char_append c a b : no_char c (a ++ b) = no_char c a && no_char c b.
Proof.
  induction a as [|x a IH]; simpl; [reflexivity|]. rewrite IH. apply andb_assoc.
Qed.

Lemma no_char_rev c s : no_char c (Transform.rev_string s EmptyString) = no_char c s.
Proof.
  induction s as [|x s IH]; [reflexivity|].
  cbn [Transform.rev_string]. rewrite rev_string_app, no_char_append, IH.
  simpl. rewrite andb_true_r. apply andb_comm.
Qed.

Lemma stem_rev_seen s : Transform.stem_rev s true = s.
Proof. induction s as [|c s IH]; simpl; [reflexivity | now rewrite IH]. Qed.

Lemma stem_rev_suffix q rest :
  no_char "."%char q = true ->
  Transform.stem_rev (q ++ String "."%char rest) false = rest.
Proof.
  induction q as [|c q IH]; simpl.
  - intros _. apply stem_rev_seen.
  - intros H. apply andb_true_iff in H. destruct H as [Hc Hq].
    apply negb_true_iff in Hc. rewrite Hc. now apply IH.
Qed.

Lemma substring_at_dot p q :
  substring (String.length p) 1 (p ++ String "."%char q) = String "."%char EmptyString.
Proof.
  induction p as [|c p IH]; simpl; [|exact IH]. destruct q; reflexivity.
Qed.

Lemma stem_of_suffixed p q :
  no_char "."%char q = true -> Transform.stem (p ++ String "."%char q) = p.
Proof.
  intros Hq. unfold Transform.stem.
  destruct (String.index 0 "." (p ++ String "."%char q)) eqn:E.
  - rewrite rev_string_append. cbn [Transform.rev_string].
    rewrite (rev_string_app q (String "."%char _)).
    rewrite stem_rev_suffix by (now rewrite no_char_rev).
    rewrite rev_string_twice. cbn [Transform.rev_string]. apply string_app_nil_r.
  - exfalso.
    apply (index_correct3 0 (String.length p) "." (p ++ String "."%char q) E);
      [discriminate | apply Nat.le_0_l | apply substring_at_dot].
Qed.

Lemma before_prefix sep s t :
  no_char sep s = true -> Transform.before sep (s ++ String sep t) = s.
Proof.
  induction s as [|c s IH]; simpl.
  - intros _. now rewrite Ascii.eqb_refl.
  - intros H. apply andb_true_iff in H. destruct H as [Hc Hs].
    apply negb_true_iff in Hc. rewrite Hc. now rewrite IH.
Qed.

Lemma lower_ascii_underscore a :
  Ascii.eqb (lower_ascii a) "_"%char = Ascii.eqb a "_"%char.
Proof. destruct a as [[] [] [] [] [] [] [] []]; reflexivity. Qed.

Lemma no_underscore_lower s : no_char "_"%char (lower s) = no_char "_"%char s.
Proof.
  induction s as [|c s IH]; [reflexivity|]. simpl. now rewrite lower_ascii_underscore, IH.
Qed.

(** X25. The city that [transform] reads off the name of a raw file is
    the city [save_raw] wrote it for, in lower case, provided the name of
    the city holds no underscore (and the time stamp no dot, as the format
    of [ts] guarantees). *)
Theorem saved_file_names_its_city w city payload :
  no_char "_"%char city = true ->
  no_char "."%char (Extract.utcnow w city) = true ->
  Extract.write_file w (Extract.RAW_DIR w ++ "/" ++ raw_file_name w city)%string = None ->
  Extract.save_raw w city payload =
    (Ok (Extract.RAW_DIR w ++ "/" ++ raw_file_name w city)%string,
     [EvSaveRaw (Extract.RAW_DIR w ++ "/" ++ raw_file_name w city)%string payload]) /\
  Transform.city_of_file (raw_file_name w city) = lower city.
Proof.
  intros Hc Ht Hw. split.
  - unfold Extract.save_raw. fold (raw_file_name w city). rewrite Hw. reflexivity.
  - unfold Transform.city_of_file, raw_file_name.
    replace (lower city ++ "_raw_" ++ Extract.utcnow w city ++ ".json")%string
      with ((lower city ++ "_raw_" ++ Extract.utcnow w city) ++ String "."%char "json")%string
      by (rewrite !string_app_assoc; reflexivity).
    rewrite stem_of_suffixed by reflexivity.
    apply (before_prefix "_"%char (lower city) ("raw_" ++ Extract.utcnow w city)).
    now rewrite no_underscore_lower.
Qed.

Lemma saved_file_names_its_city_witness :
  Extract.save_raw Scenarios.world_empty_results "Delhi" Scenarios.hourly_payload =
    (Ok "data/raw/delhi_raw_20250101T000000Z.json",
     [EvSaveRaw "data/raw/delhi_raw_20250101T000000Z.json" Scenarios.hourly_payload]) /\
  Transform.city_of_file "delhi_raw_20250101T000000Z.json" = "delhi".
Proof.
  apply (saved_file_names_its_city Scenarios.world_empty_results "Delhi"
           Scenarios.hourly_payload); reflexivity.
Defined.

(** ** transform.py: the frame of an Open-Meteo file *)

Lemma list_lengths_In d c l :
  In (c, JList l) d -> In (List.length l) (Transform.list_lengths d).
Proof.
  intros H. unfold Transform.list_lengths. apply in_flat_map.
  exists (c, JList l). split; [exact H | now left].
Qed.

(** The frame of a dictionary of lists and scalars: row [i] holds item
    [i] of a list and a scalar as it is. *)
Lemma frame_of_columns_rows d df :
  Transform.frame_of_columns d = Ok df ->
  (forall c l, In (c, JList l) d -> List.length l = List.length (rows df)) /\
  (forall i r c j, nth_error (rows df) i = Some r -> dict_get c d = Some j ->
                   cell c r = Transform.entry_cell i j) /\
  rectangular df.
Proof.
  unfold Transform.frame_of_columns.
  destruct d as [|kv d].
  { intros E. injection E as <-. split; [intros c l []|]. split.
    - intros i r c j _ H. discriminate H.
    - intros r []. }
  cbv match. set (d0 := kv :: d).
  destruct (Transform.list_lengths d0) as [|n others] eqn:El; [discriminate|].
  destruct (forallb (Nat.eqb n) others) eqn:Hall; [|discriminate].
  intros E. injection E as <-. cbn [rows columns].
  split; [|split].
  - intros c l Hin. rewrite length_map, length_seq.
    pose proof (list_lengths_In d0 c l Hin) as Hl. rewrite El in Hl.
    destruct Hl as [<-|Hl]; [reflexivity|].
    rewrite forallb_forall in Hall. specialize (Hall _ Hl).
    apply Nat.eqb_eq in Hall. now subst.
  - intros i r c j Hr Hc. rewrite nth_error_map in Hr.
    destruct (nth_error (seq 0 n) i) as [i'|] eqn:Ei; [|discriminate Hr].
    assert (i' = i).
    { pose proof (nth_error_nth _ _ 0%nat Ei) as Hn.
      assert (Hlt : (i < List.length (seq 0 n))%nat)
        by (apply nth_error_Some; congruence).
      rewrite length_seq in Hlt.
      rewrite seq_nth in Hn by exact Hlt. lia. }
    subst i'. cbn in Hr. injection Hr as <-.
    unfold cell.
    match goal with
    | |- context [dict_get c ?l] =>
        change l with (map (fun kv0 : string * json =>
                              (fst kv0, Transform.entry_cell i (snd kv0))) d0)
    end.
    rewrite dict_get_map_snd, Hc. reflexivity.
  - intros r Hr. cbn [rows] in Hr. apply in_map_iff in Hr. destruct Hr as (i & <- & _).
    unfold keys.
    match goal with
    | |- map fst ?l = _ =>
        change l with (map (fun kv0 : string * json =>
                              (fst kv0, Transform.entry_cell i (snd kv0))) d0)
    end.
    rewrite map_map. reflexivity.
Qed.

Lemma dict_get_mem {V} k (d : dict V) v : dict_get k d = Some v -> mem k (map fst d) = true.
Proof.
  induction d as [|[k' v'] d IH]; simpl; [discriminate|].
  destruct (String.eqb k k'); [reflexivity | exact IH].
Qed.

(** X26. For an Open-Meteo file whose [hourly] is a dictionary of lists
    and scalars, the frame it is flattened to has one row per hour: every
    list under [hourly] is as long as the frame has rows; row number [i]
    holds item [i] of each list, the time parsed by [pd.to_datetime], and a
    scalar entry is repeated in every row; every row carries the city of
    the file and has the columns of the frame. *)
Theorem open_meteo_gives_one_row_per_hour P d hourly city df :
  dict_get "hourly" d = Some (JDict hourly) ->
  existsb (fun kv => Transform.is_dict (snd kv)) hourly = false ->
  Transform.flatten_open_meteo P (JDict d) city = Ok df ->
  (forall c l, In (c, JList l) hourly -> List.length l = List.length (rows df)) /\
  (forall i r c l,
     nth_error (rows df) i = Some r -> dict_get c hourly = Some (JList l) ->
     c <> "city" ->
     let item := value_of_json (nth i l JNull) in
     cell c r = if String.eqb c "time"
                then match to_datetime P item with Some t => VTimestamp t | None => VNaT end
                else item) /\
  (forall r c j,
     In r (rows df) -> dict_get c hourly = Some j -> Transform.is_dict j = false ->
     (forall l, j <> JList l) -> c <> "city" -> c <> "time" ->
     cell c r = value_of_json j) /\
  (forall r, In r (rows df) -> cell "city" r = VStr city) /\
  rectangular df.
Proof.
  intros Hd Hnd. unfold Transform.flatten_open_meteo. cbn [json_in json_item and_then].
  rewrite Hd. destruct (mem "hourly" (map fst d)) eqn:Hm; cbn [and_then].
  2:{ rewrite (dict_get_mem _ _ _ Hd) in Hm. discriminate Hm. }
  unfold Transform.frame_of. rewrite Hnd.
  destruct (Transform.frame_of_columns hourly) as [df0|e|] eqn:E0;
    cbn [and_then]; try discriminate.
  destruct (frame_of_columns_rows hourly df0 E0) as (Hlen & Hcell & Hrect).
  set (df1 := assign "city" (fun _ => VStr city) df0).
  assert (Hrow1 : forall i r1, nth_error (rows df1) i = Some r1 ->
            exists r0, nth_error (rows df0) i = Some r0 /\ r1 = dict_set "city" (VStr city) r0).
  { intros i r1 H. unfold df1, assign in H; cbn [rows] in H. rewrite nth_error_map in H.
    destruct (nth_error (rows df0) i) as [r0|]; [|discriminate H].
    injection H as <-. eauto. }
  assert (Hcity1 : forall r, In r (rows df1) -> cell "city" r = VStr city).
  { intros r Hr. unfold df1, assign in Hr; cbn [rows] in Hr.
    apply in_map_iff in Hr. destruct Hr as [r0 [<- _]]. apply cell_set_same. }
  assert (Hlen1 : List.length (rows df1) = List.length (rows df0))
    by (unfold df1, assign; cbn [rows]; apply length_map).
  assert (Hrect1 : rectangular df1) by (apply rectangular_assign; exact Hrect).
  destruct (has_column "time" df1) eqn:Htime; intros E; injection E as <-.
  - set (f := fun r => match to_datetime P (cell "time" r) with
                       | Some t => VTimestamp t
                       | None => VNaT
                       end).
    assert (Hrow2 : forall i r, nth_error (rows (assign "time" f df1)) i = Some r ->
              exists r1, nth_error (rows df1) i = Some r1 /\ r = dict_set "time" (f r1) r1).
    { intros i r H. unfold assign in H; cbn [rows] in H. rewrite nth_error_map in H.
      destruct (nth_error (rows df1) i) as [r1|]; [|discriminate H].
      injection H as <-. eauto. }
    split; [|split; [|split; [|split]]].
    + intros c l Hin. rewrite (Hlen c l Hin). unfold assign; cbn [rows].
      now rewrite length_map.
    + intros i r c l Hr Hc Hcity. cbv zeta.
      destruct (Hrow2 i r Hr) as (r1 & Hr1 & ->).
      destruct (Hrow1 i r1 Hr1) as (r0 & Hr0 & ->).
      pose proof (Hcell i r0 c (JList l) Hr0 Hc) as Hc0. cbn [Transform.entry_cell] in Hc0.
      destruct (String.eqb_spec c "time") as [->|Hne].
      * rewrite cell_set_same. unfold f.
        rewrite cell_set_other by discriminate. now rewrite Hc0.
      * rewrite !cell_set_other by assumption. exact Hc0.
    + intros r c j Hr Hc Hj Hl Hcity Hne.
      apply In_nth_error in Hr. destruct Hr as [i Hr].
      destruct (Hrow2 i r Hr) as (r1 & Hr1 & ->).
      destruct (Hrow1 i r1 Hr1) as (r0 & Hr0 & ->).
      rewrite !cell_set_other by assumption.
      rewrite (Hcell i r0 c j Hr0 Hc). destruct j; try reflexivity.
      exfalso. eapply Hl. reflexivity.
    + intros r Hr. unfold assign in Hr at 1; cbn [rows] in Hr.
      apply in_map_iff in Hr. destruct Hr as [r1 [<- Hr1]].
      rewrite cell_set_other by discriminate. now apply Hcity1.
    + now apply rectangular_assign.
  - split; [|split; [|split; [|split]]].
    + intros c l Hin. rewrite (Hlen c l Hin). now rewrite Hlen1.
    + intros i r c l Hr Hc Hcity. cbv zeta.
      destruct (Hrow1 i r Hr) as (r0 & Hr0 & ->).
      pose proof (Hcell i r0 c (JList l) Hr0 Hc) as Hc0. cbn [Transform.entry_cell] in Hc0.
      destruct (String.eqb_spec c "time") as [->|Hne].
      * exfalso. apply dict_get_mem in Hc.
        assert (Hcol : has_column "time" df0 = true).
        { unfold Transform.frame_of_columns in E0. destruct hourly as [|kv h]; [discriminate Hc|].
          revert E0. cbv match.
          destruct (Transform.list_lengths _); [discriminate|].
          destruct (forallb _ _); [|discriminate].
          intros E. injection E as <-. exact Hc. }
        unfold df1 in Htime. rewrite has_column_assign, Hcol in Htime. discriminate Htime.
      * rewrite cell_set_other by assumption. exact Hc0.
    + intros r c j Hr Hc Hj Hl Hcity Hne.
      apply In_nth_error in Hr. destruct Hr as [i Hr].
      destruct (Hrow1 i r Hr) as (r0 & Hr0 & ->).
      rewrite cell_set_other by assumption.
      rewrite (Hcell i r0 c j Hr0 Hc). destruct j; try reflexivity.
      exfalso. eapply Hl. reflexivity.
    + exact Hcity1.
    + exact Hrect1.
Qed.

Lemma open_meteo_gives_one_row_per_hour_witness :
  let P := Scenarios.sample_parsers in
  let df := Cases.hourly_frame in
  (forall c l, In (c, JList l) Cases.hourly_entries ->
     List.length l = List.length (rows df)) /\
  (forall i r c l,
     nth_error (rows df) i = Some r ->
     dict_get c Cases.hourly_entries = Some (JList l) ->
     c <> "city" ->
     let item := value_of_json (nth i l JNull) in
     cell c r = if String.eqb c "time"
                then match to_datetime P item with Some t => VTimestamp t | None => VNaT end
                else item) /\
  (forall r c j,
     In r (rows df) -> dict_get c Cases.hourly_entries = Some j ->
     Transform.is_dict j = false ->
     (forall l, j <> JList l) -> c <> "city" -> c <> "time" ->
     cell c r = value_of_json j) /\
  (forall r, In r (rows df) -> cell "city" r = VStr "delhi") /\
  rectangular df.
Proof.
  intros P df.
  apply (open_meteo_gives_one_row_per_hour P
           [("hourly", JDict Cases.hourly_entries)] Cases.hourly_entries "delhi" df);
    [reflexivity | reflexivity | vm_compute; reflexivity].
Defined.
